(** * Feature extraction of mind-ar-js (image-target tracker): a shallow embedding

    The development follows [src/image-target/tracker/extract.js] (the
    dispatcher [extract], the corner, color and line detectors, and the
    template helpers) and [src/image-target/utils/isInFrameArea.js].

    Conventions of the embedding.
    - A JavaScript number that may hold a fraction, an infinity or NaN is a
      binary64 [float] (Rocq's primitive floats are IEEE 754 binary64, the
      format of JS numbers).  A Float32Array element is a [float] rounded by
      [fround].
    - A JavaScript number that the code only ever uses as an integer (pixel
      coordinates, array indices, widths, counters, sample values) is a [Z];
      doubles represent integers exactly below 2^53, which is far above any
      array length.  [Z2F] is the (exact, there) injection into [float].
      Two results of a division are computed on integers: the radius
      [occSize] and the centroid [Math_round_quot]; the examples
      [occSize_agrees] and [Math_round_quot_agrees] compare them with the
      double computation.
    - Reading an array out of range gives [undefined], which behaves as NaN in
      every arithmetic operation and comparison the code performs on it;
      writing a typed array out of range is ignored.
    - A thrown exception is the [Thrown] outcome.
    - [Math.cos] and [Math.sin] are parameters of the line detector;
      [RefMath] is a concrete pair used to run it. *)

From Stdlib Require Import ZArith List Lia Bool String Floats.
From stdpp Require Import base list.
Set Warnings "-inexact-float".
Open Scope Z_scope.

(** ** JavaScript numbers *)

(** The double nearest to an integer (exact when [|z| <= 2^53]). *)
Definition Z2F (z : Z) : float := SF2Prim (binary_normalize prec emax z 0 false).

(** The signed integer mantissa of a finite nonzero double [(-1)^s * m * 2^e]. *)
Definition signed (s : bool) (m : positive) : Z := if s then Z.neg m else Z.pos m.

(** The integer a double holds, when it holds one. *)
Definition F2Z (x : float) : option Z :=
  match Prim2SF x with
  | S754_zero _ => Some 0
  | S754_finite s m e =>
      if 0 <=? e then Some (signed s m * 2 ^ e)
      else if signed s m mod 2 ^ (- e) =? 0 then Some (signed s m / 2 ^ (- e))
      else None
  | _ => None
  end.

(** [Math.fround]: the value a Float32Array element takes when it is stored. *)
Definition fround (x : float) : float :=
  match Prim2SF x with
  | S754_finite s m e => SF2Prim (binary_round 24 128 s m e)
  | _ => x
  end.

(** [Math.floor]; zeros, infinities and NaN are returned unchanged. *)
Definition Math_floor (x : float) : float :=
  match Prim2SF x with
  | S754_finite s m e =>
      if 0 <=? e then x else Z2F (signed s m / 2 ^ (- e))
  | _ => x
  end.

(** [Math.ceil]: a value in (-1, 0) gives -0. *)
Definition Math_ceil (x : float) : float :=
  match Prim2SF x with
  | S754_finite s m e =>
      if 0 <=? e then x
      else let z := - ((- signed s m) / 2 ^ (- e)) in
           if z =? 0 then neg_zero else Z2F z
  | _ => x
  end.

(** [Math.round]: nearest integer, ties towards +infinity; a value in
    [-0.5, 0) gives -0. *)
Definition Math_round (x : float) : float :=
  match Prim2SF x with
  | S754_finite s m e =>
      if 0 <=? e then x
      else let z := (2 * signed s m + 2 ^ (- e)) / 2 ^ (1 - e) in
           if z =? 0 then (if s then neg_zero else zero) else Z2F z
  | _ => x
  end.

Definition Math_PI : float := 3.141592653589793%float.

(** ** Arrays *)

Definition lookupZ {A} (l : list A) (i : Z) : option A :=
  if i <? 0 then None else l !! Z.to_nat i.

(** A write through an index: ignored out of range (typed arrays). *)
Definition storeZ {A} (l : list A) (i : Z) (v : A) : list A :=
  if i <? 0 then l else <[Z.to_nat i := v]> l.

(** A sample of the image buffer used as a number. *)
Definition px (imageData : list Z) (i : Z) : float :=
  from_option Z2F nan (lookupZ imageData i).

(** An element of a Float32Array used as a number. *)
Definition rd (a : list float) (i : Z) : float := default nan (lookupZ a i).

(** [a[i] = v] on a Float32Array. *)
Definition store32 (a : list float) (i : Z) (v : float) : list float :=
  storeZ a i (fround v).

(** [for (let i = lo; i < hi; i++) body]. *)
Definition for_range {S} (lo hi : Z) (body : Z -> S -> S) (s : S) : S :=
  fold_left (fun s i => body i s) (seqZ lo (hi - lo)) s.

(** ** Outcomes of a call *)

Inductive JsError := TypeError | RangeError.

Inductive outcome (A : Type) :=
| Returned (a : A)
| Thrown (e : JsError).
Arguments Returned {A} a.
Arguments Thrown {A} e.

#[global] Instance outcome_ret : MRet outcome := fun _ a => Returned a.
#[global] Instance outcome_bind : MBind outcome := fun _ _ k m =>
  match m with
  | Returned a => k a
  | Thrown e => Thrown e
  end.

(** A loop whose body may throw. *)
Fixpoint for_each {S X} (xs : list X) (body : X -> S -> outcome S) (s : S) : outcome S :=
  match xs with
  | [] => Returned s
  | x :: xs' => s' ← body x s; for_each xs' body s'
  end.

(** ** The frame-border predicate (utils/isInFrameArea.js) *)

Record FrameBorder := mkFrameBorder
  { top : float; right : float; bottom : float; left : float }.

Definition isInFrameArea (x y width height : float) (frameBorder : FrameBorder) : bool :=
  if ((top frameBorder =? 0) && (right frameBorder =? 0) &&
      (bottom frameBorder =? 0) && (left frameBorder =? 0))%float
  then true
  else
    let topPixels := Math_floor (height * top frameBorder)%float in
    let bottomPixels := (height - Math_floor (height * bottom frameBorder))%float in
    let leftPixels := Math_floor (width * left frameBorder)%float in
    let rightPixels := (width - Math_floor (width * right frameBorder))%float in
    ((x <? leftPixels) || (rightPixels <? x) || (y <? topPixels) || (bottomPixels <? y))%float.

(** ** Data model (tracker/extract.js) *)

(** [image = {data, width, height, scale}]; [data] may be [null]. *)
Record Image := mkImage
  { data : option (list Z); width : Z; height : Z; scale : float }.

Definition SEARCH_SIZE1 : Z := 10.
Definition SEARCH_SIZE2 : Z := 2.
Definition TEMPLATE_SIZE : Z := 6.
Definition TEMPLATE_SD_THRESH : float := 5%float.
Definition MAX_SIM_THRESH : float := 0.95%float.
Definition MAX_THRESH : float := 0.9%float.
Definition MIN_THRESH : float := 0.2%float.
Definition SD_THRESH : float := 8%float.
Definition OCCUPANCY_SIZE : Z := 24 * 2 / 3.

Module DETECTION_MODES.
Definition CORNER : string := "corner".
Definition COLOR : string := "color".
Definition LINES : string := "lines".
End DETECTION_MODES.

(** The option records after merging with the defaults. *)
Record CornerOptions := mkCornerOptions { }.
Record ColorOptions := mkColorOptions
  { numClusters : Z; minRegionSize : Z; colorThreshold : float }.
Record LinesOptions := mkLinesOptions
  { edgeThreshold : float; houghThreshold : Z; minLineLength : Z; maxLineGap : Z }.

(** The option objects as a caller passes them: any key may be absent. *)
Record ColorOptionsArg := mkColorOptionsArg
  { numClusters_opt : option Z; minRegionSize_opt : option Z;
    colorThreshold_opt : option float }.
Record LinesOptionsArg := mkLinesOptionsArg
  { edgeThreshold_opt : option float; houghThreshold_opt : option Z;
    minLineLength_opt : option Z; maxLineGap_opt : option Z }.

(** [options.modes]: an array of mode strings, or a single string. *)
Inductive Modes :=
| ModeArray (ms : list string)
| ModeString (m : string).

Record DetectionOptions := mkDetectionOptions
  { modes : option Modes;
    cornerOptions : option CornerOptions;
    colorOptions : option ColorOptionsArg;
    linesOptions : option LinesOptionsArg }.

Definition DEFAULT_modes : Modes := ModeArray [DETECTION_MODES.CORNER].
Definition DEFAULT_colorOptions : ColorOptions :=
  {| numClusters := 5; minRegionSize := 50; colorThreshold := 30%float |}.
Definition DEFAULT_linesOptions : LinesOptions :=
  {| edgeThreshold := 50%float; houghThreshold := 50; minLineLength := 30; maxLineGap := 10 |}.

Definition DEFAULT_DETECTION_OPTIONS : DetectionOptions :=
  {| modes := Some DEFAULT_modes;
     cornerOptions := Some mkCornerOptions;
     colorOptions := Some
       {| numClusters_opt := Some (numClusters DEFAULT_colorOptions);
          minRegionSize_opt := Some (minRegionSize DEFAULT_colorOptions);
          colorThreshold_opt := Some (colorThreshold DEFAULT_colorOptions) |};
     linesOptions := Some
       {| edgeThreshold_opt := Some (edgeThreshold DEFAULT_linesOptions);
          houghThreshold_opt := Some (houghThreshold DEFAULT_linesOptions);
          minLineLength_opt := Some (minLineLength DEFAULT_linesOptions);
          maxLineGap_opt := Some (maxLineGap DEFAULT_linesOptions) |} |}.

(** An integer-valued JS number, or NaN. *)
Inductive IntOrNaN := Int (z : Z) | NaN.

(** A feature; the constructor is the [type] tag [extract] adds
    (['corner'], ['color'], ['lines']). *)
Inductive Feature :=
| Corner (x y : Z)
| ColorRegion (x y : IntOrNaN) (intensity : float) (regionSize : Z)
| Line (x y : float) (theta rho : float) (votes : Z).

(** ** Prefix sums *)

Record Cumsum := mkCumsum { query : Z -> Z -> Z -> Z -> float }.

(** The sum of [values] over the inclusive rectangle [x1..x2] x [y1..y2] of a
    row-major [width]-wide array. *)
Definition rect_sum (values : list Z) (width x1 y1 x2 y2 : Z) : Z :=
  for_range y1 (y2 + 1) (fun y acc =>
    for_range x1 (x2 + 1) (fun x acc =>
      acc + default 0 (lookupZ values (y * width + x))) acc) 0.

(** Modelled from the spec: the class [Cumsum] of utils/cumsum.js, which is not
    among the sources.  The spec gives its contract: [query(x1,y1,x2,y2)]
    returns the exact sum over the inclusive rectangle, for a rectangle inside
    the image. *)
Definition new_Cumsum (values : list Z) (width height : Z) : Cumsum :=
  mkCumsum (fun x1 y1 x2 y2 => Z2F (rect_sum values width x1 y1 x2 y2)).

(** ** Template variance and similarity *)

(** [_templateVar]: [None] is the source's [null]. *)
Definition _templateVar (image : Image) (cx cy : Z) (sdThresh : float)
    (imageDataCumsum imageDataSqrCumsum : Cumsum) : option float :=
  if (cx - TEMPLATE_SIZE <? 0) || (cx + TEMPLATE_SIZE >=? width image) then None
  else if (cy - TEMPLATE_SIZE <? 0) || (cy + TEMPLATE_SIZE >=? height image) then None
  else
    let templateWidth := 2 * TEMPLATE_SIZE + 1 in
    let nPixels := templateWidth * templateWidth in
    let window c :=
      query c (cx - TEMPLATE_SIZE) (cy - TEMPLATE_SIZE) (cx + TEMPLATE_SIZE) (cy + TEMPLATE_SIZE) in
    let average := (window imageDataCumsum / Z2F nPixels)%float in
    let vlen := window imageDataSqrCumsum in
    let vlen := (vlen - 2 * average * window imageDataCumsum)%float in
    let vlen := (vlen + Z2F nPixels * average * average)%float in
    if (vlen / Z2F nPixels <? sdThresh * sdThresh)%float then None
    else Some (sqrt vlen).

(** The cross term of [_getSimilarity]: two pointers walk the two windows. *)
Definition cross_term (imageData : list Z) (width templateWidth p1 p2 : Z) : float :=
  let nextRowOffset := width - templateWidth in
  fst (for_range 0 templateWidth (fun _ '(sxy, (p1, p2)) =>
         let '(sxy, (p1, p2)) :=
           for_range 0 templateWidth (fun _ '(sxy, (p1, p2)) =>
             ((sxy + px imageData p1 * px imageData p2)%float, (p1 + 1, p2 + 1)))
             (sxy, (p1, p2)) in
         (sxy, (p1 + nextRowOffset, p2 + nextRowOffset)))
       (0%float, (p1, p2))).

(** [_getSimilarity]: the window at [(cx, cy)] against the template window at
    [(tx, ty)], whose [vlen] the caller passes. *)
Definition _getSimilarity (imageData : list Z) (width height : Z) (cx cy : Z)
    (vlen : float) (tx ty : Z) (imageDataCumsum imageDataSqrCumsum : Cumsum) : option float :=
  let templateSize := TEMPLATE_SIZE in
  if (cx - templateSize <? 0) || (cx + templateSize >=? width) then None
  else if (cy - templateSize <? 0) || (cy + templateSize >=? height) then None
  else
    let templateWidth := 2 * templateSize + 1 in
    let sx := query imageDataCumsum (cx - templateSize) (cy - templateSize)
                (cx + templateSize) (cy + templateSize) in
    let sxx := query imageDataSqrCumsum (cx - templateSize) (cy - templateSize)
                 (cx + templateSize) (cy + templateSize) in
    let p1 := (cy - templateSize) * width + (cx - templateSize) in
    let p2 := (ty - templateSize) * width + (tx - templateSize) in
    let sxy := cross_term imageData width templateWidth p1 p2 in
    let templateAverage := query imageDataCumsum (tx - templateSize) (ty - templateSize)
                             (tx + templateSize) (ty + templateSize) in
    let templateAverage := (templateAverage / Z2F (templateWidth * templateWidth))%float in
    let sxy := (sxy - templateAverage * sx)%float in
    let vlen2 := (sxx - sx * sx / Z2F (templateWidth * templateWidth))%float in
    if (vlen2 =? 0)%float then None
    else
      let vlen2 := sqrt vlen2 in
      Some (1 * sxy / (vlen * vlen2))%float.

(** [for (x of xs) { body; }] where the body may [break]: the body returns the
    new state and whether it broke out. *)
Fixpoint for_break {S X} (xs : list X) (body : X -> S -> S * bool) (s : S) : S :=
  match xs with
  | [] => s
  | x :: xs' => let '(s', brk) := body x s in
                if brk then s' else for_break xs' body s'
  end.

(** [isInFrameArea] at integer pixel coordinates. *)
Definition inFrame (i j width height : Z) (frameDetection : FrameBorder) : bool :=
  isInFrameArea (Z2F i) (Z2F j) (Z2F width) (Z2F height) frameDetection.

(** ** Corner detection: greedy selection ([_selectFeature]) *)

Section SelectFeature.
Variables (image : Image) (imageData : list Z) (featureMap : list float).
Variables (templateSize searchSize : Z).
Variables (maxSimThresh minSimThresh sdThresh : float).
Variables (imageDataCumsum imageDataSqrCumsum : Cumsum).
Variable (frameDetection : FrameBorder).

(** [occSize = Math.floor(Math.min(image.width, image.height) / 10)]: the
    [occSize] the caller passes ([OCCUPANCY_SIZE]) is overwritten before it
    is read, so it is not a parameter here. *)
Definition occSize : Z := Z.min (width image) (height image) / 10.

Definition maxFeatureNum : float :=
  let divSize := (templateSize * 2 + 1) * 3 in
  let xDiv := Math_floor (Z2F (width image) / Z2F divSize)%float in
  let yDiv := Math_floor (Z2F (height image) / Z2F divSize)%float in
  (Math_floor (Z2F (width image) / Z2F occSize) *
   Math_floor (Z2F (height image) / Z2F occSize) + xDiv * yDiv)%float.

(** The raster scan for the smallest value below [maxSimThresh]:
    [(minSim, cx, cy)], with [cx = cy = -1] when there is none. *)
Definition scan_min (image2 : list float) : float * Z * Z :=
  for_range 0 (height image) (fun j acc =>
    for_range 0 (width image) (fun i '(minSim, cx, cy) =>
      if negb (inFrame i j (width image) (height image) frameDetection)
      then (minSim, cx, cy)
      else if (rd image2 (j * width image + i) <? minSim)%float
           then (rd image2 (j * width image + i), i, j)
           else (minSim, cx, cy)) acc)
    (maxSimThresh, -1, -1).

(** The test that rejects a candidate after (or during) the neighbour scan. *)
Definition rejected (minSim min max : float) : bool :=
  ((min <? minSimThresh) && (min <? minSim) || (0.99 <? max))%float.

(** The scan of the disk of radius [searchSize] around [(cx, cy)]. *)
Definition neighbour_scan (cx cy : Z) (vlen minSim : float) : float * float :=
  let range := seqZ (- searchSize) (searchSize + 1 + searchSize) in
  for_break range (fun j '(min, max) =>
    let '(min, max) :=
      for_break range (fun i '(min, max) =>
        if searchSize * searchSize <? i * i + j * j then ((min, max), false)
        else if (i =? 0) && (j =? 0) then ((min, max), false)
        else
          match _getSimilarity imageData (width image) (height image)
                  (cx + i) (cy + j) vlen cx cy imageDataCumsum imageDataSqrCumsum with
          | None => ((min, max), false)
          | Some sim =>
              let min' := if (sim <? min)%float then sim else min in
              if ((sim <? min) && ((min' <? minSimThresh) && (min' <? minSim)))%float
              then ((min', max), true)
              else
                let max' := if (max <? sim)%float then sim else max in
                if ((max <? sim) && (0.99 <? max'))%float
                then ((min', max'), true)
                else ((min', max'), false)
          end) (min, max) in
    ((min, max), rejected minSim min max))
    (1%float, (-1)%float).

(** No other feature point within the [occSize] square. *)
Definition mark_square (image2 : list float) (cx cy : Z) : list float :=
  for_range (- occSize) (occSize + 1) (fun j image2 =>
    for_range (- occSize) (occSize + 1) (fun i image2 =>
      if (cy + j <? 0) || (cy + j >=? height image) ||
         (cx + i <? 0) || (cx + i >=? width image)
      then image2
      else store32 image2 ((cy + j) * width image + (cx + i)) 1) image2) image2.

(** The [while (num < maxFeatureNum)] loop; [fuel] bounds the number of
    iterations ([select_loop_terminates] shows the bound used is enough). *)
Fixpoint select_loop (fuel : nat) (image2 : list float) (num : Z) (coords : list (Z * Z))
    : option (list (Z * Z)) :=
  match fuel with
  | O => None
  | S fuel' =>
      if negb (Z2F num <? maxFeatureNum)%float then Some coords
      else
        let '(minSim, cx, cy) := scan_min image2 in
        if cx =? -1 then Some coords
        else
          let discard := store32 image2 (cy * width image + cx) 1 in
          match _templateVar image cx cy 0 imageDataCumsum imageDataSqrCumsum with
          | None => select_loop fuel' discard num coords
          | Some vlen =>
              if (vlen / Z2F (templateSize * 2 + 1) <? sdThresh)%float
              then select_loop fuel' discard num coords
              else
                let '(min, max) := neighbour_scan cx cy vlen minSim in
                if rejected minSim min max
                then select_loop fuel' discard num coords
                else select_loop fuel' (mark_square image2 cx cy) (num + 1)
                       (coords ++ [(cx, cy)])
          end
  end.

(** [image2] is a Float32Array of [imageData.length] elements copied from
    [featureMap]. *)
Definition image2_init : list float :=
  for_range 0 (Z.of_nat (length imageData)) (fun i image2 =>
    store32 image2 i (rd featureMap i))
    (replicate (length imageData) 0%float).

Definition _selectFeature : list (Z * Z) :=
  default [] (select_loop (S (length imageData)) image2_init 0 []).
End SelectFeature.

(** ** Corner detection ([_extractCornerFeatures]) *)

(** [a[i] += 1] on a Uint32Array. *)
Definition incr32 (a : list Z) (i : Z) : list Z :=
  match lookupZ a i with
  | Some v => storeZ a i ((v + 1) mod 2 ^ 32)
  | None => a
  end.

(** Step 1.1: the gradient score [dValue] of every pixel. *)
Definition gradient_map (imageData : list Z) (width height : Z)
    (frameDetection : FrameBorder) : list float :=
  let dValue := replicate (length imageData) 0%float in
  let dValue := for_range 0 width (fun i dValue =>
    let dValue := store32 dValue i (-1) in
    store32 dValue (width * (height - 1) + i) (-1)) dValue in
  let dValue := for_range 0 height (fun j dValue =>
    let dValue := store32 dValue (j * width) (-1) in
    store32 dValue (j * width + width - 1) (-1)) dValue in
  for_range 1 (width - 1) (fun i dValue =>
    for_range 1 (height - 1) (fun j dValue =>
      let pos := i + width * j in
      if negb (inFrame i j width height frameDetection) then dValue
      else
        let '(dx, dy) := for_range (-1) 2 (fun k '(dx, dy) =>
          ((dx + (px imageData (pos + width * k + 1) - px imageData (pos + width * k - 1)))%float,
           (dy + (px imageData (pos + width + k) - px imageData (pos - width + k)))%float))
          (0%float, 0%float) in
        let dx := (dx / (3 * 256))%float in
        let dy := (dy / (3 * 256))%float in
        store32 dValue pos (sqrt ((dx * dx + dy * dy) / 2))) dValue) dValue.

(** Step 1.2: the local maxima, with the histogram of their scores.  The
    sparse boolean array [isPixelSelected] is the list of the selected
    positions. *)
Definition local_maxima (dValue : list float) (width height : Z)
    (frameDetection : FrameBorder) : list Z * Z * list Z :=
  let neighbourOffsets := [-1; 1; - width; width] in
  for_range 1 (width - 1) (fun i st =>
    for_range 1 (height - 1) (fun j '(dValueHist, allCount, isPixelSelected) =>
      let pos := i + width * j in
      if negb (inFrame i j width height frameDetection)
      then (dValueHist, allCount, isPixelSelected)
      else
        let isMax := forallb (fun d =>
          negb (rd dValue pos <=? rd dValue (pos + d))%float) neighbourOffsets in
        if isMax then
          let k := Math_floor (rd dValue pos * 1000)%float in
          let k := if (999 <? k)%float then 999%float else k in
          let k := if (k <? 0)%float then 0%float else k in
          let dValueHist := match F2Z k with
                            | Some k => incr32 dValueHist k
                            | None => dValueHist
                            end in
          (dValueHist, allCount + 1, pos :: isPixelSelected)
        else (dValueHist, allCount, isPixelSelected)) st)
    (replicate 1000 0, 0, []).

(** The histogram bin at which the running count exceeds [maxPoints]
    ([-1] when it never does). *)
Fixpoint hist_cut (dValueHist : list Z) (maxPoints : float) (ks : list Z)
    (filteredCount : Z) : Z :=
  match ks with
  | [] => -1
  | k :: ks' =>
      let filteredCount := filteredCount + default 0 (lookupZ dValueHist k) in
      if (maxPoints <? Z2F filteredCount)%float then k
      else hist_cut dValueHist maxPoints ks' filteredCount
  end.

Definition selected_pixels (imageData : list Z) (width height : Z)
    (frameDetection : FrameBorder) : list Z :=
  let dValue := gradient_map imageData width height frameDetection in
  let '(dValueHist, allCount, isPixelSelected) :=
    local_maxima dValue width height frameDetection in
  let maxPoints := (0.02 * Z2F width * Z2F height)%float in
  let k := hist_cut dValueHist maxPoints (reverse (seqZ 0 1000)) 0 in
  filter (fun i => negb (rd dValue i * 1000 <? Z2F k)%float) isPixelSelected.

(** [isPixelSelected[pos]]. *)
Definition isSelected (isPixelSelected : list Z) (pos : Z) : bool :=
  existsb (Z.eqb pos) isPixelSelected.

(** Step 2: the largest similarity found around each selected pixel. *)
Definition feature_map (image : Image) (imageData : list Z) (isPixelSelected : list Z)
    (imageDataCumsum imageDataSqrCumsum : Cumsum) : list float :=
  let width := width image in
  let height := height image in
  let range := seqZ (- SEARCH_SIZE1) (SEARCH_SIZE1 + 1 + SEARCH_SIZE1) in
  for_range 0 width (fun i featureMap =>
    for_range 0 height (fun j featureMap =>
      let pos := j * width + i in
      if negb (isSelected isPixelSelected pos) then store32 featureMap pos 1
      else
        match _templateVar image i j TEMPLATE_SD_THRESH imageDataCumsum imageDataSqrCumsum with
        | None => store32 featureMap pos 1
        | Some vlen =>
            let max :=
              for_break range (fun jj max =>
                let max :=
                  for_break range (fun ii max =>
                    if ii * ii + jj * jj <=? SEARCH_SIZE2 * SEARCH_SIZE2 then (max, false)
                    else
                      match _getSimilarity imageData width height (i + ii) (j + jj) vlen i j
                              imageDataCumsum imageDataSqrCumsum with
                      | None => (max, false)
                      | Some sim =>
                          if (max <? sim)%float then (sim, (MAX_SIM_THRESH <? sim)%float)
                          else (max, false)
                      end) max in
                (max, (MAX_SIM_THRESH <? max)%float)) (-1)%float in
            store32 featureMap pos max
        end) featureMap)
    (replicate (length imageData) 0%float).

Definition _extractCornerFeatures (image : Image) (frameDetection : FrameBorder)
    (cornerOptions : CornerOptions) : outcome (list Feature) :=
  match data image with
  | None => Thrown TypeError (* [imageData.length] on [null] *)
  | Some imageData =>
      let isPixelSelected :=
        selected_pixels imageData (width image) (height image) frameDetection in
      let imageDataSqr := map (fun v => v * v) imageData in
      let imageDataCumsum := new_Cumsum imageData (width image) (height image) in
      let imageDataSqrCumsum := new_Cumsum imageDataSqr (width image) (height image) in
      let featureMap :=
        feature_map image imageData isPixelSelected imageDataCumsum imageDataSqrCumsum in
      let coords :=
        _selectFeature image imageData featureMap TEMPLATE_SIZE SEARCH_SIZE2
          MAX_THRESH MIN_THRESH SD_THRESH imageDataCumsum imageDataSqrCumsum frameDetection in
      Returned (map (fun c => Corner c.1 c.2) coords)
  end.

(** ** Color detection ([_extractColorFeatures]) *)

Record Pixel := mkPixel { pixel_x : Z; pixel_y : Z; pixel_intensity : float }.
Record Cluster := mkCluster { pixels : list Pixel; centerIntensity : float }.

(** [Math.round(sum / n)] for an integer [sum] and a count [n]: NaN for the
    empty count (where [sum] is 0 as well), else the integer nearest to the
    quotient, ties upwards.  The double quotient of integers below 2^52 lies
    on the same side of every half-integer as the exact quotient, so the
    rounding is computed on the exact quotient. *)
Definition Math_round_quot (sum n : Z) : IntOrNaN :=
  if n =? 0 then NaN else Int ((2 * sum + n) / (2 * n)).

(** The pixels of the image in the order of [for y ... for x ...]. *)
Definition raster (width height : Z) : list (Z * Z) :=
  y ← seqZ 0 height; x ← seqZ 0 width; [(x, y)].

(** The nearest center: [(minDist, clusterIdx)]. *)
Definition nearest_cluster (clusters : list Cluster) (numClusters : Z) (intensity : float)
    : float * Z :=
  for_range 0 numClusters (fun i '(minDist, clusterIdx) =>
    let dist := abs (intensity - from_option centerIntensity nan (lookupZ clusters i))%float in
    if (dist <? minDist)%float then (dist, i) else (minDist, clusterIdx))
    (infinity, 0).

(** [clusters[clusterIdx].pixels.push(p)]. *)
Definition push_pixel (clusters : list Cluster) (clusterIdx : Z) (p : Pixel) : list Cluster :=
  match lookupZ clusters clusterIdx with
  | Some c => storeZ clusters clusterIdx (mkCluster (pixels c ++ [p]) (centerIntensity c))
  | None => clusters
  end.

Definition assign_pixels (image : Image) (frameDetection : FrameBorder)
    (numClusters : Z) (colorThreshold : float) (clusters : list Cluster)
    : outcome (list Cluster) :=
  for_each (raster (width image) (height image)) (fun '(x, y) clusters =>
    if negb (inFrame x y (width image) (height image) frameDetection)
    then Returned clusters
    else
      let pos := y * width image + x in
      match data image with
      | None => Thrown TypeError (* [imageData[pos]] on [null] *)
      | Some imageData =>
          let intensity := px imageData pos in
          let '(minDist, clusterIdx) := nearest_cluster clusters numClusters intensity in
          if (minDist <? colorThreshold)%float
          then Returned (push_pixel clusters clusterIdx (mkPixel x y intensity))
          else Returned clusters
      end) clusters.

Definition cluster_features (minRegionSize : Z) (clusters : list Cluster) : list Feature :=
  cluster ← clusters;
  let n := Z.of_nat (length (pixels cluster)) in
  if n <? minRegionSize then []
  else
    let sumX := fold_left (fun s p => s + pixel_x p) (pixels cluster) 0 in
    let sumY := fold_left (fun s p => s + pixel_y p) (pixels cluster) 0 in
    [ColorRegion (Math_round_quot sumX n) (Math_round_quot sumY n)
       (centerIntensity cluster) n].

Definition _extractColorFeatures (image : Image) (frameDetection : FrameBorder)
    (colorOptions : ColorOptions) : outcome (list Feature) :=
  let numClusters := numClusters colorOptions in
  if (numClusters <? 0) || (2 ^ 32 <=? numClusters)
  then Thrown RangeError (* [new Array(numClusters)] *)
  else
    let clusters := map (fun i =>
      mkCluster [] ((Z2F i + 0.5) * (255 / Z2F numClusters))%float) (seqZ 0 numClusters) in
    clusters ← assign_pixels image frameDetection numClusters
                 (colorThreshold colorOptions) clusters;
    Returned (cluster_features (minRegionSize colorOptions) clusters).

(** ** Line detection ([_extractLineFeatures]) and the dispatcher ([extract]) *)

Section Extract.
(** [Math.cos] and [Math.sin]: ECMAScript leaves their values to the
    implementation, so the detectors are parameterised by them. *)
Variables Math_cos Math_sin : float -> float.

Definition thetaSteps : Z := 180.

(** Step 1: the Sobel edge map, a Uint8Array of [width * height] elements. *)
Definition edge_map (image : Image) (frameDetection : FrameBorder) (edgeThreshold : float)
    : outcome (list Z) :=
  let width := width image in
  let height := height image in
  if width * height <? 0 then Thrown RangeError (* [new Uint8Array(width * height)] *)
  else
    for_each (y ← seqZ 1 (height - 2); x ← seqZ 1 (width - 2); [(x, y)])
      (fun '(x, y) edges =>
         if negb (inFrame x y width height frameDetection) then Returned edges
         else
           let pos := y * width + x in
           match data image with
           | None => Thrown TypeError (* [imageData[pos - width - 1]] on [null] *)
           | Some imageData =>
               let I := px imageData in
               let gx := (- I (pos - width - 1)%Z - 2 * I (pos - 1)%Z - I (pos + width - 1)%Z
                          + I (pos - width + 1)%Z + 2 * I (pos + 1)%Z
                          + I (pos + width + 1)%Z)%float in
               let gy := (- I (pos - width - 1)%Z - 2 * I (pos - width)%Z - I (pos - width + 1)%Z
                          + I (pos + width - 1)%Z + 2 * I (pos + width)%Z
                          + I (pos + width + 1)%Z)%float in
               let magnitude := sqrt (gx * gx + gy * gy) in
               Returned (storeZ edges pos (if (edgeThreshold <? magnitude)%float then 255 else 0))
           end)
      (replicate (Z.to_nat (width * height)) 0).

Definition maxRho (width height : Z) : float :=
  sqrt (Z2F width * Z2F width + Z2F height * Z2F height).

Definition theta_of (thetaIdx : Z) : float := (Z2F thetaIdx * Math_PI / Z2F thetaSteps)%float.

(** Step 2: the votes, a Uint32Array of [thetaSteps * rhoSteps] elements. *)
Definition hough_votes (edges : list Z) (width height rhoSteps : Z) : list Z :=
  for_range 0 height (fun y accumulator =>
    for_range 0 width (fun x accumulator =>
      let pos := y * width + x in
      match lookupZ edges pos with
      | Some 0 => accumulator
      | _ =>
          for_range 0 thetaSteps (fun thetaIdx accumulator =>
            let theta := theta_of thetaIdx in
            let rho := (Z2F x * Math_cos theta + Z2F y * Math_sin theta)%float in
            let rhoIdx := Math_round (rho + maxRho width height / 2) in
            if ((0 <=? rhoIdx) && (rhoIdx <? Z2F rhoSteps))%float
            then match F2Z rhoIdx with
                 | Some rhoIdx => incr32 accumulator (thetaIdx * rhoSteps + rhoIdx)
                 | None => accumulator
                 end
            else accumulator) accumulator
      end) accumulator)
    (replicate (Z.to_nat (thetaSteps * rhoSteps)) 0).

(** Step 3: every cell above the threshold is a detected line
    [(theta, rho, votes)]. *)
Definition detected_lines (accumulator : list Z) (width height rhoSteps houghThreshold : Z)
    : list (float * float * Z) :=
  thetaIdx ← seqZ 0 thetaSteps;
  rhoIdx ← seqZ 0 rhoSteps;
  match lookupZ accumulator (thetaIdx * rhoSteps + rhoIdx) with
  | Some votes =>
      if houghThreshold <? votes
      then [(theta_of thetaIdx, (Z2F rhoIdx - maxRho width height / 2)%float, votes)]
      else []
  | None => []
  end.

(** Step 4: the sample point [(x0, y0)] of a line. *)
Definition sample_point (width height : Z) (theta rho : float) : float * float :=
  let cosTheta := Math_cos theta in
  let sinTheta := Math_sin theta in
  if (0.5 <? abs sinTheta)%float then
    let x0 := Math_round (Z2F width / 2) in
    let y0 := Math_round ((rho - x0 * cosTheta) / sinTheta) in
    (x0, y0)
  else
    let y0 := Math_round (Z2F height / 2) in
    let x0 := Math_round ((rho - y0 * sinTheta) / cosTheta) in
    (x0, y0).

Definition within_image (width height : Z) (x0 y0 : float) : bool :=
  ((0 <=? x0) && (x0 <? Z2F width) && (0 <=? y0) && (y0 <? Z2F height))%float.

Definition line_features (width height : Z) (detectedLines : list (float * float * Z))
    : list Feature :=
  '(theta, rho, votes) ← detectedLines;
  let '(x0, y0) := sample_point width height theta rho in
  if within_image width height x0 y0 then [Line x0 y0 theta rho votes] else [].

Definition _extractLineFeatures (image : Image) (frameDetection : FrameBorder)
    (linesOptions : LinesOptions) : outcome (list Feature) :=
  let width := width image in
  let height := height image in
  edges ← edge_map image frameDetection (edgeThreshold linesOptions);
  match F2Z (Math_ceil (maxRho width height)) with
  | None => Thrown RangeError (* [new Uint32Array(thetaSteps * rhoSteps)] *)
  | Some rhoSteps =>
      let accumulator := hough_votes edges width height rhoSteps in
      let detectedLines :=
        detected_lines accumulator width height rhoSteps (houghThreshold linesOptions) in
      Returned (line_features width height detectedLines)
  end.

(** [{...DEFAULT.colorOptions, ...(detectionOptions.colorOptions || {})}]. *)
Definition merge_colorOptions (given : option ColorOptionsArg) : ColorOptions :=
  let given := default (mkColorOptionsArg None None None) given in
  {| numClusters := default (numClusters DEFAULT_colorOptions) (numClusters_opt given);
     minRegionSize := default (minRegionSize DEFAULT_colorOptions) (minRegionSize_opt given);
     colorThreshold := default (colorThreshold DEFAULT_colorOptions) (colorThreshold_opt given) |}.

Definition merge_linesOptions (given : option LinesOptionsArg) : LinesOptions :=
  let given := default (mkLinesOptionsArg None None None None) given in
  {| edgeThreshold := default (edgeThreshold DEFAULT_linesOptions) (edgeThreshold_opt given);
     houghThreshold := default (houghThreshold DEFAULT_linesOptions) (houghThreshold_opt given);
     minLineLength := default (minLineLength DEFAULT_linesOptions) (minLineLength_opt given);
     maxLineGap := default (maxLineGap DEFAULT_linesOptions) (maxLineGap_opt given) |}.

Definition merge_cornerOptions (given : option CornerOptions) : CornerOptions :=
  default mkCornerOptions given.

(** [Array.isArray(options.modes) ? options.modes : [options.modes]], after
    [{...DEFAULT_DETECTION_OPTIONS, ...detectionOptions}]. *)
Definition merged_modes (detectionOptions : DetectionOptions) : list string :=
  match default DEFAULT_modes (modes detectionOptions) with
  | ModeArray ms => ms
  | ModeString m => [m]
  end.

(** The body of the [switch]: an unknown mode only logs a warning. *)
Definition run_mode (image : Image) (frameDetection : FrameBorder)
    (detectionOptions : DetectionOptions) (mode : string) : outcome (list Feature) :=
  if String.eqb mode DETECTION_MODES.CORNER then
    _extractCornerFeatures image frameDetection
      (merge_cornerOptions (cornerOptions detectionOptions))
  else if String.eqb mode DETECTION_MODES.COLOR then
    _extractColorFeatures image frameDetection
      (merge_colorOptions (colorOptions detectionOptions))
  else if String.eqb mode DETECTION_MODES.LINES then
    _extractLineFeatures image frameDetection
      (merge_linesOptions (linesOptions detectionOptions))
  else Returned [].

(** [extract(image, frameDetection, detectionOptions)]: an argument left out
    ([None]) takes its default value. *)
Definition extract (image : Image) (frameDetection : option FrameBorder)
    (detectionOptions : option DetectionOptions) : outcome (list Feature) :=
  let frameDetection := default (mkFrameBorder 0 0 0 0) frameDetection in
  let detectionOptions := default DEFAULT_DETECTION_OPTIONS detectionOptions in
  for_each (merged_modes detectionOptions) (fun mode allFeatures =>
    features ← run_mode image frameDetection detectionOptions mode;
    Returned (allFeatures ++ features)) [].
End Extract.

(** A reference [Math.cos] and [Math.sin], used to run the detectors on
    concrete images: the Taylor series at 0, summed in binary64 in nested
    form.  They are exact at 0, as ECMAScript requires of [Math.cos(+0)] and
    [Math.sin(+0)]. *)
Module RefMath.
Fixpoint series (n : nat) (k x2 : float) : float :=
  match n with
  | O => 1%float
  | S n' => (1 - x2 / ((k + 1) * (k + 2)) * series n' (k + 2) x2)%float
  end.
Definition cos (x : float) : float := series 16 0 (x * x).
Definition sin (x : float) : float := (x * series 16 1 (x * x))%float.
End RefMath.

(** * Vocabulary of the properties *)

(** ** The frame-border contract *)

(** The quantities of the contract of [inFrame], as the specification names
    them. *)
Definition topPixels (height : float) (b : FrameBorder) : float :=
  Math_floor (height * top b).
Definition bottomPixels (height : float) (b : FrameBorder) : float :=
  (height - Math_floor (height * bottom b))%float.
Definition leftPixels (width : float) (b : FrameBorder) : float :=
  Math_floor (width * left b).
Definition rightPixels (width : float) (b : FrameBorder) : float :=
  (width - Math_floor (width * right b))%float.
Definition all_zero (b : FrameBorder) : bool :=
  ((top b =? 0) && (right b =? 0) && (bottom b =? 0) && (left b =? 0))%float.

(** ** Images *)

(** An image [extract] is specified to reject: no buffer or an empty one, a
    non-positive width or height, or a buffer whose length is not
    [width * height]. *)
Definition invalid_image (image : Image) : Prop :=
  match data image with
  | None => True
  | Some imageData =>
      imageData = [] \/ width image <= 0 \/ height image <= 0 \/
      Z.of_nat (length imageData) <> width image * height image
  end.

(** A valid image all of whose samples are [v]. *)
Definition uniform (image : Image) (v : Z) : Prop :=
  0 < width image /\ 0 < height image /\ 0 <= v <= 255 /\
  data image = Some (replicate (Z.to_nat (width image * height image)) v).


(** The window of half-size [TEMPLATE_SIZE] around a pixel is inside the image. *)
Definition window_inside (width height : Z) (c : Z * Z) : Prop :=
  TEMPLATE_SIZE <= c.1 < width - TEMPLATE_SIZE /\ TEMPLATE_SIZE <= c.2 < height - TEMPLATE_SIZE.

(** The body of [_templateVar] as a function of the two window sums. *)
Definition template_var_of_sums (s ss sdThresh : float) : option float :=
  let nPixels := (2 * TEMPLATE_SIZE + 1) * (2 * TEMPLATE_SIZE + 1) in
  let average := (s / Z2F nPixels)%float in
  let vlen := (ss - 2 * average * s + Z2F nPixels * average * average)%float in
  if (vlen / Z2F nPixels <? sdThresh * sdThresh)%float then None else Some (sqrt vlen).

(** The Sobel magnitude at a pixel whose eight neighbours all hold [v]. *)
Definition flat_magnitude (v : Z) : float :=
  let I := Z2F v in
  let g := (- I - 2 * I - I + I + 2 * I + I)%float in
  sqrt (g * g + g * g).

(** ** Corner selection *)

(** Chebyshev distance between two pixels. *)
Definition cheb (a b : Z * Z) : Z := Z.max (Z.abs (a.1 - b.1)) (Z.abs (a.2 - b.2)).

(** No two entries of a list of pixels lie within [r] of one another. *)
Definition separated (r : Z) (coords : list (Z * Z)) : Prop :=
  forall (i j : nat) c1 c2, i <> j -> coords !! i = Some c1 -> coords !! j = Some c2 ->
    r < cheb c1 c2.

(** [im'] is [im] with some elements overwritten by 1. *)
Definition dimmed (im im' : list float) : Prop :=
  Forall2 (fun v v' => v' = v \/ v' = 1%float) im im'.

(** The number of elements below a threshold: the measure of the selection
    loop. *)
Fixpoint live_count (thr : float) (im : list float) : nat :=
  match im with
  | [] => 0
  | v :: im' => ((if (v <? thr)%float then 1 else 0) + live_count thr im')%nat
  end.

(** Every pixel of the image within [occSize] of [c] holds 1. *)
Definition blocked (image : Image) (image2 : list float) (c : Z * Z) : Prop :=
  forall x y v, Z.abs (x - c.1) <= occSize image -> Z.abs (y - c.2) <= occSize image ->
    0 <= x < width image -> 0 <= y < height image ->
    lookupZ image2 (y * width image + x) = Some v -> v = 1%float.

(** The corners the corner detector selects in an image with buffer
    [imageData]. *)
Definition selected_corners (image : Image) (imageData : list Z)
    (frameDetection : FrameBorder) : list (Z * Z) :=
  let imageDataCumsum := new_Cumsum imageData (width image) (height image) in
  let imageDataSqrCumsum :=
    new_Cumsum (map (fun v => v * v) imageData) (width image) (height image) in
  _selectFeature image imageData
    (feature_map image imageData
       (selected_pixels imageData (width image) (height image) frameDetection)
       imageDataCumsum imageDataSqrCumsum)
    TEMPLATE_SIZE SEARCH_SIZE2 MAX_THRESH MIN_THRESH SD_THRESH
    imageDataCumsum imageDataSqrCumsum frameDetection.

(** ** Features inside the image *)

Definition in_image (width height : Z) (f : Feature) : Prop :=
  match f with
  | Corner x y =>
      (0 <= x < width /\ 0 <= y < height) /\
      TEMPLATE_SIZE <= x < width - TEMPLATE_SIZE /\ TEMPLATE_SIZE <= y < height - TEMPLATE_SIZE
  | ColorRegion (Int x) (Int y) _ _ => 0 <= x < width /\ 0 <= y < height
  | ColorRegion _ _ _ _ => False
  | Line x y _ _ _ =>
      ((0 <=? x) && (x <? Z2F width) && (0 <=? y) && (y <? Z2F height))%float = true
  end.

Definition pixels_inside (width height : Z) (c : Cluster) : Prop :=
  Forall (fun p => 0 <= pixel_x p < width /\ 0 <= pixel_y p < height) (pixels c).

(** ** Sample inputs *)

Definition no_border : FrameBorder := mkFrameBorder 0 0 0 0.

(** A 17 x 17 image of smoothed noise. *)
Definition sample_data : list Z :=
  [255; 200; 147; 108; 144; 113; 197; 124; 180; 146; 159; 137; 61; 129; 57; 117; 54;
   166; 175; 168; 147; 130; 86; 144; 108; 137; 112; 117; 108; 73; 122; 85; 107; 71;
   181; 200; 183; 141; 108; 81; 130; 134; 119; 96; 62; 79; 78; 83; 79; 78; 81;
   110; 166; 197; 146; 129; 129; 161; 158; 119; 103; 68; 59; 83; 74; 127; 127; 166;
   158; 163; 181; 141; 180; 153; 147; 132; 122; 132; 68; 81; 88; 76; 102; 127; 193;
   71; 86; 156; 153; 221; 185; 120; 93; 117; 183; 154; 156; 130; 115; 93; 122; 171;
   110; 100; 151; 176; 212; 154; 79; 98; 142; 176; 153; 141; 127; 76; 59; 83; 156;
   64; 66; 108; 112; 146; 129; 88; 100; 153; 187; 193; 134; 124; 62; 47; 20; 56;
   117; 141; 137; 139; 136; 136; 103; 78; 110; 115; 120; 81; 90; 68; 57; 47; 88;
   147; 149; 119; 122; 136; 139; 78; 3; 13; 56; 76; 86; 76; 110; 91; 71; 52;
   163; 202; 197; 207; 181; 170; 83; 30; 0; 23; 35; 95; 122; 149; 154; 130; 107;
   124; 170; 173; 195; 168; 166; 107; 90; 73; 52; 32; 76; 122; 125; 129; 71; 34;
   120; 178; 180; 210; 198; 214; 170; 164; 144; 76; 37; 45; 146; 142; 136; 49; 10;
   188; 168; 132; 170; 219; 255; 231; 207; 166; 107; 44; 23; 78; 110; 132; 66; 25;
   215; 147; 100; 119; 210; 238; 226; 171; 134; 78; 42; 25; 71; 100; 163; 117; 81;
   176; 93; 45; 81; 188; 217; 198; 146; 98; 85; 59; 78; 91; 74; 147; 91; 91;
   125; 64; 1; 57; 151; 175; 146; 107; 86; 83; 71; 120; 144; 85; 119; 47; 64].

Definition sample_image : Image :=
  {| data := Some sample_data; width := 17; height := 17; scale := 1 |}.

(** The uniform 3 x 4 image of intensity 7. *)
Definition flat_image : Image :=
  {| data := Some (replicate 12 7); width := 3; height := 4; scale := 1 |}.

(** [{modes: ms, colorOptions: color, linesOptions: lines}]. *)
Definition options_with (ms : list string) (color : option ColorOptionsArg)
    (lines : option LinesOptionsArg) : option DetectionOptions :=
  Some {| modes := Some (ModeArray ms); cornerOptions := None;
          colorOptions := color; linesOptions := lines |}.

(** ** The dispatcher *)

(** [detectionOptions] with its [modes] replaced by the array [ms]. *)
Definition set_modes (detectionOptions : DetectionOptions) (ms : list string)
    : DetectionOptions :=
  {| modes := Some (ModeArray ms);
     cornerOptions := cornerOptions detectionOptions;
     colorOptions := colorOptions detectionOptions;
     linesOptions := linesOptions detectionOptions |}.

(** The mode strings the [switch] of [extract] knows. *)
Definition known_mode (mode : string) : bool :=
  String.eqb mode DETECTION_MODES.CORNER || String.eqb mode DETECTION_MODES.COLOR ||
  String.eqb mode DETECTION_MODES.LINES.

(** The [type] field of a feature. *)
Definition feature_type (f : Feature) : string :=
  match f with
  | Corner _ _ => DETECTION_MODES.CORNER
  | ColorRegion _ _ _ _ => DETECTION_MODES.COLOR
  | Line _ _ _ _ _ => DETECTION_MODES.LINES
  end.

(** [features.filter(f => f.type === mode)]. *)
Definition filter_type (mode : string) (features : list Feature) : list Feature :=
  List.filter (fun f => String.eqb (feature_type f) mode) features.

(** The loop of [extract] over a list of modes, from the features
    [allFeatures]. *)
Definition run_modes (Math_cos Math_sin : float -> float) (image : Image)
    (frameDetection : FrameBorder) (detectionOptions : DetectionOptions)
    (ms : list string) (allFeatures : list Feature) : outcome (list Feature) :=
  for_each ms (fun mode allFeatures =>
    features ← run_mode Math_cos Math_sin image frameDetection detectionOptions mode;
    Returned (allFeatures ++ features)) allFeatures.

(** ** Corner detection *)

(** The value the corner detector writes to [featureMap] for the pixel
    [(i, j)], before it is rounded to a Float32Array element. *)
Definition feature_value (image : Image) (imageData : list Z) (isPixelSelected : list Z)
    (imageDataCumsum imageDataSqrCumsum : Cumsum) (i j : Z) : float :=
  let width := width image in
  let height := height image in
  let range := seqZ (- SEARCH_SIZE1) (SEARCH_SIZE1 + 1 + SEARCH_SIZE1) in
  let pos := j * width + i in
  if negb (isSelected isPixelSelected pos) then 1%float
  else
    match _templateVar image i j TEMPLATE_SD_THRESH imageDataCumsum imageDataSqrCumsum with
    | None => 1%float
    | Some vlen =>
        for_break range (fun jj max =>
          let max :=
            for_break range (fun ii max =>
              if ii * ii + jj * jj <=? SEARCH_SIZE2 * SEARCH_SIZE2 then (max, false)
              else
                match _getSimilarity imageData width height (i + ii) (j + jj) vlen i j
                        imageDataCumsum imageDataSqrCumsum with
                | None => (max, false)
                | Some sim =>
                    if (max <? sim)%float then (sim, (MAX_SIM_THRESH <? sim)%float)
                    else (max, false)
                end) max in
          (max, (MAX_SIM_THRESH <? max)%float)) (-1)%float
    end.

(** The pixel [(x, y)] passes the test of step 1.2: it is an inner pixel of the
    frame area, and [dValue[pos] <= dValue[pos + d]] is false for each of the
    four neighbour offsets [d].  (The comparison is also false when one of
    the two scores is NaN.) *)
Definition passed_maximum_test (dValue : list float) (width height : Z)
    (frameDetection : FrameBorder) (x y : Z) : Prop :=
  1 <= x < width - 1 /\ 1 <= y < height - 1 /\
  inFrame x y width height frameDetection = true /\
  let pos := x + width * y in
  (rd dValue pos <=? rd dValue (pos - 1))%float = false /\
  (rd dValue pos <=? rd dValue (pos + 1))%float = false /\
  (rd dValue pos <=? rd dValue (pos - width))%float = false /\
  (rd dValue pos <=? rd dValue (pos + width))%float = false.

(** ** Color detection *)

(** The center of the cluster [i]: [(i + 0.5) * (255 / numClusters)]. *)
Definition cluster_center (numClusters i : Z) : float :=
  ((Z2F i + 0.5) * (255 / Z2F numClusters))%float.

(** The [regionSize] of a color feature. *)
Definition region_size (f : Feature) : Z :=
  match f with
  | ColorRegion _ _ _ regionSize => regionSize
  | _ => 0
  end.

Definition total_region_size (fs : list Feature) : Z :=
  foldr (fun f s => region_size f + s) 0 fs.

(** The number of pixels the clusters hold. *)
Definition assigned (clusters : list Cluster) : Z :=
  foldr (fun c s => Z.of_nat (length (pixels c)) + s) 0 clusters.

(** The distance of an intensity to the center of the cluster [k]. *)
Definition center_distance (clusters : list Cluster) (intensity : float) (k : Z) : float :=
  abs (intensity - from_option centerIntensity nan (lookupZ clusters k))%float.

(** The pixel [p] was rightly put in the cluster [i]: it is a pixel of the
    frame area with the intensity the image has there, its distance to the
    center [i] is below the threshold, and no center is strictly nearer. *)
Definition well_assigned (image : Image) (imageData : list Z) (frameDetection : FrameBorder)
    (numClusters : Z) (colorThreshold : float) (clusters : list Cluster)
    (i : Z) (p : Pixel) : Prop :=
  0 <= i < numClusters /\
  inFrame (pixel_x p) (pixel_y p) (width image) (height image) frameDetection = true /\
  pixel_intensity p = px imageData (pixel_y p * width image + pixel_x p) /\
  (center_distance clusters (pixel_intensity p) i <? colorThreshold)%float = true /\
  forall k, 0 <= k < numClusters ->
    (center_distance clusters (pixel_intensity p) k
       <? center_distance clusters (pixel_intensity p) i)%float = false.

(** ** Line detection *)

(** The Sobel gradient magnitude the line detector computes at [pos]. *)
Definition sobel_magnitude (imageData : list Z) (width pos : Z) : float :=
  let I := px imageData in
  let gx := (- I (pos - width - 1)%Z - 2 * I (pos - 1)%Z - I (pos + width - 1)%Z
             + I (pos - width + 1)%Z + 2 * I (pos + 1)%Z
             + I (pos + width + 1)%Z)%float in
  let gy := (- I (pos - width - 1)%Z - 2 * I (pos - width)%Z - I (pos - width + 1)%Z
             + I (pos + width - 1)%Z + 2 * I (pos + width)%Z
             + I (pos + width + 1)%Z)%float in
  sqrt (gx * gx + gy * gy).

(** The element [pos] of the edge map is an edge: an inner pixel of the frame
    area whose gradient magnitude is above the threshold. *)
Definition is_edge (image : Image) (frameDetection : FrameBorder) (edgeThreshold : float)
    (pos : Z) : Prop :=
  exists imageData x y,
    data image = Some imageData /\ pos = y * width image + x /\
    1 <= x < width image - 1 /\ 1 <= y < height image - 1 /\
    inFrame x y (width image) (height image) frameDetection = true /\
    (edgeThreshold <? sobel_magnitude imageData (width image) pos)%float = true.

(** A 2 x 2 image. *)
Definition tiny_image : Image :=
  {| data := Some [10; 200; 30; 40]; width := 2; height := 2; scale := 1 |}.

(** A 5 x 5 image with a vertical step. *)
Definition step_image : Image :=
  {| data := Some [0; 0; 255; 255; 255;
                   0; 0; 255; 255; 255;
                   0; 0; 255; 255; 255;
                   0; 0; 255; 255; 255;
                   0; 0; 255; 255; 255];
     width := 5; height := 5; scale := 1 |}.

(** ** The cross term of the similarity *)

(** The sum of the products of the two windows whose top-left corners are
    [(cx, cy)] and [(tx, ty)], by rows, with every sample addressed by its
    row and column. *)
Definition window_product_sum (imageData : list Z) (width templateWidth cx cy tx ty : Z)
    : float :=
  for_range 0 templateWidth (fun j sxy =>
    for_range 0 templateWidth (fun i sxy =>
      (sxy + px imageData ((cy + j) * width + (cx + i))
             * px imageData ((ty + j) * width + (tx + i)))%float) sxy) 0%float.

(** ** Options *)

(** [image] with another [scale]. *)
Definition set_scale (image : Image) (s : float) : Image :=
  {| data := data image; width := width image; height := height image; scale := s |}.

(** [linesOptions] with other [minLineLength] and [maxLineGap]. *)
Definition set_line_lengths (linesOptions : LinesOptionsArg)
    (minLineLength maxLineGap : option Z) : LinesOptionsArg :=
  {| edgeThreshold_opt := edgeThreshold_opt linesOptions;
     houghThreshold_opt := houghThreshold_opt linesOptions;
     minLineLength_opt := minLineLength;
     maxLineGap_opt := maxLineGap |}.

(** ** Repeated modes *)

(** The number of times [mode] is listed in [ms]. *)
Definition mode_count (mode : string) (ms : list string) : nat :=
  length (List.filter (String.eqb mode) ms).

(** A 17 x 17 image of uniform intensity 7. *)
Definition uniform_image : Image :=
  {| data := Some (replicate 289 7); width := 17; height := 17; scale := 1 |}.


(** * Properties *)

(** ** Facts about binary64 comparisons *)

Section FloatFacts.
Lemma SFcompare_Lt_trans a b c :
  SFcompare a b = Some Lt -> SFcompare b c = Some Lt -> SFcompare a c = Some Lt.
Proof.
  destruct a as [sa|sa| |sa ma ea], b as [sb|sb| |sb mb eb], c as [sc|sc| |sc mc ec];
    simpl; try discriminate; try reflexivity;
    repeat match goal with s : bool |- _ => destruct s end;
    simpl; try discriminate; try reflexivity.
  all: change (Pos.compare_cont Eq) with Pos.compare.
  all: destruct (Z.compare_spec ea eb), (Z.compare_spec eb ec), (Z.compare_spec ea ec);
    try discriminate; try reflexivity; try lia; subst.
  all: destruct (Pos.compare_spec ma mb), (Pos.compare_spec mb mc), (Pos.compare_spec ma mc);
    simpl; try discriminate; try reflexivity; try lia.
Qed.

Lemma ltb_trans (a b c : float) :
  (a <? b)%float = true -> (b <? c)%float = true -> (a <? c)%float = true.
Proof.
  rewrite !ltb_spec. unfold SFltb.
  destruct (SFcompare (Prim2SF a) (Prim2SF b)) as [[]|] eqn:E1; try discriminate.
  destruct (SFcompare (Prim2SF b) (Prim2SF c)) as [[]|] eqn:E2; try discriminate.
  rewrite (SFcompare_Lt_trans _ _ _ E1 E2). reflexivity.
Qed.

Lemma SFcompare_Lt_asym a b : SFcompare a b = Some Lt -> SFcompare b a = Some Gt.
Proof.
  destruct a as [sa|sa| |sa ma ea], b as [sb|sb| |sb mb eb];
    simpl; try discriminate; try reflexivity;
    repeat match goal with s : bool |- _ => destruct s end;
    simpl; try discriminate; try reflexivity.
  all: change (Pos.compare_cont Eq) with Pos.compare.
  all: rewrite (Z.compare_antisym ea eb), (Pos.compare_antisym ma mb).
  all: destruct (ea ?= eb), (ma ?= mb)%positive; simpl; try discriminate; try reflexivity.
Qed.

Lemma ltb_asym (a b : float) : (a <? b)%float = true -> (b <? a)%float = false.
Proof.
  rewrite !ltb_spec. unfold SFltb.
  destruct (SFcompare (Prim2SF a) (Prim2SF b)) as [[]|] eqn:E1; try discriminate.
  rewrite (SFcompare_Lt_asym _ _ E1). reflexivity.
Qed.

(** An absolute value is never below zero (of either sign). *)
Lemma abs_ltb_zero (x c : float) : (c =? 0)%float = true -> (abs x <? c)%float = false.
Proof.
  rewrite FloatAxioms.eqb_spec, ltb_spec, abs_spec.
  change (Prim2SF 0) with (S754_zero false).
  destruct (Prim2SF x) as [?|?| |? ? ?], (Prim2SF c) as [?|[]| |[] ? ?];
    simpl; intros; try discriminate; reflexivity.
Qed.

Lemma infinity_ltb_zero (c : float) : (c =? 0)%float = true -> (infinity <? c)%float = false.
Proof.
  rewrite FloatAxioms.eqb_spec, ltb_spec.
  change (Prim2SF 0) with (S754_zero false).
  change (Prim2SF infinity) with (S754_infinity false).
  destruct (Prim2SF c) as [?|[]| |[] ? ?]; simpl; intros; try discriminate; reflexivity.
Qed.
End FloatFacts.


(** ** The numeric helpers on concrete values *)

Example Math_round_examples :
  Math_round 2.5 = 3%float /\ Math_round (-2.5) = (-2)%float /\
  Math_round (-0.5) = neg_zero /\ Math_round 0.49999999999999994 = 0%float /\
  Math_round nan = nan /\ Math_round infinity = infinity.
Proof. repeat split; reflexivity. Qed.

Example Math_floor_examples :
  Math_floor 2.7 = 2%float /\ Math_floor (-0.5) = (-1)%float /\
  Math_floor 0.5 = 0%float /\ Math_floor neg_zero = neg_zero.
Proof. repeat split; reflexivity. Qed.

Example Math_ceil_examples :
  Math_ceil 4.2 = 5%float /\ Math_ceil 5 = 5%float /\ Math_ceil (-0.5) = neg_zero.
Proof. repeat split; reflexivity. Qed.

Example fround_examples :
  fround 0.1 = 0.10000000149011612%float /\ fround 1 = 1%float /\ fround (-1) = (-1)%float.
Proof. repeat split; reflexivity. Qed.

Example Z2F_F2Z_examples :
  Z2F 255 = 255%float /\ Z2F (-3) = (-3)%float /\ F2Z 12 = Some 12 /\
  F2Z neg_zero = Some 0 /\ F2Z 0.5 = None /\ F2Z nan = None.
Proof. repeat split; reflexivity. Qed.

(** The integer computations agree with the double computations of the source
    on a range of values: [Math.round(sum / n)], and
    [Math.floor(Math.min(width, height) / 10)]. *)
Example Math_round_quot_agrees :
  forallb (fun n =>
    forallb (fun sum =>
      match Math_round_quot sum n with
      | Int z => bool_decide (F2Z (Math_round (Z2F sum / Z2F n)) = Some z)
      | NaN => false
      end) (seqZ 0 100)) (seqZ 1 25) = true.
Proof. vm_compute. reflexivity. Qed.

Example occSize_agrees :
  forallb (fun w =>
    bool_decide (F2Z (Math_floor (Z2F (Z.min w (w + 3)) / 10)) = Some (Z.min w (w + 3) / 10)))
    (seqZ 0 1000) = true.
Proof. vm_compute. reflexivity. Qed.

(** The frame of the specification's example: 100 x 100 with a top band of
    one tenth. *)
Example isInFrameArea_band :
  isInFrameArea 50 5 100 100 (mkFrameBorder 0.1 0 0 0) = true /\
  isInFrameArea 50 50 100 100 (mkFrameBorder 0.1 0 0 0) = false.
Proof. split; reflexivity. Qed.
(** ** Loops *)

Lemma fold_left_invariant {A X} (f : A -> X -> A) (P : A -> Prop) (l : list X) (a : A) :
  P a -> (forall a x, x ∈ l -> P a -> P (f a x)) -> P (fold_left f l a).
Proof.
  revert a. induction l as [|x l IH]; intros a Ha Hstep; simpl; [exact Ha|].
  apply IH.
  - apply Hstep; [left|exact Ha].
  - intros a' x' Hx'. apply Hstep. right. exact Hx'.
Qed.

Lemma for_range_invariant {S} (P : S -> Prop) (lo hi : Z) (body : Z -> S -> S) (s : S) :
  P s -> (forall i s, lo <= i < hi -> P s -> P (body i s)) -> P (for_range lo hi body s).
Proof.
  intros Hs Hstep. unfold for_range. apply fold_left_invariant; [exact Hs|].
  intros a x Hx. apply Hstep. apply elem_of_seqZ in Hx. lia.
Qed.

(** A property [P] that one iteration establishes and the others keep, under
    a background invariant [Q]. *)
Lemma for_range_establish {S} (Q P : S -> Prop) (lo hi i0 : Z) (body : Z -> S -> S) (s : S) :
  lo <= i0 < hi -> Q s ->
  (forall i s, lo <= i < hi -> Q s -> Q (body i s)) ->
  (forall s, Q s -> P (body i0 s)) ->
  (forall i s, lo <= i < hi -> Q s -> P s -> P (body i s)) ->
  P (for_range lo hi body s).
Proof.
  intros Hi HQ HQstep Hest Hkeep. unfold for_range.
  assert (Hin : i0 ∈ seqZ lo (hi - lo)) by (apply elem_of_seqZ; lia).
  assert (HQs : forall a x, x ∈ seqZ lo (hi - lo) -> Q a -> Q (body x a))
    by (intros a x Hx; apply HQstep; apply elem_of_seqZ in Hx; lia).
  assert (Hk : forall a x, x ∈ seqZ lo (hi - lo) -> Q a -> P a -> P (body x a))
    by (intros a x Hx; apply Hkeep; apply elem_of_seqZ in Hx; lia).
  revert s HQ Hin HQs Hk. generalize (seqZ lo (hi - lo)) as l.
  induction l as [|x l IH]; intros s HQ Hin HQs Hk; [inversion Hin|].
  simpl. apply elem_of_cons in Hin as [<-|Hin].
  - cut (Q (fold_left (fun s i => body i s) l (body i0 s)) /\
         P (fold_left (fun s i => body i s) l (body i0 s))); [intros [_ HP]; exact HP|].
    apply fold_left_invariant.
    + split; [apply HQs; [left|exact HQ]|apply Hest, HQ].
    + intros a x Hx [Ha1 Ha2]. split; [apply HQs; [right|]; assumption|].
      apply Hk; [right|..]; assumption.
  - apply IH; [apply HQs; [left|exact HQ]|exact Hin| |].
    + intros a x' Hx'. apply HQs. right. exact Hx'.
    + intros a x' Hx'. apply Hk. right. exact Hx'.
Qed.

(** ** Typed-array accesses *)

Lemma fround_one : fround 1 = 1%float.
Proof. reflexivity. Qed.

Lemma length_storeZ {A} (l : list A) i v : length (storeZ l i v) = length l.
Proof. unfold storeZ. destruct (i <? 0); [reflexivity|apply length_insert]. Qed.

Lemma lookupZ_storeZ {A} (l : list A) i j v :
  lookupZ (storeZ l i v) j =
  if (i =? j) && (0 <=? j) && (j <? Z.of_nat (length l)) then Some v else lookupZ l j.
Proof.
  unfold lookupZ, storeZ.
  destruct (Z.ltb_spec j 0), (Z.ltb_spec i 0), (Z.eqb_spec i j), (Z.leb_spec 0 j),
    (Z.ltb_spec j (Z.of_nat (length l))); simpl; try lia; try reflexivity; subst.
  - apply list_lookup_insert_eq. lia.
  - rewrite list_insert_ge by lia. reflexivity.
  - apply list_lookup_insert_ne. lia.
  - apply list_lookup_insert_ne. lia.
Qed.

Lemma lookupZ_Some_range {A} (l : list A) i v :
  lookupZ l i = Some v -> 0 <= i < Z.of_nat (length l).
Proof.
  unfold lookupZ. destruct (Z.ltb_spec i 0); [discriminate|].
  intros Hl%lookup_lt_Some. lia.
Qed.

Lemma rd_lookupZ (a : list float) i (m : float) :
  (rd a i <? m)%float = true -> lookupZ a i = Some (rd a i).
Proof.
  unfold rd. destruct (lookupZ a i); [reflexivity|]. simpl.
  rewrite ltb_spec. change (Prim2SF nan) with S754_nan. discriminate.
Qed.

Lemma dimmed_refl im : dimmed im im.
Proof. apply Forall2_lookup. intros i. destruct (im !! i); constructor. left; reflexivity. Qed.

Lemma dimmed_trans im1 im2 im3 : dimmed im1 im2 -> dimmed im2 im3 -> dimmed im1 im3.
Proof.
  unfold dimmed. intros H12. revert im3.
  induction H12 as [|v1 v2 l1 l2 Hv H12 IH]; intros im3 H23; inversion H23; subst.
  - constructor.
  - constructor; [|apply IH; assumption]. intuition congruence.
Qed.

Lemma dimmed_length im im' : dimmed im im' -> length im' = length im.
Proof. intros H. symmetry. eapply Forall2_length, H. Qed.

Lemma dimmed_store im i : dimmed im (store32 im i 1).
Proof.
  unfold store32, storeZ. rewrite fround_one. destruct (i <? 0); [apply dimmed_refl|].
  apply Forall2_lookup. intros k.
  destruct (decide (Z.to_nat i = k)) as [<-|Hne].
  - destruct (im !! Z.to_nat i) eqn:E.
    + rewrite list_lookup_insert_eq by (eapply lookup_lt_Some, E). constructor. right; reflexivity.
    + rewrite list_insert_ge by (apply lookup_ge_None, E). rewrite E. constructor.
  - rewrite list_lookup_insert_ne by exact Hne. destruct (im !! k); constructor. left; reflexivity.
Qed.

Lemma dimmed_keeps_one im im' q :
  dimmed im im' -> lookupZ im q = Some 1%float -> lookupZ im' q = Some 1%float.
Proof.
  unfold lookupZ. destruct (q <? 0); [discriminate|]. intros Hd Hq.
  pose proof (proj1 (Forall2_lookup _ _ _) Hd (Z.to_nat q)) as Hk.
  rewrite Hq in Hk. inversion Hk as [? v' Hv|]; subst. f_equal. intuition congruence.
Qed.

Lemma dimmed_lookup im im' q v' :
  dimmed im im' -> lookupZ im' q = Some v' -> v' = 1%float \/ lookupZ im q = Some v'.
Proof.
  unfold lookupZ. destruct (q <? 0); [discriminate|]. intros Hd Hq.
  pose proof (proj1 (Forall2_lookup _ _ _) Hd (Z.to_nat q)) as Hk.
  rewrite Hq in Hk. inversion Hk as [v ? Hv|]; subst. destruct Hv; [right|left]; congruence.
Qed.

Section Measure.
Variable thr : float.
Hypothesis thr_below_one : (1 <? thr)%float = false.

Lemma dimmed_live_le im im' : dimmed im im' -> (live_count thr im' <= live_count thr im)%nat.
Proof.
  induction 1 as [|v v' l l' Hv _ IH]; simpl; [lia|].
  destruct Hv as [->| ->]; [lia|]. rewrite thr_below_one. lia.
Qed.

Lemma dimmed_live_lt im im' q v :
  dimmed im im' -> lookupZ im q = Some v -> (v <? thr)%float = true ->
  lookupZ im' q = Some 1%float -> (live_count thr im' < live_count thr im)%nat.
Proof.
  unfold lookupZ. destruct (q <? 0); [discriminate|].
  generalize (Z.to_nat q) as k. intros k Hd. revert k.
  induction Hd as [|w w' l l' Hw Hd IH]; intros k Hq Hv Hq'; [destruct k; discriminate|].
  destruct k as [|k]; simpl in *.
  - injection Hq as ->. injection Hq' as ->. rewrite Hv, thr_below_one.
    pose proof (dimmed_live_le _ _ Hd). lia.
  - specialize (IH k Hq Hv Hq').
    destruct Hw as [->| ->]; [lia|]. rewrite thr_below_one. lia.
Qed.

Lemma live_count_le_length im : (live_count thr im <= length im)%nat.
Proof. induction im as [|v im IH]; simpl; [lia|]. destruct (v <? thr)%float; lia. Qed.
End Measure.

Section SelectFeatureFacts.
Variables (image : Image) (imageData : list Z).
Variables (templateSize searchSize : Z).
Variables (maxSimThresh minSimThresh sdThresh : float).
Variables (imageDataCumsum imageDataSqrCumsum : Cumsum).
Variable (frameDetection : FrameBorder).
Hypothesis maxSim_below_one : (1 <? maxSimThresh)%float = false.

Local Abbreviation scan := (scan_min image maxSimThresh frameDetection).
Local Abbreviation loop :=
  (select_loop image imageData templateSize searchSize maxSimThresh minSimThresh sdThresh
     imageDataCumsum imageDataSqrCumsum frameDetection).

(** What the raster scan returns: nothing, or a pixel of the image whose
    value is below [maxSimThresh]. *)
Lemma scan_min_spec image2 m cx cy :
  scan image2 = (m, cx, cy) -> cx <> -1 ->
  0 <= cx < width image /\ 0 <= cy < height image /\
  lookupZ image2 (cy * width image + cx) = Some m /\ (m <? maxSimThresh)%float = true.
Proof.
  set (Inv := fun st : float * Z * Z =>
    let '(m, cx, cy) := st in
    (cx = -1 /\ m = maxSimThresh) \/ (0 <= cx < width image /\ 0 <= cy < height image /\
                lookupZ image2 (cy * width image + cx) = Some m /\
                (m <? maxSimThresh)%float = true)).
  assert (HInv : Inv (scan image2)).
  { unfold scan_min. apply for_range_invariant; [left; split; reflexivity|].
    intros j st Hj Hst. apply for_range_invariant; [exact Hst|].
    intros i [[m' cx'] cy'] Hi Hst'.
    destruct (negb _); [exact Hst'|].
    destruct (rd image2 (j * width image + i) <? m')%float eqn:Hlt; [|exact Hst'].
    right. split; [lia|]. split; [lia|]. split; [eapply rd_lookupZ, Hlt|].
    destruct Hst' as [[_ ->]|(_ & _ & _ & Hm')]; [exact Hlt|].
    eapply ltb_trans; eassumption. }
  intros Hs Hcx. rewrite Hs in HInv. destruct HInv as [[? _]|?]; [contradiction|assumption].
Qed.

Lemma occSize_nonneg cx cy :
  0 <= cx < width image -> 0 <= cy < height image -> 0 <= occSize image.
Proof. intros. unfold occSize. apply Z.div_pos; lia. Qed.

Lemma mark_square_dimmed image2 cx cy : dimmed image2 (mark_square image image2 cx cy).
Proof.
  unfold mark_square.
  apply (for_range_invariant (dimmed image2)); [apply dimmed_refl|].
  intros j s _ Hs. apply (for_range_invariant (dimmed image2)); [exact Hs|].
  intros i s' _ Hs'. destruct (_ || _); [exact Hs'|].
  eapply dimmed_trans; [exact Hs'|apply dimmed_store].
Qed.

(** Every pixel of the image within the square is set to 1. *)
Lemma mark_square_covers image2 cx cy x y v :
  Z.abs (x - cx) <= occSize image -> Z.abs (y - cy) <= occSize image ->
  0 <= x < width image -> 0 <= y < height image ->
  lookupZ image2 (y * width image + x) = Some v ->
  lookupZ (mark_square image image2 cx cy) (y * width image + x) = Some 1%float.
Proof.
  intros Hx Hy Hxw Hyh Hv. unfold mark_square.
  pose proof (lookupZ_Some_range _ _ _ Hv) as Hrange.
  set (Q := fun a : list float => length a = length image2).
  set (P := fun a : list float => lookupZ a (y * width image + x) = Some 1%float).
  assert (HQ : forall a k, Q a -> Q (store32 a k 1))
    by (intros a k Ha; unfold Q, store32 in *; rewrite length_storeZ; exact Ha).
  assert (HP : forall a k, P a -> P (store32 a k 1))
    by (intros a k Ha; eapply dimmed_keeps_one; [apply dimmed_store|exact Ha]).
  assert (HQrow : forall j a, Q a ->
    Q (for_range (- occSize image) (occSize image + 1) (fun i image3 =>
         if (cy + j <? 0) || (cy + j >=? height image) || (cx + i <? 0)
            || (cx + i >=? width image)
         then image3
         else store32 image3 ((cy + j) * width image + (cx + i)) 1) a)).
  { intros j a Ha. apply for_range_invariant; [exact Ha|].
    intros i s' _ Hs'. destruct (_ || _); [exact Hs'|apply HQ, Hs']. }
  apply (for_range_establish Q P _ _ (y - cy)); [lia|reflexivity| | |].
  - intros j a _. apply HQrow.
  - intros a Ha. apply (for_range_establish Q P _ _ (x - cx)); [lia|exact Ha| | |].
    + intros i s' _ Hs'. destruct (_ || _); [exact Hs'|apply HQ, Hs'].
    + intros s' Hs'.
      replace (cy + (y - cy)) with y by lia. replace (cx + (x - cx)) with x by lia.
      destruct (Z.ltb_spec y 0), (Z.geb_spec y (height image)), (Z.ltb_spec x 0),
        (Z.geb_spec x (width image)); try lia. simpl.
      unfold P, store32. rewrite lookupZ_storeZ, fround_one.
      red in Hs'. rewrite Hs'.
      destruct (Z.eqb_spec (y * width image + x) (y * width image + x)); [|lia].
      destruct (Z.leb_spec 0 (y * width image + x)), (Z.ltb_spec (y * width image + x)
        (Z.of_nat (length image2))); try lia. reflexivity.
    + intros i s' _ _ Hs'. destruct (_ || _); [exact Hs'|apply HP, Hs'].
  - intros j a _ _ Ha. apply for_range_invariant; [exact Ha|].
    intros i s' _ Hs'. destruct (_ || _); [exact Hs'|apply HP, Hs'].
Qed.

(** Each iteration that does not stop the loop sets the chosen pixel, whose
    value was below [maxSimThresh], to 1: the loop ends. *)
Lemma select_loop_terminates fuel image2 num coords :
  (live_count maxSimThresh image2 < fuel)%nat ->
  exists c, loop fuel image2 num coords = Some c.
Proof.
  revert image2 num coords.
  induction fuel as [|fuel IH]; intros im num co Hlt; [lia|].
  simpl. destruct (negb _); [eauto|].
  destruct (scan im) as [[m cx] cy] eqn:Hs.
  destruct (Z.eqb_spec cx (-1)) as [|Hcx]; [eauto|].
  destruct (scan_min_spec _ _ _ _ Hs Hcx) as (Hx & Hy & Hv & Hm).
  assert (Hdiscard :
    (live_count maxSimThresh (store32 im (cy * width image + cx) 1) < fuel)%nat).
  { cut (live_count maxSimThresh (store32 im (cy * width image + cx) 1)
         < live_count maxSimThresh im)%nat; [lia|].
    eapply dimmed_live_lt; [exact maxSim_below_one|apply dimmed_store|exact Hv|exact Hm|].
    unfold store32. rewrite lookupZ_storeZ, fround_one.
    pose proof (lookupZ_Some_range _ _ _ Hv).
    destruct (Z.eqb_spec (cy * width image + cx) (cy * width image + cx)); [|lia].
    destruct (Z.leb_spec 0 (cy * width image + cx)),
      (Z.ltb_spec (cy * width image + cx) (Z.of_nat (length im))); try lia. reflexivity. }
  destruct (_templateVar image cx cy 0 imageDataCumsum imageDataSqrCumsum) as [vlen|];
    [|apply IH, Hdiscard].
  destruct (vlen / Z2F (templateSize * 2 + 1) <? sdThresh)%float; [apply IH, Hdiscard|].
  destruct (neighbour_scan _ _ _ _ _ _ _ _ _ _) as [min max].
  destruct (rejected _ _ _ _); [apply IH, Hdiscard|].
  apply IH.
  cut (live_count maxSimThresh (mark_square image im cx cy)
       < live_count maxSimThresh im)%nat; [lia|].
  eapply dimmed_live_lt;
    [exact maxSim_below_one|apply mark_square_dimmed|exact Hv|exact Hm|].
  pose proof (occSize_nonneg _ _ Hx Hy).
  eapply mark_square_covers; [| | | |exact Hv]; lia.
Qed.

(** An invariant of the loop: kept when a candidate is discarded, and when a
    candidate that passed [_templateVar] and the contrast test is
    accepted. *)
Lemma select_loop_invariant (P : list float -> list (Z * Z) -> Prop) :
  (forall im co m cx cy, P im co -> scan im = (m, cx, cy) -> cx <> -1 ->
     P (store32 im (cy * width image + cx) 1) co) ->
  (forall im co m cx cy vlen, P im co -> scan im = (m, cx, cy) -> cx <> -1 ->
     _templateVar image cx cy 0 imageDataCumsum imageDataSqrCumsum = Some vlen ->
     (vlen / Z2F (templateSize * 2 + 1) <? sdThresh)%float = false ->
     P (mark_square image im cx cy) (co ++ [(cx, cy)])) ->
  forall fuel im num co c, P im co -> loop fuel im num co = Some c -> exists im', P im' c.
Proof.
  intros Hdiscard Haccept.
  induction fuel as [|fuel IH]; intros im num co c HP; [discriminate|].
  simpl. destruct (negb _); [intros [= <-]; eauto|].
  destruct (scan im) as [[m cx] cy] eqn:Hs.
  destruct (Z.eqb_spec cx (-1)) as [|Hcx]; [intros [= <-]; eauto|].
  specialize (Hdiscard _ _ _ _ _ HP Hs Hcx).
  destruct (_templateVar image cx cy 0 imageDataCumsum imageDataSqrCumsum)
    as [vlen|] eqn:Hvar; [|apply IH, Hdiscard].
  destruct (vlen / Z2F (templateSize * 2 + 1) <? sdThresh)%float eqn:Hsd;
    [apply IH, Hdiscard|].
  destruct (neighbour_scan _ _ _ _ _ _ _ _ _ _) as [min max].
  destruct (rejected _ _ _ _); [apply IH, Hdiscard|].
  apply IH. eapply Haccept; eassumption.
Qed.

Lemma length_image2_init featureMap :
  length (image2_init imageData featureMap) = length imageData.
Proof.
  unfold image2_init. apply for_range_invariant; [apply length_replicate|].
  intros i s _ <-. apply length_storeZ.
Qed.

(** [_selectFeature] is the result of the loop: the bound on its iterations
    is never reached. *)
Lemma selectFeature_loop featureMap :
  loop (S (length imageData)) (image2_init imageData featureMap) 0 [] =
  Some (_selectFeature image imageData featureMap templateSize searchSize maxSimThresh
          minSimThresh sdThresh imageDataCumsum imageDataSqrCumsum frameDetection).
Proof.
  unfold _selectFeature.
  destruct (select_loop_terminates (S (length imageData))
              (image2_init imageData featureMap) 0 []) as [c ->]; [|reflexivity].
  pose proof (live_count_le_length maxSimThresh (image2_init imageData featureMap)).
  rewrite length_image2_init in *. lia.
Qed.

Lemma blocked_dimmed im im' c : dimmed im im' -> blocked image im c -> blocked image im' c.
Proof.
  intros Hd Hb x y v Hx Hy Hxw Hyh Hv.
  destruct (dimmed_lookup _ _ _ _ Hd Hv) as [?|Hv']; [assumption|]. eauto.
Qed.

Lemma separated_snoc r coords c :
  separated r coords -> (forall c', c' ∈ coords -> r < cheb c' c) ->
  separated r (coords ++ [c]).
Proof.
  assert (Hsym : forall a b, cheb a b = cheb b a) by (intros; unfold cheb; lia).
  intros Hsep Hnew i j c1 c2 Hij H1 H2.
  apply lookup_app_Some in H1 as [H1|[Hi H1]], H2 as [H2|[Hj H2]].
  - eapply Hsep; eassumption.
  - apply list_lookup_singleton_Some in H2 as [_ <-].
    apply Hnew. eapply list_elem_of_lookup_2, H1.
  - apply list_lookup_singleton_Some in H1 as [_ <-]. rewrite Hsym.
    apply Hnew. eapply list_elem_of_lookup_2, H2.
  - apply list_lookup_singleton_Some in H1 as [? _], H2 as [? _]. lia.
Qed.

(** The corners [_selectFeature] accepts are pairwise more than [occSize]
    apart. *)
Lemma selectFeature_separated featureMap :
  separated (occSize image)
    (_selectFeature image imageData featureMap templateSize searchSize maxSimThresh
       minSimThresh sdThresh imageDataCumsum imageDataSqrCumsum frameDetection).
Proof.
  pose proof (selectFeature_loop featureMap) as Hloop.
  apply (select_loop_invariant
           (fun im co => (forall c, c ∈ co -> blocked image im c) /\ separated (occSize image) co))
    in Hloop as [im' [_ Hsep]]; [exact Hsep| | |].
  - intros im co m cx cy [Hb Hs] _ _. split; [|exact Hs].
    intros c Hc. eapply blocked_dimmed; [apply dimmed_store|auto].
  - intros im co m cx cy vlen [Hb Hs] Hscan Hcx _ _.
    destruct (scan_min_spec _ _ _ _ Hscan Hcx) as (Hx & Hy & Hv & Hm).
    split.
    + intros c [Hc| ->%list_elem_of_singleton]%elem_of_app.
      * eapply blocked_dimmed; [apply mark_square_dimmed|auto].
      * intros x y v Hxc Hyc Hxw Hyh Hlook.
        destruct (dimmed_lookup _ _ _ _ (mark_square_dimmed im cx cy) Hlook)
          as [?|Hold]; [assumption|].
        pose proof (mark_square_covers im cx cy x y v Hxc Hyc Hxw Hyh Hold) as Hone.
        congruence.
    + apply separated_snoc; [exact Hs|].
      intros c Hc. destruct (Z.lt_ge_cases (occSize image) (cheb c (cx, cy)))
        as [?|Hnear]; [assumption|exfalso].
      unfold cheb in Hnear. simpl in Hnear.
      assert (m = 1%float) as ->
        by (eapply (Hb c Hc cx cy); [lia|lia|assumption|assumption|exact Hv]).
      congruence.
  - split; [intros c Hc; inversion Hc|].
    intros i j c1 c2 _ H1. rewrite lookup_nil in H1. discriminate.
Qed.

(** The window of every accepted corner is inside the image. *)
Lemma selectFeature_window_inside featureMap :
  Forall (window_inside (width image) (height image))
    (_selectFeature image imageData featureMap templateSize searchSize maxSimThresh
       minSimThresh sdThresh imageDataCumsum imageDataSqrCumsum frameDetection).
Proof.
  pose proof (selectFeature_loop featureMap) as Hloop.
  apply (select_loop_invariant
           (fun _ co => Forall (window_inside (width image) (height image)) co))
    in Hloop as [_ H]; [exact H| | |].
  - intros im co m cx cy Hco _ _. exact Hco.
  - intros im co m cx cy vlen Hco _ _ Hvar _.
    apply Forall_app. split; [exact Hco|]. apply Forall_singleton.
    unfold _templateVar in Hvar.
    destruct (Z.ltb_spec (cx - TEMPLATE_SIZE) 0), (Z.geb_spec (cx + TEMPLATE_SIZE) (width image));
      simpl in Hvar; try discriminate.
    destruct (Z.ltb_spec (cy - TEMPLATE_SIZE) 0), (Z.geb_spec (cy + TEMPLATE_SIZE) (height image));
      simpl in Hvar; try discriminate.
    unfold window_inside. simpl. lia.
  - constructor.
Qed.

(** If no window passes the variance and contrast tests, no corner is
    accepted. *)
Lemma selectFeature_no_contrast featureMap :
  (forall cx cy vlen,
     _templateVar image cx cy 0 imageDataCumsum imageDataSqrCumsum = Some vlen ->
     (vlen / Z2F (templateSize * 2 + 1) <? sdThresh)%float = true) ->
  _selectFeature image imageData featureMap templateSize searchSize maxSimThresh
    minSimThresh sdThresh imageDataCumsum imageDataSqrCumsum frameDetection = [].
Proof.
  intros Hflat. pose proof (selectFeature_loop featureMap) as Hloop.
  apply (select_loop_invariant (fun _ co => co = []))
    in Hloop as [_ H]; [exact H| | |].
  - intros im co m cx cy Hco _ _. exact Hco.
  - intros im co m cx cy vlen _ _ _ Hvar Hsd. rewrite (Hflat _ _ _ Hvar) in Hsd. discriminate.
  - reflexivity.
Qed.
End SelectFeatureFacts.

(** ** Images of uniform intensity *)

Lemma fold_left_add_const {X} (body : X -> Z -> Z) (c : Z) (l : list X) (s : Z) :
  (forall x a, x ∈ l -> body x a = a + c) ->
  fold_left (fun s i => body i s) l s = s + Z.of_nat (length l) * c.
Proof.
  revert s. induction l as [|x l IH]; intros s Hbody; simpl; [lia|].
  rewrite IH by (intros; apply Hbody; right; assumption).
  rewrite Hbody by left. lia.
Qed.

Lemma for_range_add_const (body : Z -> Z -> Z) (c lo hi s : Z) :
  lo <= hi -> (forall i a, lo <= i < hi -> body i a = a + c) ->
  for_range lo hi body s = s + (hi - lo) * c.
Proof.
  intros Hle Hbody. unfold for_range. rewrite (fold_left_add_const body c).
  - rewrite length_seqZ, Z2Nat.id by lia. reflexivity.
  - intros x a Hx. apply Hbody. apply elem_of_seqZ in Hx. lia.
Qed.

Lemma lookupZ_replicate {A} (n : nat) (v : A) (i : Z) :
  0 <= i < Z.of_nat n -> lookupZ (replicate n v) i = Some v.
Proof.
  intros Hi. unfold lookupZ. destruct (Z.ltb_spec i 0); [lia|].
  apply lookup_replicate_2. lia.
Qed.

Lemma pixel_index_range (w h x y : Z) :
  0 <= x < w -> 0 <= y < h -> 0 <= y * w + x < Z.of_nat (Z.to_nat (w * h)).
Proof. intros. nia. Qed.

Lemma rect_sum_flat (v w h x1 y1 x2 y2 : Z) :
  0 <= x1 -> x1 <= x2 + 1 -> x2 < w -> 0 <= y1 -> y1 <= y2 + 1 -> y2 < h ->
  rect_sum (replicate (Z.to_nat (w * h)) v) w x1 y1 x2 y2 =
  (y2 + 1 - y1) * ((x2 + 1 - x1) * v).
Proof.
  intros. unfold rect_sum.
  rewrite (for_range_add_const _ ((x2 + 1 - x1) * v)); [lia|lia|].
  intros y a Hy. apply for_range_add_const; [lia|].
  intros x a' Hx. rewrite lookupZ_replicate; [reflexivity|].
  apply pixel_index_range; lia.
Qed.

Lemma flat_windows_check :
  forallb (fun v =>
    match template_var_of_sums (Z2F (13 * (13 * v))) (Z2F (13 * (13 * (v * v)))) 0 with
    | Some vlen => (vlen / Z2F (TEMPLATE_SIZE * 2 + 1) <? SD_THRESH)%float
    | None => true
    end) (seqZ 0 256) = true.
Proof. vm_compute. reflexivity. Qed.

Lemma flat_magnitude_check :
  forallb (fun v => (flat_magnitude v =? 0)%float) (seqZ 0 256) = true.
Proof. vm_compute. reflexivity. Qed.

Lemma byte_cases (P : Z -> bool) (v : Z) :
  forallb P (seqZ 0 256) = true -> 0 <= v <= 255 -> P v = true.
Proof.
  intros Hall Hv. rewrite forallb_forall in Hall. apply Hall.
  apply list_elem_of_In, elem_of_seqZ. lia.
Qed.

Lemma templateVar_sums image cx cy sdThresh cs sq :
  _templateVar image cx cy sdThresh cs sq =
  if (cx - TEMPLATE_SIZE <? 0) || (cx + TEMPLATE_SIZE >=? width image) ||
     ((cy - TEMPLATE_SIZE <? 0) || (cy + TEMPLATE_SIZE >=? height image))
  then None
  else template_var_of_sums
         (query cs (cx - TEMPLATE_SIZE) (cy - TEMPLATE_SIZE) (cx + TEMPLATE_SIZE) (cy + TEMPLATE_SIZE))
         (query sq (cx - TEMPLATE_SIZE) (cy - TEMPLATE_SIZE) (cx + TEMPLATE_SIZE) (cy + TEMPLATE_SIZE))
         sdThresh.
Proof.
  unfold _templateVar. destruct (_ || _); [reflexivity|]. destruct (_ || _); reflexivity.
Qed.

Lemma templateVar_flat image v cx cy vlen :
  uniform image v ->
  _templateVar image cx cy 0
    (new_Cumsum (replicate (Z.to_nat (width image * height image)) v)
       (width image) (height image))
    (new_Cumsum (map (fun v => v * v) (replicate (Z.to_nat (width image * height image)) v))
       (width image) (height image)) = Some vlen ->
  (vlen / Z2F (TEMPLATE_SIZE * 2 + 1) <? SD_THRESH)%float = true.
Proof.
  intros (Hw & Hh & Hv & _). rewrite templateVar_sums.
  destruct (Z.ltb_spec (cx - TEMPLATE_SIZE) 0), (Z.geb_spec (cx + TEMPLATE_SIZE) (width image)),
    (Z.ltb_spec (cy - TEMPLATE_SIZE) 0), (Z.geb_spec (cy + TEMPLATE_SIZE) (height image));
    simpl orb; cbv iota; try discriminate.
  change (map (fun v0 => v0 * v0)) with (fmap (M:=list) (fun v0 : Z => v0 * v0)).
  rewrite fmap_replicate. unfold new_Cumsum, query.
  unfold TEMPLATE_SIZE in *.
  rewrite !rect_sum_flat by lia.
  replace (cy + 6 + 1 - (cy - 6)) with 13 by lia.
  replace (cx + 6 + 1 - (cx - 6)) with 13 by lia.
  pose proof (byte_cases _ v flat_windows_check Hv) as Hcheck. cbv beta in Hcheck.
  intros Hsome. rewrite Hsome in Hcheck. exact Hcheck.
Qed.

Lemma MAX_THRESH_below_one : (1 <? MAX_THRESH)%float = false.
Proof. reflexivity. Qed.

Lemma extractCorner_flat image frameDetection cornerOptions v :
  uniform image v -> _extractCornerFeatures image frameDetection cornerOptions = Returned [].
Proof.
  intros Hu. pose proof Hu as (_ & _ & _ & Hd). unfold _extractCornerFeatures. rewrite Hd.
  rewrite selectFeature_no_contrast; [reflexivity|exact MAX_THRESH_below_one|].
  intros cx cy vlen. apply templateVar_flat, Hu.
Qed.

Lemma ltb_zero_asym (m e : float) :
  (m =? 0)%float = true -> (0 <? e)%float = true -> (e <? m)%float = false.
Proof.
  rewrite FloatAxioms.eqb_spec, !ltb_spec. change (Prim2SF 0) with (S754_zero false).
  destruct (Prim2SF m) as [?|[]| |[] ? ?], (Prim2SF e) as [?|[]| |[] ? ?];
    simpl; intros; try discriminate; reflexivity.
Qed.

Lemma for_each_fixed {S X} (xs : list X) (body : X -> S -> outcome S) (s : S) :
  (forall x, x ∈ xs -> body x s = Returned s) -> for_each xs body s = Returned s.
Proof.
  induction xs as [|x xs IH]; intros Hbody; simpl; [reflexivity|].
  rewrite Hbody by left. simpl. apply IH. intros x' Hx'. apply Hbody. right. exact Hx'.
Qed.

Lemma bind_nil_all {A B} (f : A -> list B) (l : list A) :
  (forall x, x ∈ l -> f x = []) -> l ≫= f = [].
Proof.
  induction l as [|x l IH]; intros Hf; [reflexivity|].
  csimpl. rewrite (Hf x) by left. simpl. apply IH. intros x' Hx'. apply Hf. right. exact Hx'.
Qed.

Lemma storeZ_replicate {A} (n : nat) (v : A) (i : Z) :
  storeZ (replicate n v) i v = replicate n v.
Proof.
  unfold storeZ. destruct (i <? 0); [reflexivity|].
  apply list_eq. intros k. destruct (decide (Z.to_nat i = k)) as [<-|Hne].
  - destruct (decide (Z.to_nat i < n)%nat).
    + rewrite list_lookup_insert_eq by (rewrite length_replicate; lia).
      symmetry. apply lookup_replicate_2. lia.
    + rewrite list_insert_ge by (rewrite length_replicate; lia). reflexivity.
  - apply list_lookup_insert_ne. exact Hne.
Qed.

Section FlatLines.
Variables Math_cos Math_sin : float -> float.

Lemma edge_map_flat image frameDetection edgeThreshold v :
  uniform image v -> (0 <? edgeThreshold)%float = true ->
  edge_map image frameDetection edgeThreshold =
  Returned (replicate (Z.to_nat (width image * height image)) 0).
Proof.
  intros (Hw & Hh & Hv & Hd) He. unfold edge_map.
  destruct (Z.ltb_spec (width image * height image) 0); [nia|].
  apply for_each_fixed. intros [x y] Hxy.
  apply list_elem_of_bind in Hxy as [y' [Hxy Hy]].
  apply list_elem_of_bind in Hxy as [x' [Hxy Hx]].
  apply list_elem_of_singleton in Hxy. injection Hxy as <- <-.
  apply elem_of_seqZ in Hx, Hy.
  destruct (negb _); [reflexivity|]. rewrite Hd.
  assert (Hpx : forall dx dy, -1 <= dx <= 1 -> -1 <= dy <= 1 ->
            px (replicate (Z.to_nat (width image * height image)) v)
               (y * width image + x + dy * width image + dx) = Z2F v).
  { intros dx dy Hdx Hdy. unfold px. rewrite lookupZ_replicate; [reflexivity|].
    replace (y * width image + x + dy * width image + dx)
      with ((y + dy) * width image + (x + dx)) by lia.
    apply pixel_index_range; lia. }
  replace (y * width image + x - width image - 1)
    with (y * width image + x + (-1) * width image + (-1)) by lia.
  replace (y * width image + x - 1)
    with (y * width image + x + 0 * width image + (-1)) by lia.
  replace (y * width image + x + width image - 1)
    with (y * width image + x + 1 * width image + (-1)) by lia.
  replace (y * width image + x - width image + 1)
    with (y * width image + x + (-1) * width image + 1) by lia.
  replace (y * width image + x + 1)
    with (y * width image + x + 0 * width image + 1) by lia.
  replace (y * width image + x + width image + 1)
    with (y * width image + x + 1 * width image + 1) by lia.
  replace (y * width image + x - width image)
    with (y * width image + x + (-1) * width image + 0) by lia.
  replace (y * width image + x + width image)
    with (y * width image + x + 1 * width image + 0) by lia.
  rewrite !Hpx by lia.
  fold (flat_magnitude v).
  rewrite (ltb_zero_asym _ _ (byte_cases _ v flat_magnitude_check Hv) He).
  rewrite storeZ_replicate. reflexivity.
Qed.

Lemma hough_votes_flat (width height rhoSteps : Z) :
  0 < width -> 0 < height ->
  hough_votes Math_cos Math_sin (replicate (Z.to_nat (width * height)) 0)
    width height rhoSteps =
  replicate (Z.to_nat (thetaSteps * rhoSteps)) 0.
Proof.
  intros Hw Hh. unfold hough_votes.
  apply (for_range_invariant (fun a => a = replicate (Z.to_nat (thetaSteps * rhoSteps)) 0));
    [reflexivity|].
  intros y a Hy ->. apply for_range_invariant; [reflexivity|].
  intros x a Hx ->. rewrite lookupZ_replicate; [reflexivity|].
  apply pixel_index_range; lia.
Qed.

Lemma detected_lines_flat (n : nat) (width height rhoSteps houghThreshold : Z) :
  0 <= houghThreshold ->
  detected_lines (replicate n 0) width height rhoSteps houghThreshold = [].
Proof.
  intros Hthr. unfold detected_lines.
  apply bind_nil_all. intros thetaIdx _. apply bind_nil_all. intros rhoIdx _.
  destruct (lookupZ _ _) as [votes|] eqn:Hl; [|reflexivity].
  unfold lookupZ in Hl. destruct (_ <? 0) in Hl; [discriminate|].
  apply lookup_replicate in Hl as [-> _].
  destruct (Z.ltb_spec houghThreshold 0); [lia|reflexivity].
Qed.

Lemma extractLines_flat_exact image frameDetection linesOptions v :
  uniform image v -> (0 <? edgeThreshold linesOptions)%float = true ->
  0 <= houghThreshold linesOptions ->
  _extractLineFeatures Math_cos Math_sin image frameDetection linesOptions =
  match F2Z (Math_ceil (maxRho (width image) (height image))) with
  | Some _ => Returned []
  | None => Thrown RangeError
  end.
Proof.
  intros Hu He Hthr. unfold _extractLineFeatures.
  rewrite (edge_map_flat _ _ _ v Hu He). simpl.
  destruct (F2Z _) as [rhoSteps|]; [|reflexivity].
  destruct Hu as (Hw & Hh & _).
  rewrite hough_votes_flat, detected_lines_flat by assumption. reflexivity.
Qed.
End FlatLines.

(** ** Color detection *)

Lemma for_each_invariant {S X} (P : S -> Prop) (xs : list X) (body : X -> S -> outcome S)
    (s s' : S) :
  P s -> (forall x a a', x ∈ xs -> P a -> body x a = Returned a' -> P a') ->
  for_each xs body s = Returned s' -> P s'.
Proof.
  revert s. induction xs as [|x xs IH]; intros s Hs Hstep; simpl.
  - intros [= <-]. exact Hs.
  - destruct (body x s) as [a|e] eqn:Hb; simpl; [|discriminate].
    apply IH.
    + eapply Hstep; [left|exact Hs|exact Hb].
    + intros x' a0 a' Hx'. apply Hstep. right. exact Hx'.
Qed.

Lemma elem_of_raster (width height x y : Z) :
  (x, y) ∈ raster width height -> 0 <= x < width /\ 0 <= y < height.
Proof.
  unfold raster. intros H.
  apply list_elem_of_bind in H as [y' [H Hy]].
  apply list_elem_of_bind in H as [x' [H Hx]].
  apply list_elem_of_singleton in H. injection H as <- <-.
  apply elem_of_seqZ in Hx, Hy. lia.
Qed.

(** With a zero threshold no distance is below the threshold. *)
Lemma nearest_cluster_zero_threshold clusters numClusters intensity (c : float) :
  (c =? 0)%float = true ->
  ((nearest_cluster clusters numClusters intensity).1 <? c)%float = false.
Proof.
  intros Hc. unfold nearest_cluster.
  apply (for_range_invariant (fun st : float * Z => (st.1 <? c)%float = false)).
  - apply infinity_ltb_zero, Hc.
  - intros i [minDist clusterIdx] _ Hst.
    destruct (_ <? minDist)%float; [|exact Hst]. simpl. apply abs_ltb_zero, Hc.
Qed.

Lemma assign_pixels_zero_threshold image frameDetection numClusters (c : float) clusters
    clusters' :
  (c =? 0)%float = true ->
  assign_pixels image frameDetection numClusters c clusters = Returned clusters' ->
  clusters' = clusters.
Proof.
  intros Hc. unfold assign_pixels.
  apply (for_each_invariant (fun a => a = clusters)); [reflexivity|].
  intros [x y] a a' _ ->. destruct (negb _); [congruence|].
  destruct (data image) as [imageData|]; [|discriminate].
  pose proof (nearest_cluster_zero_threshold clusters numClusters
                (px imageData (y * width image + x)) c Hc) as Hnear.
  destruct (nearest_cluster _ _ _) as [minDist clusterIdx]. simpl in Hnear.
  rewrite Hnear. congruence.
Qed.

Lemma for_each_returns {S X} (xs : list X) (body : X -> S -> outcome S) (s : S) :
  (forall x a, x ∈ xs -> exists a', body x a = Returned a') ->
  exists s', for_each xs body s = Returned s'.
Proof.
  revert s. induction xs as [|x xs IH]; intros s Hbody; simpl; [eauto|].
  destruct (Hbody x s) as [a' ->]; [left|]. simpl.
  apply IH. intros x' a Hx'. apply Hbody. right. exact Hx'.
Qed.

Lemma assign_pixels_returns image frameDetection numClusters colorThreshold clusters d :
  data image = Some d ->
  exists clusters', assign_pixels image frameDetection numClusters colorThreshold clusters
                    = Returned clusters'.
Proof.
  intros Hd. unfold assign_pixels. apply for_each_returns.
  intros [x y] a _. rewrite Hd. destruct (negb _); [eauto|].
  destruct (nearest_cluster _ _ _) as [minDist clusterIdx].
  destruct (minDist <? colorThreshold)%float; eauto.
Qed.

Lemma cluster_features_empty minRegionSize (clusters : list Cluster) :
  1 <= minRegionSize -> Forall (fun c => pixels c = []) clusters ->
  cluster_features minRegionSize clusters = [].
Proof.
  intros Hmin Hall. unfold cluster_features. apply bind_nil_all.
  intros c Hc. rewrite Forall_forall in Hall. rewrite (Hall c Hc). simpl.
  change (Z.of_nat 0) with 0.
  destruct (Z.ltb_spec 0 minRegionSize); [reflexivity|lia].
Qed.


(** ** Features lie inside the image *)

Lemma Forall_storeZ {A} (P : A -> Prop) (l : list A) i v :
  Forall P l -> P v -> Forall P (storeZ l i v).
Proof. intros. unfold storeZ. destruct (i <? 0); [assumption|]. apply Forall_insert; assumption. Qed.

Lemma lookupZ_elem_of {A} (l : list A) i v : lookupZ l i = Some v -> v ∈ l.
Proof.
  unfold lookupZ. destruct (i <? 0); [discriminate|]. apply list_elem_of_lookup_2.
Qed.

Lemma assign_pixels_inside image frameDetection numClusters colorThreshold clusters clusters' :
  Forall (pixels_inside (width image) (height image)) clusters ->
  assign_pixels image frameDetection numClusters colorThreshold clusters = Returned clusters' ->
  Forall (pixels_inside (width image) (height image)) clusters'.
Proof.
  intros Hinit. unfold assign_pixels. apply for_each_invariant; [exact Hinit|].
  intros [x y] a a' Hxy%elem_of_raster Ha. destruct (negb _); [congruence|].
  destruct (data image) as [imageData|]; [|discriminate].
  destruct (nearest_cluster _ _ _) as [minDist clusterIdx].
  destruct (minDist <? colorThreshold)%float; [|congruence].
  intros [= <-]. unfold push_pixel.
  destruct (lookupZ a clusterIdx) as [c|] eqn:Hc; [|exact Ha].
  apply Forall_storeZ; [exact Ha|].
  unfold pixels_inside. simpl. apply Forall_app. split.
  - rewrite Forall_forall in Ha. apply (Ha c). eapply lookupZ_elem_of, Hc.
  - apply Forall_singleton. simpl. lia.
Qed.

Lemma fold_left_sum_bounds {X} (f : X -> Z) (M : Z) (l : list X) (a : Z) :
  Forall (fun p => 0 <= f p <= M) l ->
  a <= fold_left (fun s p => s + f p) l a <= a + Z.of_nat (length l) * M.
Proof.
  revert a. induction l as [|p l IH]; intros a Hl; simpl; [lia|].
  inversion Hl as [|? ? Hp Hl']; subst. specialize (IH (a + f p) Hl'). nia.
Qed.

Lemma Math_round_quot_bounds (sum n w : Z) :
  1 <= n -> 0 <= sum <= n * (w - 1) ->
  exists z, Math_round_quot sum n = Int z /\ 0 <= z < w.
Proof.
  intros Hn Hsum. unfold Math_round_quot.
  destruct (Z.eqb_spec n 0); [lia|]. eexists. split; [reflexivity|]. split.
  - apply Z.div_pos; lia.
  - apply Z.div_lt_upper_bound; nia.
Qed.

Lemma cluster_features_inside width height minRegionSize clusters f :
  1 <= minRegionSize -> Forall (pixels_inside width height) clusters ->
  f ∈ cluster_features minRegionSize clusters -> in_image width height f.
Proof.
  intros Hmin Hall Hf. unfold cluster_features in Hf.
  apply list_elem_of_bind in Hf as [c [Hf Hc]].
  rewrite Forall_forall in Hall. specialize (Hall c Hc). unfold pixels_inside in Hall.
  destruct (Z.ltb_spec (Z.of_nat (length (pixels c))) minRegionSize); [inversion Hf|].
  apply list_elem_of_singleton in Hf as ->.
  destruct (Math_round_quot_bounds
              (fold_left (fun s p => s + pixel_x p) (pixels c) 0)
              (Z.of_nat (length (pixels c))) width) as (x & -> & Hx); [lia| |].
  { pose proof (fold_left_sum_bounds pixel_x (width - 1) (pixels c) 0) as Hb.
    rewrite Z.add_0_l in Hb. apply Hb.
    eapply Forall_impl; [exact Hall|]. simpl. lia. }
  destruct (Math_round_quot_bounds
              (fold_left (fun s p => s + pixel_y p) (pixels c) 0)
              (Z.of_nat (length (pixels c))) height) as (y & -> & Hy); [lia| |].
  { pose proof (fold_left_sum_bounds pixel_y (height - 1) (pixels c) 0) as Hb.
    rewrite Z.add_0_l in Hb. apply Hb.
    eapply Forall_impl; [exact Hall|]. simpl. lia. }
  simpl. lia.
Qed.

Lemma extractColor_inside image frameDetection colorOptions fs :
  1 <= minRegionSize colorOptions ->
  _extractColorFeatures image frameDetection colorOptions = Returned fs ->
  Forall (in_image (width image) (height image)) fs.
Proof.
  intros Hmin. unfold _extractColorFeatures. destruct (_ || _); [discriminate|].
  destruct (assign_pixels _ _ _ _ _) as [clusters'|] eqn:Ha; simpl; [|discriminate].
  intros [= <-]. apply Forall_forall. intros f.
  apply cluster_features_inside; [exact Hmin|].
  eapply assign_pixels_inside; [|exact Ha].
  apply Forall_fmap, Forall_forall. intros; constructor.
Qed.

Lemma extractCorner_inside image frameDetection cornerOptions fs :
  _extractCornerFeatures image frameDetection cornerOptions = Returned fs ->
  Forall (in_image (width image) (height image)) fs.
Proof.
  unfold _extractCornerFeatures. destruct (data image) as [imageData|]; [|discriminate].
  intros [= <-]. apply Forall_fmap.
  eapply Forall_impl; [apply selectFeature_window_inside, MAX_THRESH_below_one|].
  intros [x y]. unfold window_inside, in_image, compose, TEMPLATE_SIZE. simpl. lia.
Qed.

Section ExtractFacts.
Variables Math_cos Math_sin : float -> float.

Lemma extractLines_inside image frameDetection linesOptions fs :
  _extractLineFeatures Math_cos Math_sin image frameDetection linesOptions = Returned fs ->
  Forall (in_image (width image) (height image)) fs.
Proof.
  unfold _extractLineFeatures. destruct (edge_map _ _ _) as [edges|]; simpl; [|discriminate].
  destruct (F2Z _) as [rhoSteps|]; [|discriminate].
  intros [= <-]. apply Forall_forall. intros f Hf. unfold line_features in Hf.
  apply list_elem_of_bind in Hf as [[[theta rho] votes] [Hf _]].
  destruct (sample_point _ _ _ _ _ _) as [x0 y0].
  destruct (within_image _ _ x0 y0) eqn:Hw; [|inversion Hf].
  apply list_elem_of_singleton in Hf as ->. exact Hw.
Qed.

(** A property of the features of every mode is a property of every
    feature [extract] returns. *)
Lemma extract_Forall (P : Feature -> Prop) image frameDetection detectionOptions fs :
  (forall mode fs',
     run_mode Math_cos Math_sin image (default (mkFrameBorder 0 0 0 0) frameDetection)
       (default DEFAULT_DETECTION_OPTIONS detectionOptions) mode = Returned fs' ->
     Forall P fs') ->
  extract Math_cos Math_sin image frameDetection detectionOptions = Returned fs ->
  Forall P fs.
Proof.
  intros Hmode. unfold extract. apply for_each_invariant; [constructor|].
  intros mode a a' _ Ha.
  destruct (run_mode _ _ _ _ _ _) as [fs'|] eqn:Hrun; simpl; [|discriminate].
  intros [= <-]. apply Forall_app. split; [exact Ha|]. eapply Hmode, Hrun.
Qed.
End ExtractFacts.
(** C2.  With all four fractions 0 every point is in-frame; otherwise a point
    is in-frame iff [x < leftPixels] or [x > rightPixels] or [y < topPixels]
    or [y > bottomPixels], all strict: the border band is in-frame, the
    central rectangle is not. *)
Theorem isInFrameArea_contract (x y width height : float) (b : FrameBorder) :
  (all_zero b = true -> isInFrameArea x y width height b = true) /\
  (all_zero b = false ->
   (isInFrameArea x y width height b = true <->
    (x <? leftPixels width b)%float = true \/ (rightPixels width b <? x)%float = true \/
    (y <? topPixels height b)%float = true \/ (bottomPixels height b <? y)%float = true)).
Proof.
  unfold isInFrameArea. fold (all_zero b).
  fold (topPixels height b) (bottomPixels height b) (leftPixels width b) (rightPixels width b).
  split; intros ->; [reflexivity|].
  rewrite !orb_true_iff. tauto.
Qed.

(** The two sides of the contract at a concrete border: the frame of the
    specification's example (100 x 100, top fraction 0.1) and the zero frame. *)
Lemma isInFrameArea_contract_witness :
  (all_zero (mkFrameBorder 0 0 0 0) = true /\
   isInFrameArea 50 50 100 100 (mkFrameBorder 0 0 0 0) = true) /\
  (all_zero (mkFrameBorder 0.1 0 0 0) = false /\
   isInFrameArea 50 5 100 100 (mkFrameBorder 0.1 0 0 0) = true /\
   isInFrameArea 50 50 100 100 (mkFrameBorder 0.1 0 0 0) = false).
Proof.
  split.
  - split; [reflexivity|].
    apply (proj1 (isInFrameArea_contract 50 50 100 100 (mkFrameBorder 0 0 0 0))).
    reflexivity.
  - split; [reflexivity|]. split.
    + apply (proj2 (isInFrameArea_contract 50 5 100 100 (mkFrameBorder 0.1 0 0 0)));
        [reflexivity|].
      right; right; left. vm_compute. reflexivity.
    + vm_compute. reflexivity.
Defined.

(** ** The dispatcher *)

(** C4.  [extract(image)] returns what
    [extract(image, {top:0,right:0,bottom:0,left:0}, {modes:['corner']})]
    returns. *)
Theorem extract_default_arguments (Math_cos Math_sin : float -> float) (image : Image) :
  extract Math_cos Math_sin image None None =
  extract Math_cos Math_sin image (Some (mkFrameBorder 0 0 0 0))
    (Some {| modes := Some (ModeArray ["corner"%string]); cornerOptions := None;
             colorOptions := None; linesOptions := None |}).
Proof.
  (* Both calls merge to the mode list ['corner'] and the zero frame; the
     corner options are empty either way. *)
  unfold extract, merged_modes, DEFAULT_DETECTION_OPTIONS. cbn [default modes].
  reflexivity.
Qed.

(** C10.  A single mode string is treated as the one-element array holding
    it. *)
Theorem extract_mode_string (Math_cos Math_sin : float -> float) (image : Image)
    (frameDetection : option FrameBorder) (mode : string)
    (corner : option CornerOptions) (color : option ColorOptionsArg)
    (lines : option LinesOptionsArg) :
  extract Math_cos Math_sin image frameDetection
    (Some (mkDetectionOptions (Some (ModeString mode)) corner color lines)) =
  extract Math_cos Math_sin image frameDetection
    (Some (mkDetectionOptions (Some (ModeArray [mode])) corner color lines)).
Proof.
  (* [Array.isArray] fails on the string, which is wrapped into [[mode]]. *)
  unfold extract, merged_modes. cbn [default modes].
  reflexivity.
Qed.

(** ** Hough peaks and their sample points *)

(** The line detector is the four steps in sequence. *)
Lemma extractLines_steps Math_cos Math_sin image frameDetection linesOptions fs :
  _extractLineFeatures Math_cos Math_sin image frameDetection linesOptions = Returned fs ->
  exists edges rhoSteps,
    edge_map image frameDetection (edgeThreshold linesOptions) = Returned edges /\
    F2Z (Math_ceil (maxRho (width image) (height image))) = Some rhoSteps /\
    fs = line_features Math_cos Math_sin (width image) (height image)
           (detected_lines
              (hough_votes Math_cos Math_sin edges (width image) (height image) rhoSteps)
              (width image) (height image) rhoSteps (houghThreshold linesOptions)).
Proof.
  unfold _extractLineFeatures.
  destruct (edge_map _ _ _) as [edges|]; simpl; [|discriminate].
  destruct (F2Z _) as [rhoSteps|]; [|discriminate].
  intros [= <-]. eauto.
Qed.





(** ** Corners are separated *)

Lemma elem_of_cluster_features minRegionSize clusters f :
  f ∈ cluster_features minRegionSize clusters ->
  exists x y intensity regionSize, f = ColorRegion x y intensity regionSize.
Proof.
  unfold cluster_features. intros [c [Hf _]]%list_elem_of_bind.
  destruct (_ <? _); [inversion Hf|].
  apply list_elem_of_singleton in Hf as ->. eauto.
Qed.

Lemma elem_of_line_features Math_cos Math_sin width height detectedLines f :
  f ∈ line_features Math_cos Math_sin width height detectedLines ->
  exists x y theta rho votes, f = Line x y theta rho votes.
Proof.
  unfold line_features. intros [[[theta rho] votes] [Hf _]]%list_elem_of_bind.
  destruct (sample_point _ _ _ _ _ _) as [x0 y0].
  destruct (within_image _ _ _ _); [|inversion Hf].
  apply list_elem_of_singleton in Hf as ->. eauto 6.
Qed.

(** Every corner [extract] returns was selected by the corner detector. *)
Lemma extract_corners_selected Math_cos Math_sin image frameDetection detectionOptions fs x y :
  extract Math_cos Math_sin image frameDetection detectionOptions = Returned fs ->
  Corner x y ∈ fs ->
  exists imageData, data image = Some imageData /\
    (x, y) ∈ selected_corners image imageData (default (mkFrameBorder 0 0 0 0) frameDetection).
Proof.
  intros Hex Hin.
  apply (extract_Forall Math_cos Math_sin (fun f => forall x y, f = Corner x y ->
           exists imageData, data image = Some imageData /\
             (x, y) ∈ selected_corners image imageData
                        (default (mkFrameBorder 0 0 0 0) frameDetection))) in Hex.
  - rewrite Forall_forall in Hex. eapply Hex; [exact Hin|reflexivity].
  - clear. intros mode fs'. unfold run_mode.
    destruct (String.eqb mode DETECTION_MODES.CORNER);
      [|destruct (String.eqb mode DETECTION_MODES.COLOR);
        [|destruct (String.eqb mode DETECTION_MODES.LINES)]].
    + unfold _extractCornerFeatures. destruct (data image) as [imageData|]; [|discriminate].
      intros [= <-]. apply Forall_forall. intros f Hf x y ->.
      apply list_elem_of_fmap in Hf as [[cx cy] [[= -> ->] Hc]].
      exists imageData. split; [reflexivity|exact Hc].
    + unfold _extractColorFeatures. destruct (_ || _); [discriminate|].
      destruct (assign_pixels _ _ _ _ _); simpl; [|discriminate].
      intros [= <-]. apply Forall_forall. intros f Hf x y ->.
      apply elem_of_cluster_features in Hf as (? & ? & ? & ? & [=]).
    + unfold _extractLineFeatures. destruct (edge_map _ _ _); simpl; [|discriminate].
      destruct (F2Z _); [|discriminate].
      intros [= <-]. apply Forall_forall. intros f Hf x y ->.
      apply elem_of_line_features in Hf as (? & ? & ? & ? & ? & [=]).
    + intros [= <-]. constructor.
Qed.

(** ** Features lie inside the image *)

(** C9.  When every color detection that is requested uses
    [minRegionSize >= 1], every feature [extract] returns has its coordinates
    inside the image; a corner is moreover at least [TEMPLATE_SIZE] away from
    each side. *)
Theorem features_inside_image (Math_cos Math_sin : float -> float) (image : Image)
    (frameDetection : option FrameBorder) (detectionOptions : option DetectionOptions)
    (fs : list Feature) :
  (DETECTION_MODES.COLOR
     ∈ merged_modes (default DEFAULT_DETECTION_OPTIONS detectionOptions) ->
   1 <= minRegionSize
          (merge_colorOptions
             (colorOptions (default DEFAULT_DETECTION_OPTIONS detectionOptions)))) ->
  extract Math_cos Math_sin image frameDetection detectionOptions = Returned fs ->
  Forall (in_image (width image) (height image)) fs.
Proof.
  intros Hmin. unfold extract. apply for_each_invariant; [constructor|].
  intros mode acc acc' Hmode Hacc.
  destruct (run_mode _ _ _ _ _ mode) as [features|e] eqn:Hrun; simpl; [|discriminate].
  intros [= <-]. apply Forall_app. split; [exact Hacc|].
  revert Hrun. unfold run_mode.
  destruct (String.eqb mode DETECTION_MODES.CORNER);
    [|destruct (String.eqb_spec mode DETECTION_MODES.COLOR) as [->|_];
      [|destruct (String.eqb mode DETECTION_MODES.LINES)]].
  - apply extractCorner_inside.
  - apply extractColor_inside, Hmin, Hmode.
  - apply extractLines_inside.
  - intros [= <-]. constructor.
Qed.

(** The corner and color detectors on the sample image, with the default
    parameters; and the corner detector alone, with a [minRegionSize] of 0
    that is not used. *)
Lemma features_inside_image_witness :
  (extract RefMath.cos RefMath.sin sample_image None
     (options_with ["corner"; "color"]%string None None) =
     Returned [Corner 6 10; Corner 8 8;
               ColorRegion (Int 10) (Int 8) 76.5 87;
               ColorRegion (Int 8) (Int 7) 127.5 106;
               ColorRegion (Int 5) (Int 7) 178.5 58] /\
   Forall (in_image 17 17)
     [Corner 6 10; Corner 8 8;
      ColorRegion (Int 10) (Int 8) 76.5 87;
      ColorRegion (Int 8) (Int 7) 127.5 106;
      ColorRegion (Int 5) (Int 7) 178.5 58]) /\
  (extract RefMath.cos RefMath.sin sample_image None
     (options_with ["corner"]%string (Some (mkColorOptionsArg None (Some 0) None)) None) =
     Returned [Corner 6 10; Corner 8 8] /\
   Forall (in_image 17 17) [Corner 6 10; Corner 8 8]).
Proof.
  assert (Hex : extract RefMath.cos RefMath.sin sample_image None
                  (options_with ["corner"; "color"]%string None None) =
                Returned [Corner 6 10; Corner 8 8;
                          ColorRegion (Int 10) (Int 8) 76.5 87;
                          ColorRegion (Int 8) (Int 7) 127.5 106;
                          ColorRegion (Int 5) (Int 7) 178.5 58])
    by (vm_compute; reflexivity).
  assert (Hex' : extract RefMath.cos RefMath.sin sample_image None
                   (options_with ["corner"]%string
                      (Some (mkColorOptionsArg None (Some 0) None)) None) =
                 Returned [Corner 6 10; Corner 8 8])
    by (vm_compute; reflexivity).
  split; (split; [eassumption|]).
  - apply (features_inside_image RefMath.cos RefMath.sin sample_image None
             (options_with ["corner"; "color"]%string None None) _
             ltac:(intros _; simpl; lia) Hex).
  - apply (features_inside_image RefMath.cos RefMath.sin sample_image None
             (options_with ["corner"]%string
                (Some (mkColorOptionsArg None (Some 0) None)) None) _
             ltac:(intros H; apply list_elem_of_singleton in H; discriminate H) Hex').
Defined.

(** ** Images of uniform intensity *)

(** The number of columns of the accumulator, [ceil(sqrt(width^2 + height^2))],
    is an integer for the image sizes up to 64 x 64. *)
Example accumulator_columns_integer :
  forallb (fun w =>
    forallb (fun h => bool_decide (F2Z (Math_ceil (maxRho w h)) <> None)) (seqZ 1 64))
    (seqZ 1 64) = true.
Proof. vm_compute. reflexivity. Qed.

(** C7, amended.  On an image of uniform intensity the corner detector returns
    no feature, and the line detector with [edgeThreshold > 0] and
    [houghThreshold >= 0] returns no feature.  (The line detector throws a
    RangeError instead exactly when the number of columns of its accumulator,
    [ceil(sqrt(width^2 + height^2))], is not a number an array length can be
    computed from, as for a diagonal beyond the range of doubles.) *)
Theorem flat_image_no_features (Math_cos Math_sin : float -> float) (image : Image)
    (frameDetection : FrameBorder) (cornerOptions : CornerOptions)
    (linesOptions : LinesOptions) (v : Z) :
  uniform image v ->
  _extractCornerFeatures image frameDetection cornerOptions = Returned [] /\
  ((0 <? edgeThreshold linesOptions)%float = true -> 0 <= houghThreshold linesOptions ->
   (F2Z (Math_ceil (maxRho (width image) (height image))) <> None ->
    _extractLineFeatures Math_cos Math_sin image frameDetection linesOptions = Returned []) /\
   (F2Z (Math_ceil (maxRho (width image) (height image))) = None ->
    _extractLineFeatures Math_cos Math_sin image frameDetection linesOptions
      = Thrown RangeError)).
Proof.
  intros Hu. split.
  - eapply extractCorner_flat, Hu.
  - intros He Hthr.
    rewrite (extractLines_flat_exact Math_cos Math_sin image frameDetection linesOptions v
               Hu He Hthr).
    destruct (F2Z _); split; congruence.
Qed.

(** The uniform 17 x 17 image, a size at which the sample image has corners,
    with [houghThreshold = 2]. *)
Lemma flat_image_no_features_witness :
  uniform uniform_image 7 /\
  F2Z (Math_ceil (maxRho 17 17)) = Some 25 /\
  _extractCornerFeatures uniform_image no_border mkCornerOptions = Returned [] /\
  _extractLineFeatures RefMath.cos RefMath.sin uniform_image no_border
    (mkLinesOptions 50 2 30 10) = Returned [].
Proof.
  assert (Hu : uniform uniform_image 7) by (unfold uniform; simpl; repeat split; lia).
  assert (Hrho : F2Z (Math_ceil (maxRho 17 17)) = Some 25) by (vm_compute; reflexivity).
  split; [exact Hu|]. split; [exact Hrho|].
  destruct (flat_image_no_features RefMath.cos RefMath.sin uniform_image no_border
              mkCornerOptions (mkLinesOptions 50 2 30 10) 7 Hu) as [Hc Hl].
  split; [exact Hc|].
  apply (proj1 (Hl eq_refl ltac:(simpl; lia))).
  change (F2Z (Math_ceil (maxRho 17 17)) <> None). rewrite Hrho. discriminate.
Defined.

(** With a negative [houghThreshold] every cell of the empty accumulator is a
    detected line: the uniform 3 x 4 image then yields line features, the
    first from the cell [(thetaIdx, rhoIdx) = (0, 2)]. *)
Lemma flat_image_negative_houghThreshold :
  uniform flat_image 7 /\
  (0 <? edgeThreshold (mkLinesOptions 50 (-1) 30 10))%float = true /\
  exists fs,
    _extractLineFeatures RefMath.cos RefMath.sin flat_image no_border
      (mkLinesOptions 50 (-1) 30 10) = Returned (Line (-0) 2 0 (-0.5) 0 :: fs).
Proof.
  split; [unfold uniform; simpl; repeat split; lia|].
  split; [reflexivity|].
  eexists. vm_compute. reflexivity.
Qed.

(** ** The color threshold *)

(** C6, amended.  With [colorThreshold = 0] and [minRegionSize >= 1] color
    detection yields no feature, whatever the image: no distance to a center
    is strictly below 0, so every cluster stays empty. *)
Theorem color_threshold_zero (image : Image) (frameDetection : FrameBorder)
    (colorOptions : ColorOptions) :
  (colorThreshold colorOptions =? 0)%float = true -> 1 <= minRegionSize colorOptions ->
  (forall fs, _extractColorFeatures image frameDetection colorOptions = Returned fs -> fs = []) /\
  (forall imageData, data image = Some imageData -> 0 <= numClusters colorOptions < 2 ^ 32 ->
     _extractColorFeatures image frameDetection colorOptions = Returned []).
Proof.
  intros Hc Hmin.
  assert (Hpartial : forall fs,
    _extractColorFeatures image frameDetection colorOptions = Returned fs -> fs = []).
  { intros fs. unfold _extractColorFeatures.
    destruct (_ || _); [discriminate|].
    destruct (assign_pixels _ _ _ _ _) as [clusters'|] eqn:Ha; simpl; [|discriminate].
    apply (assign_pixels_zero_threshold _ _ _ _ _ _ Hc) in Ha as ->.
    intros [= <-]. apply cluster_features_empty; [exact Hmin|].
    apply Forall_fmap, Forall_forall. intros; reflexivity. }
  split; [exact Hpartial|].
  intros d Hd Hn.
  destruct (_extractColorFeatures image frameDetection colorOptions) as [fs|e] eqn:Hex.
  - rewrite (Hpartial fs eq_refl). reflexivity.
  - exfalso. revert Hex. unfold _extractColorFeatures.
    destruct (Z.ltb_spec (numClusters colorOptions) 0),
      (Z.leb_spec (2 ^ 32) (numClusters colorOptions)); try lia. simpl.
    edestruct (assign_pixels_returns image frameDetection) as [clusters' ->]; [exact Hd|].
    discriminate.
Qed.

Lemma color_threshold_zero_witness :
  _extractColorFeatures (mkImage (Some [0; 255]) 2 1 1) no_border (mkColorOptions 5 1 0)
    = Returned [].
Proof.
  apply (proj2 (color_threshold_zero (mkImage (Some [0; 255]) 2 1 1) no_border
                  (mkColorOptions 5 1 0) eq_refl ltac:(simpl; lia)) [0; 255] eq_refl).
  simpl. lia.
Defined.

(** With [minRegionSize = 0] the empty clusters are not dropped: each emits a
    feature whose centroid is NaN (0 / 0). *)
Lemma color_threshold_zero_minRegionSize_zero :
  _extractColorFeatures (mkImage (Some [0; 255]) 2 1 1) no_border (mkColorOptions 5 0 0) =
  Returned [ColorRegion NaN NaN 25.5 0; ColorRegion NaN NaN 76.5 0;
            ColorRegion NaN NaN 127.5 0; ColorRegion NaN NaN 178.5 0;
            ColorRegion NaN NaN 229.5 0].
Proof. vm_compute. reflexivity. Qed.

(** ** Invalid images *)

Lemma extractColor_returns image frameDetection colorOptions imageData :
  data image = Some imageData -> 0 <= numClusters colorOptions < 2 ^ 32 ->
  exists fs, _extractColorFeatures image frameDetection colorOptions = Returned fs.
Proof.
  intros Hd Hn. unfold _extractColorFeatures.
  destruct (Z.ltb_spec (numClusters colorOptions) 0),
    (Z.leb_spec (2 ^ 32) (numClusters colorOptions)); try lia. simpl.
  edestruct (assign_pixels_returns image frameDetection) as [clusters' ->]; [exact Hd|].
  simpl. eauto.
Qed.

(** C1, amended.  [extract] does not validate its image and has no
    InvalidInput condition.  With the default options a [null] buffer makes it
    throw a TypeError, when the corner detector reads the buffer's length.  An
    image whose buffer is not [null] is never rejected by the color detector,
    whatever its width, height and buffer length: a feature list is
    returned. *)
Theorem extract_no_validation (Math_cos Math_sin : float -> float) (image : Image)
    (frameDetection : option FrameBorder) :
  (data image = None ->
   extract Math_cos Math_sin image frameDetection None = Thrown TypeError) /\
  (forall imageData color,
     data image = Some imageData -> 0 <= numClusters (merge_colorOptions color) < 2 ^ 32 ->
     exists fs, extract Math_cos Math_sin image frameDetection
                  (options_with ["color"%string] color None) = Returned fs).
Proof.
  split.
  - intros Hd. unfold extract. simpl. unfold run_mode. simpl.
    unfold _extractCornerFeatures. rewrite Hd. reflexivity.
  - intros imageData color Hd Hn. unfold extract. simpl. unfold run_mode. simpl.
    destruct (extractColor_returns image (default (mkFrameBorder 0 0 0 0) frameDetection)
                (merge_colorOptions color) imageData Hd Hn) as [fs ->].
    simpl. eauto.
Qed.

Lemma extract_no_validation_witness :
  extract RefMath.cos RefMath.sin (mkImage None 17 17 1) None None = Thrown TypeError /\
  exists fs, extract RefMath.cos RefMath.sin (mkImage (Some [1; 2; 3]) 0 (-1) 1) None
               (options_with ["color"%string] None None) = Returned fs.
Proof.
  split.
  - apply (proj1 (extract_no_validation RefMath.cos RefMath.sin (mkImage None 17 17 1) None)).
    reflexivity.
  - apply (proj2 (extract_no_validation RefMath.cos RefMath.sin
                    (mkImage (Some [1; 2; 3]) 0 (-1) 1) None) [1; 2; 3] None eq_refl).
    simpl. lia.
Defined.

(** Two invalid images that [extract] accepts: an empty buffer with zero width
    and height, for which it returns the empty list, and a 1 x 1 image with a
    buffer of three samples, of which it silently uses the first. *)
Lemma extract_accepts_invalid_images :
  (invalid_image (mkImage (Some []) 0 0 1) /\
   extract RefMath.cos RefMath.sin (mkImage (Some []) 0 0 1) None
     (options_with ["color"%string] None None) = Returned []) /\
  (invalid_image (mkImage (Some [1; 2; 3]) 1 1 1) /\
   extract RefMath.cos RefMath.sin (mkImage (Some [1; 2; 3]) 1 1 1) None
     (options_with ["color"%string] (Some (mkColorOptionsArg None (Some 1) None)) None)
   = Returned [ColorRegion (Int 0) (Int 0) 25.5 1]).
Proof.
  split; (split; [unfold invalid_image; simpl; auto; right; right; right; lia
                 |vm_compute; reflexivity]).
Qed.

(** * Further properties of the code *)

(** ** More on the dispatcher *)

Section Dispatcher.
Variables Math_cos Math_sin : float -> float.
Variables (image : Image) (frameDetection : option FrameBorder).
Variable (detectionOptions : DetectionOptions).

Local Abbreviation run_all :=
  (run_modes Math_cos Math_sin image (default (mkFrameBorder 0 0 0 0) frameDetection)
     detectionOptions).

Lemma run_mode_set_modes ms mode :
  run_mode Math_cos Math_sin image (default (mkFrameBorder 0 0 0 0) frameDetection)
    (set_modes detectionOptions ms) mode =
  run_mode Math_cos Math_sin image (default (mkFrameBorder 0 0 0 0) frameDetection)
    detectionOptions mode.
Proof. reflexivity. Qed.

Lemma extract_set_modes ms :
  extract Math_cos Math_sin image frameDetection (Some (set_modes detectionOptions ms)) =
  run_all ms [].
Proof. reflexivity. Qed.

(** The loop over the modes only appends to the features it starts from. *)
Lemma run_all_acc ms acc :
  run_all ms acc = (fs ← run_all ms []; Returned (acc ++ fs)).
Proof.
  unfold run_modes. revert acc. induction ms as [|mode ms IH]; intros acc; simpl.
  - rewrite app_nil_r. reflexivity.
  - destruct (run_mode _ _ _ _ _ mode) as [fs|e]; simpl; [|reflexivity].
    rewrite (IH (acc ++ fs)), (IH fs).
    destruct (for_each ms _ []) as [fs'|e]; simpl; [|reflexivity].
    rewrite app_assoc. reflexivity.
Qed.

Lemma run_all_app ms1 ms2 acc :
  run_all (ms1 ++ ms2) acc = (all ← run_all ms1 acc; run_all ms2 all).
Proof.
  unfold run_modes. revert acc. induction ms1 as [|mode ms1 IH]; intros acc; simpl; [reflexivity|].
  destruct (run_mode _ _ _ _ _ mode) as [fs|e]; simpl; [apply IH|reflexivity].
Qed.

Lemma run_mode_types mode fs :
  run_mode Math_cos Math_sin image (default (mkFrameBorder 0 0 0 0) frameDetection)
    detectionOptions mode = Returned fs ->
  Forall (fun f => feature_type f = mode) fs.
Proof.
  unfold run_mode.
  destruct (String.eqb_spec mode DETECTION_MODES.CORNER) as [->|_];
    [|destruct (String.eqb_spec mode DETECTION_MODES.COLOR) as [->|_];
      [|destruct (String.eqb_spec mode DETECTION_MODES.LINES) as [->|_]]].
  - unfold _extractCornerFeatures. destruct (data image); [|discriminate].
    intros [= <-]. apply Forall_fmap, Forall_forall. intros; reflexivity.
  - unfold _extractColorFeatures. destruct (_ || _); [discriminate|].
    destruct (assign_pixels _ _ _ _ _); simpl; [|discriminate].
    intros [= <-]. apply Forall_forall. intros f Hf.
    apply elem_of_cluster_features in Hf as (? & ? & ? & ? & ->). reflexivity.
  - intros Hl. apply extractLines_steps in Hl as (? & ? & _ & _ & ->).
    apply Forall_forall. intros f Hf.
    apply elem_of_line_features in Hf as (? & ? & ? & ? & ? & ->). reflexivity.
  - intros [= <-]. constructor.
Qed.

Lemma run_mode_unknown mode :
  known_mode mode = false ->
  run_mode Math_cos Math_sin image (default (mkFrameBorder 0 0 0 0) frameDetection)
    detectionOptions mode = Returned [].
Proof.
  unfold known_mode, run_mode. intros H.
  apply orb_false_elim in H as [H Hl]. apply orb_false_elim in H as [Hc Hk].
  rewrite Hc, Hk, Hl. reflexivity.
Qed.

Lemma filter_type_all mode fs :
  Forall (fun f => feature_type f = mode) fs -> filter_type mode fs = fs.
Proof.
  induction 1 as [|f fs Hf _ IH]; [reflexivity|].
  unfold filter_type in *. simpl. rewrite Hf, String.eqb_refl, IH. reflexivity.
Qed.

Lemma filter_type_none mode mode' fs :
  mode' <> mode -> Forall (fun f => feature_type f = mode') fs -> filter_type mode fs = [].
Proof.
  intros Hne. induction 1 as [|f fs Hf _ IH]; [reflexivity|].
  unfold filter_type in *. simpl. rewrite Hf.
  destruct (String.eqb_spec mode' mode); [contradiction|exact IH].
Qed.

Lemma filter_type_app mode fs1 fs2 :
  filter_type mode (fs1 ++ fs2) = filter_type mode fs1 ++ filter_type mode fs2.
Proof. apply List.filter_app. Qed.
Lemma run_modes_cons mode ms acc :
  run_all (mode :: ms) acc =
  (fs ← run_mode Math_cos Math_sin image (default (mkFrameBorder 0 0 0 0) frameDetection)
          detectionOptions mode;
   run_all ms (acc ++ fs)).
Proof.
  unfold run_modes. simpl. destruct (run_mode _ _ _ _ _ mode); reflexivity.
Qed.

(** X1.  The features of a list of modes are the features of its parts, one
    after the other; the first exception ends the call. *)
Theorem extract_modes_app (ms1 ms2 : list string) :
  extract Math_cos Math_sin image frameDetection
    (Some (set_modes detectionOptions (ms1 ++ ms2))) =
  (fs1 ← extract Math_cos Math_sin image frameDetection
           (Some (set_modes detectionOptions ms1));
   fs2 ← extract Math_cos Math_sin image frameDetection
           (Some (set_modes detectionOptions ms2));
   Returned (fs1 ++ fs2)).
Proof.
  rewrite !extract_set_modes, run_all_app.
  destruct (run_all ms1 []) as [fs1|e]; simpl; [|reflexivity].
  apply run_all_acc.
Qed.

(** X2.  Unknown mode strings are skipped: the call returns what it returns
    for the known modes of the list, in their order. *)
Theorem extract_skips_unknown_modes (ms : list string) :
  extract Math_cos Math_sin image frameDetection (Some (set_modes detectionOptions ms)) =
  extract Math_cos Math_sin image frameDetection
    (Some (set_modes detectionOptions (List.filter known_mode ms))).
Proof.
  rewrite !extract_set_modes. generalize (@nil Feature) as acc.
  induction ms as [|mode ms IH]; intros acc; [reflexivity|].
  simpl List.filter. rewrite run_modes_cons. destruct (known_mode mode) eqn:Hk.
  - rewrite run_modes_cons.
    destruct (run_mode _ _ _ _ _ mode) as [fs|e]; simpl; [apply IH|reflexivity].
  - rewrite run_mode_unknown by exact Hk. simpl. rewrite app_nil_r. apply IH.
Qed.

(** X3.  Filtering the features of a call by their [type] gives what
    [extract] returns for that mode alone, once for each time the mode is
    listed. *)
Theorem extract_filter_type (ms : list string) (mode : string) (fs : list Feature) :
  extract Math_cos Math_sin image frameDetection (Some (set_modes detectionOptions ms))
    = Returned fs ->
  extract Math_cos Math_sin image frameDetection
    (Some (set_modes detectionOptions (List.filter (String.eqb mode) ms)))
    = Returned (filter_type mode fs).
Proof.
  rewrite !extract_set_modes. revert fs.
  induction ms as [|m ms IH]; intros fs.
  - intros [= <-]. reflexivity.
  - rewrite run_modes_cons.
    destruct (run_mode _ _ _ _ _ m) as [fs1|e] eqn:Hrun; simpl; [|discriminate].
    rewrite run_all_acc.
    destruct (run_all ms []) as [fs2|e] eqn:Hrest; simpl; [|discriminate].
    intros [= <-]. rewrite filter_type_app.
    specialize (IH fs2 eq_refl).
    pose proof (run_mode_types _ _ Hrun) as Hty.
    destruct (String.eqb_spec mode m) as [->|Hne].
    + rewrite run_modes_cons, Hrun. simpl. rewrite run_all_acc, IH. simpl.
      rewrite (filter_type_all _ _ Hty). reflexivity.
    + rewrite (filter_type_none mode m fs1) by (auto; congruence). exact IH.
Qed.
End Dispatcher.

Lemma extract_filter_type_witness :
  extract RefMath.cos RefMath.sin sample_image None
    (Some (set_modes DEFAULT_DETECTION_OPTIONS ["corner"; "color"]%string)) =
    Returned [Corner 6 10; Corner 8 8;
              ColorRegion (Int 10) (Int 8) 76.5 87;
              ColorRegion (Int 8) (Int 7) 127.5 106;
              ColorRegion (Int 5) (Int 7) 178.5 58] /\
  extract RefMath.cos RefMath.sin sample_image None
    (Some (set_modes DEFAULT_DETECTION_OPTIONS ["corner"%string])) =
    Returned [Corner 6 10; Corner 8 8].
Proof.
  assert (Hex : extract RefMath.cos RefMath.sin sample_image None
                  (Some (set_modes DEFAULT_DETECTION_OPTIONS ["corner"; "color"]%string)) =
                Returned [Corner 6 10; Corner 8 8;
                          ColorRegion (Int 10) (Int 8) 76.5 87;
                          ColorRegion (Int 8) (Int 7) 127.5 106;
                          ColorRegion (Int 5) (Int 7) 178.5 58])
    by (vm_compute; reflexivity).
  split; [exact Hex|].
  exact (extract_filter_type RefMath.cos RefMath.sin sample_image None
           DEFAULT_DETECTION_OPTIONS ["corner"; "color"]%string "corner"%string _ Hex).
Defined.

(** ** Corners of one run of the corner detector *)

Lemma lookup_filter {A} (P : A -> bool) (l : list A) (j : nat) (b : A) :
  l !! j = Some b -> P b = true -> exists j', List.filter P l !! j' = Some b.
Proof.
  intros Hj Hb. apply list_elem_of_lookup, list_elem_of_In, filter_In.
  split; [|exact Hb]. apply list_elem_of_In, list_elem_of_lookup. exists j. exact Hj.
Qed.

(** Filtering a list keeps the order of the elements it keeps. *)
Lemma lookup_filter_lt {A} (P : A -> bool) (l : list A) (i j : nat) (a b : A) :
  (i < j)%nat -> l !! i = Some a -> l !! j = Some b -> P a = true -> P b = true ->
  exists i' j', (i' < j')%nat /\
    List.filter P l !! i' = Some a /\ List.filter P l !! j' = Some b.
Proof.
  revert i j. induction l as [|x l IH]; intros i j Hij Hi Hj Ha Hb; [discriminate|].
  destruct j as [|j]; [lia|]. simpl in Hj. destruct i as [|i].
  - injection Hi as ->. simpl. rewrite Ha.
    destruct (lookup_filter P l j b Hj Hb) as [j' Hj'].
    exists 0%nat, (S j'). split; [lia|]. split; [reflexivity|exact Hj'].
  - simpl in Hi. destruct (IH i j ltac:(lia) Hi Hj Ha Hb) as (i' & j' & Hlt & Hi' & Hj').
    simpl. destruct (P x).
    + exists (S i'), (S j'). split; [lia|]. split; assumption.
    + exists i', j'. split; [exact Hlt|]. split; assumption.
Qed.

Section CornerRuns.
Variables Math_cos Math_sin : float -> float.
Variable image : Image.
Variable frameDetection : option FrameBorder.
Variable detectionOptions : DetectionOptions.

Local Abbreviation border := (default (mkFrameBorder 0 0 0 0) frameDetection).
Local Abbreviation run := (run_modes Math_cos Math_sin image border detectionOptions).

(** The features of the [mode] entries of a mode list are the features of
    that type in the result of the whole list. *)
Lemma run_modes_filter_type ms mode fs :
  run ms [] = Returned fs ->
  run (List.filter (String.eqb mode) ms) [] = Returned (filter_type mode fs).
Proof.
  revert fs. induction ms as [|m ms IH]; intros fs.
  - intros [= <-]. reflexivity.
  - rewrite run_modes_cons.
    destruct (run_mode _ _ _ _ _ m) as [fs1|e] eqn:Hrun; simpl; [|discriminate].
    rewrite run_all_acc.
    destruct (run ms []) as [fs2|e] eqn:Hrest; simpl; [|discriminate].
    intros [= <-]. rewrite filter_type_app.
    specialize (IH fs2 eq_refl).
    pose proof (run_mode_types _ _ _ _ _ _ _ Hrun) as Hty.
    destruct (String.eqb_spec mode m) as [->|Hne].
    + rewrite run_modes_cons, Hrun. simpl. rewrite run_all_acc, IH. simpl.
      rewrite (filter_type_all _ _ Hty). reflexivity.
    + rewrite (filter_type_none mode m fs1) by (auto; congruence). exact IH.
Qed.

(** When the corner mode is listed at most once, the corners of the result
    are, in their order, corners of one run of [_selectFeature]. *)
Lemma corners_of_one_run ms fs i j x1 y1 x2 y2 :
  (mode_count DETECTION_MODES.CORNER ms <= 1)%nat ->
  run ms [] = Returned fs -> (i < j)%nat ->
  fs !! i = Some (Corner x1 y1) -> fs !! j = Some (Corner x2 y2) ->
  exists imageData i' j',
    (i' < j')%nat /\
    selected_corners image imageData border !! i' = Some (x1, y1) /\
    selected_corners image imageData border !! j' = Some (x2, y2).
Proof.
  unfold mode_count. intros Hcount Hrun Hij Hi Hj.
  apply (run_modes_filter_type _ DETECTION_MODES.CORNER) in Hrun.
  destruct (lookup_filter_lt
              (fun f => String.eqb (feature_type f) DETECTION_MODES.CORNER) fs i j _ _
              Hij Hi Hj eq_refl eq_refl) as (i' & j' & Hlt & Hi' & Hj').
  fold (filter_type DETECTION_MODES.CORNER fs) in Hi', Hj'.
  destruct (List.filter (String.eqb DETECTION_MODES.CORNER) ms) as [|m [|m' rest]] eqn:Hf.
  - injection Hrun as Hnil. rewrite <- Hnil in Hi'. discriminate.
  - assert (Hm : m = DETECTION_MODES.CORNER).
    { assert (Hin : In m (List.filter (String.eqb DETECTION_MODES.CORNER) ms))
        by (rewrite Hf; left; reflexivity).
      apply filter_In in Hin as [_ Heq]. apply String.eqb_eq in Heq. congruence. }
    subst m. unfold run_modes in Hrun. simpl in Hrun.
    unfold run_mode in Hrun. simpl in Hrun. unfold _extractCornerFeatures in Hrun.
    destruct (data image) as [imageData|]; [|discriminate].
    simpl in Hrun. injection Hrun as Hcs. rewrite <- Hcs in Hi', Hj'.
    exists imageData, i', j'. split; [exact Hlt|].
    rewrite list_lookup_fmap in Hi', Hj'. unfold selected_corners.
    split.
    + destruct (_ !! i') as [[a b]|]; [|discriminate]. simpl in Hi'. congruence.
    + destruct (_ !! j') as [[a b]|]; [|discriminate]. simpl in Hj'. congruence.
  - simpl in Hcount. lia.
Qed.
End CornerRuns.

(** C3, amended.  When the corner mode is listed at most once, any two
    corners at different places of the list [extract] returns are more than
    the occupancy radius [floor(min(width, height) / 10)] apart in Chebyshev
    distance; in particular their coordinates differ. *)
Theorem corners_separated (Math_cos Math_sin : float -> float) (image : Image)
    (frameDetection : option FrameBorder) (detectionOptions : option DetectionOptions)
    (fs : list Feature) (i j : nat) (x1 y1 x2 y2 : Z) :
  (mode_count DETECTION_MODES.CORNER
     (merged_modes (default DEFAULT_DETECTION_OPTIONS detectionOptions)) <= 1)%nat ->
  extract Math_cos Math_sin image frameDetection detectionOptions = Returned fs ->
  i <> j -> fs !! i = Some (Corner x1 y1) -> fs !! j = Some (Corner x2 y2) ->
  Z.min (width image) (height image) / 10 < Z.max (Z.abs (x1 - x2)) (Z.abs (y1 - y2)).
Proof.
  intros Hcount Hex Hij Hi Hj.
  assert (Hsep : forall imageData,
            separated (occSize image)
              (selected_corners image imageData
                 (default (mkFrameBorder 0 0 0 0) frameDetection))).
  { intros imageData.
    exact (selectFeature_separated image imageData TEMPLATE_SIZE SEARCH_SIZE2 MAX_THRESH
             MIN_THRESH SD_THRESH _ _ _ MAX_THRESH_below_one _). }
  destruct (Nat.lt_total i j) as [Hlt|[Heq|Hlt]]; [|contradiction|].
  - destruct (corners_of_one_run _ _ _ _ _ _ _ _ _ _ _ _ _ Hcount Hex Hlt Hi Hj)
      as (imageData & i' & j' & Hlt' & Hi' & Hj').
    exact (Hsep imageData i' j' _ _ ltac:(lia) Hi' Hj').
  - destruct (corners_of_one_run _ _ _ _ _ _ _ _ _ _ _ _ _ Hcount Hex Hlt Hj Hi)
      as (imageData & j' & i' & Hlt' & Hj' & Hi').
    exact (Hsep imageData i' j' _ _ ltac:(lia) Hi' Hj').
Qed.

(** On the sample image the corner detector finds two corners, two pixels
    apart, with an occupancy radius of one pixel. *)
Lemma corners_separated_witness :
  extract RefMath.cos RefMath.sin sample_image None None =
    Returned [Corner 6 10; Corner 8 8] /\
  Z.min 17 17 / 10 < Z.max (Z.abs (6 - 8)) (Z.abs (10 - 8)).
Proof.
  assert (Hex : extract RefMath.cos RefMath.sin sample_image None None =
                Returned [Corner 6 10; Corner 8 8]) by (vm_compute; reflexivity).
  split; [exact Hex|].
  apply (corners_separated RefMath.cos RefMath.sin sample_image None None
           [Corner 6 10; Corner 8 8] 0%nat 1%nat 6 10 8 8);
    [unfold mode_count; simpl; lia|exact Hex|lia| |]; reflexivity.
Defined.

(** With the corner mode listed twice the corners are returned twice: the
    first and the third feature are two features of the same call at distance
    0, within the occupancy radius 1. *)
Lemma corners_repeated_by_repeated_mode :
  extract RefMath.cos RefMath.sin sample_image None
    (options_with ["corner"; "corner"]%string None None) =
    Returned [Corner 6 10; Corner 8 8; Corner 6 10; Corner 8 8] /\
  ~ Z.min 17 17 / 10 < Z.max (Z.abs (6 - 6)) (Z.abs (10 - 10)).
Proof.
  split; [vm_compute; reflexivity|]. intros H. vm_compute in H. discriminate H.
Qed.

(** ** More on the corner detector *)

Section SelectFeatureMore.
Variables (image : Image) (imageData : list Z).
Variables (templateSize searchSize : Z).
Variables (maxSimThresh minSimThresh sdThresh : float).
Variables (imageDataCumsum imageDataSqrCumsum : Cumsum).
Variable (frameDetection : FrameBorder).
Hypothesis maxSim_below_one : (1 <? maxSimThresh)%float = false.

Local Abbreviation scan := (scan_min image maxSimThresh frameDetection).
Local Abbreviation loop :=
  (select_loop image imageData templateSize searchSize maxSimThresh minSimThresh sdThresh
     imageDataCumsum imageDataSqrCumsum frameDetection).
Local Abbreviation selected featureMap :=
  (_selectFeature image imageData featureMap templateSize searchSize maxSimThresh
     minSimThresh sdThresh imageDataCumsum imageDataSqrCumsum frameDetection).

(** The raster scan only returns a pixel of the frame area. *)
Lemma scan_min_inFrame image2 m cx cy :
  scan image2 = (m, cx, cy) -> cx <> -1 ->
  inFrame cx cy (width image) (height image) frameDetection = true.
Proof.
  set (Inv := fun st : float * Z * Z =>
    let '(m, cx, cy) := st in
    cx = -1 \/ inFrame cx cy (width image) (height image) frameDetection = true).
  assert (HInv : Inv (scan image2)).
  { unfold scan_min. apply for_range_invariant; [left; reflexivity|].
    intros j st _ Hst. apply for_range_invariant; [exact Hst|].
    intros i [[m' cx'] cy'] _ Hst'.
    destruct (inFrame i j _ _ _) eqn:Hin; simpl; [|exact Hst'].
    destruct (_ <? m')%float; [right; exact Hin|exact Hst']. }
  intros Hs Hcx. rewrite Hs in HInv. destruct HInv; [contradiction|assumption].
Qed.

Lemma selectFeature_inFrame featureMap :
  Forall (fun c => inFrame c.1 c.2 (width image) (height image) frameDetection = true)
    (selected featureMap).
Proof.
  pose proof (selectFeature_loop image imageData templateSize searchSize maxSimThresh
                minSimThresh sdThresh imageDataCumsum imageDataSqrCumsum frameDetection
                maxSim_below_one featureMap) as Hloop.
  apply (select_loop_invariant _ _ _ _ _ _ _ _ _ _
           (fun _ co => Forall (fun c => inFrame c.1 c.2 (width image) (height image)
                                           frameDetection = true) co))
    in Hloop as [_ H]; [exact H| | |].
  - intros im co m cx cy Hco _ _. exact Hco.
  - intros im co m cx cy vlen Hco Hscan Hcx _ _.
    apply Forall_app. split; [exact Hco|]. apply Forall_singleton.
    eapply scan_min_inFrame; eassumption.
  - constructor.
Qed.

(** The loop accepts a corner only while [num < maxFeatureNum]. *)
Lemma select_loop_cap fuel image2 num coords c :
  num = Z.of_nat (length coords) ->
  (coords = [] \/ (Z2F (num - 1) <? maxFeatureNum image templateSize)%float = true) ->
  loop fuel image2 num coords = Some c ->
  c = [] \/
  (Z2F (Z.of_nat (length c) - 1) <? maxFeatureNum image templateSize)%float = true.
Proof.
  revert image2 num coords.
  induction fuel as [|fuel IH]; intros im num co Hnum Hco; [discriminate|].
  simpl. destruct (Z2F num <? maxFeatureNum image templateSize)%float eqn:Hcap; simpl;
    [|intros [= <-]; subst num; exact Hco].
  destruct (scan im) as [[m cx] cy].
  destruct (cx =? -1); [intros [= <-]; subst num; exact Hco|].
  destruct (_templateVar image cx cy 0 imageDataCumsum imageDataSqrCumsum) as [vlen|];
    [|apply IH; assumption].
  destruct (vlen / Z2F (templateSize * 2 + 1) <? sdThresh)%float; [apply IH; assumption|].
  destruct (neighbour_scan _ _ _ _ _ _ _ _ _ _) as [min max].
  destruct (rejected _ _ _ _); [apply IH; assumption|].
  apply IH.
  - rewrite length_app. simpl. lia.
  - right. replace (num + 1 - 1) with num by lia. exact Hcap.
Qed.

(** Every accepted corner had, in [featureMap], a value below
    [maxSimThresh]. *)
Lemma selectFeature_below_threshold featureMap :
  Forall (fun c => 0 <= c.1 < width image /\ 0 <= c.2 < height image /\
                   exists m, lookupZ (image2_init imageData featureMap)
                               (c.2 * width image + c.1) = Some m /\
                             (m <? maxSimThresh)%float = true)
    (selected featureMap).
Proof.
  pose proof (selectFeature_loop image imageData templateSize searchSize maxSimThresh
                minSimThresh sdThresh imageDataCumsum imageDataSqrCumsum frameDetection
                maxSim_below_one featureMap) as Hloop.
  apply (select_loop_invariant _ _ _ _ _ _ _ _ _ _
           (fun im co =>
              dimmed (image2_init imageData featureMap) im /\
              Forall (fun c => 0 <= c.1 < width image /\ 0 <= c.2 < height image /\
                       exists m, lookupZ (image2_init imageData featureMap)
                                   (c.2 * width image + c.1) = Some m /\
                                 (m <? maxSimThresh)%float = true) co))
    in Hloop as [_ [_ H]]; [exact H| | |].
  - intros im co m cx cy [Hd Hco] _ _. split; [|exact Hco].
    eapply dimmed_trans; [exact Hd|apply dimmed_store].
  - intros im co m cx cy vlen [Hd Hco] Hscan Hcx _ _.
    destruct (scan_min_spec _ _ _ _ _ _ _ Hscan Hcx) as (Hx & Hy & Hv & Hm).
    split; [eapply dimmed_trans; [exact Hd|apply mark_square_dimmed]|].
    apply Forall_app. split; [exact Hco|]. apply Forall_singleton. simpl.
    split; [exact Hx|]. split; [exact Hy|]. exists m. split; [|exact Hm].
    destruct (dimmed_lookup _ _ _ _ Hd Hv) as [->|Hold]; [congruence|exact Hold].
  - split; [apply dimmed_refl|constructor].
Qed.
End SelectFeatureMore.

Section FloatOrder.
Lemma SFcompare_Lt_Eq_trans a b c :
  SFcompare a b = Some Lt -> SFcompare b c = Some Eq -> SFcompare a c = Some Lt.
Proof.
  destruct a as [sa|sa| |sa ma ea], b as [sb|sb| |sb mb eb], c as [sc|sc| |sc mc ec];
    simpl; try discriminate; try reflexivity;
    repeat match goal with s : bool |- _ => destruct s end;
    simpl; try discriminate; try reflexivity.
  all: change (Pos.compare_cont Eq) with Pos.compare.
  all: destruct (Z.compare_spec ea eb), (Z.compare_spec eb ec), (Z.compare_spec ea ec);
    try discriminate; try reflexivity; try lia; subst.
  all: destruct (Pos.compare_spec ma mb), (Pos.compare_spec mb mc), (Pos.compare_spec ma mc);
    simpl; try discriminate; try reflexivity; try lia.
Qed.

Lemma ltb_leb_trans (a b c : float) :
  (a <? b)%float = true -> (b <=? c)%float = true -> (a <? c)%float = true.
Proof.
  rewrite !ltb_spec, leb_spec. unfold SFltb, SFleb.
  destruct (SFcompare (Prim2SF a) (Prim2SF b)) as [[]|] eqn:E1; try discriminate.
  destruct (SFcompare (Prim2SF b) (Prim2SF c)) as [[]|] eqn:E2; try discriminate.
  - rewrite (SFcompare_Lt_Eq_trans _ _ _ E1 E2). reflexivity.
  - rewrite (SFcompare_Lt_trans _ _ _ E1 E2). reflexivity.
Qed.
End FloatOrder.

Lemma templateVar_weaken image cx cy sd1 sd2 cs sq v :
  (sd2 * sd2 <=? sd1 * sd1)%float = true ->
  _templateVar image cx cy sd1 cs sq = Some v ->
  _templateVar image cx cy sd2 cs sq = Some v.
Proof.
  intros Hsd. unfold _templateVar.
  destruct (_ || _); [discriminate|]. destruct (_ || _); [discriminate|]. cbv zeta.
  match goal with |- context [(?a <? sd1 * sd1)%float] => set (x := a) end.
  destruct (x <? sd1 * sd1)%float eqn:H1; [discriminate|].
  destruct (x <? sd2 * sd2)%float eqn:H2; [|trivial].
  rewrite (ltb_leb_trans _ _ _ H2 Hsd) in H1. discriminate.
Qed.

Section SelectFeatureContrast.
Variables (image : Image) (imageData : list Z).
Variables (templateSize searchSize : Z).
Variables (maxSimThresh minSimThresh sdThresh : float).
Variables (imageDataCumsum imageDataSqrCumsum : Cumsum).
Variable (frameDetection : FrameBorder).
Hypothesis maxSim_below_one : (1 <? maxSimThresh)%float = false.

(** Every accepted corner passed the two contrast tests of the loop. *)
Lemma selectFeature_contrast featureMap :
  Forall (fun c => exists vlen,
            _templateVar image c.1 c.2 0 imageDataCumsum imageDataSqrCumsum = Some vlen /\
            (vlen / Z2F (templateSize * 2 + 1) <? sdThresh)%float = false)
    (_selectFeature image imageData featureMap templateSize searchSize maxSimThresh
       minSimThresh sdThresh imageDataCumsum imageDataSqrCumsum frameDetection).
Proof.
  pose proof (selectFeature_loop image imageData templateSize searchSize maxSimThresh
                minSimThresh sdThresh imageDataCumsum imageDataSqrCumsum frameDetection
                maxSim_below_one featureMap) as Hloop.
  apply (select_loop_invariant _ _ _ _ _ _ _ _ _ _
           (fun _ co => Forall (fun c => exists vlen,
              _templateVar image c.1 c.2 0 imageDataCumsum imageDataSqrCumsum = Some vlen /\
              (vlen / Z2F (templateSize * 2 + 1) <? sdThresh)%float = false) co))
    in Hloop as [_ H]; [exact H| | |].
  - intros im co m cx cy Hco _ _. exact Hco.
  - intros im co m cx cy vlen Hco _ _ Hv Hsd.
    apply Forall_app. split; [exact Hco|]. apply Forall_singleton.
    exists vlen. split; assumption.
  - constructor.
Qed.

(** The loop gives the same corners under every larger bound on its
    iterations. *)
Lemma select_loop_more_fuel fuel k image2 num coords c :
  select_loop image imageData templateSize searchSize maxSimThresh minSimThresh sdThresh
    imageDataCumsum imageDataSqrCumsum frameDetection fuel image2 num coords = Some c ->
  select_loop image imageData templateSize searchSize maxSimThresh minSimThresh sdThresh
    imageDataCumsum imageDataSqrCumsum frameDetection (fuel + k) image2 num coords = Some c.
Proof.
  revert image2 num coords.
  induction fuel as [|fuel IH]; intros im num co; [discriminate|].
  simpl. destruct (negb _); [trivial|].
  destruct (scan_min _ _ _ _) as [[m cx] cy].
  destruct (cx =? -1); [trivial|].
  destruct (_templateVar _ _ _ _ _ _) as [vlen|]; [|apply IH].
  destruct (_ <? sdThresh)%float; [apply IH|].
  destruct (neighbour_scan _ _ _ _ _ _ _ _ _ _) as [min max].
  destruct (rejected _ _ _ _); apply IH.
Qed.
End SelectFeatureContrast.

Lemma for_range_ext {S} (lo hi : Z) (f g : Z -> S -> S) (s : S) :
  (forall i a, lo <= i < hi -> f i a = g i a) ->
  for_range lo hi f s = for_range lo hi g s.
Proof.
  intros Hfg. unfold for_range.
  assert (H : forall l, (forall i, i ∈ l -> lo <= i < hi) ->
                        forall a, fold_left (fun a i => f i a) l a =
                                  fold_left (fun a i => g i a) l a).
  { induction l as [|i l IH]; intros Hl a; [reflexivity|]. simpl.
    rewrite Hfg by (apply Hl, list_elem_of_here).
    apply IH. intros k Hk. apply Hl, list_elem_of_further, Hk. }
  apply H. intros i Hi%elem_of_seqZ. lia.
Qed.

Lemma lookupZ_storeZ_same {A} (l : list A) i v u :
  lookupZ (storeZ l i v) i = Some u -> u = v.
Proof.
  rewrite lookupZ_storeZ, Z.eqb_refl. simpl.
  destruct (0 <=? i) eqn:H0; destruct (i <? Z.of_nat (length l)) eqn:H1; simpl;
    try (intros [= <-]; reflexivity);
    intros Hl%lookupZ_Some_range; lia.
Qed.

Lemma lookupZ_storeZ_other {A} (l : list A) i j v :
  i <> j -> lookupZ (storeZ l i v) j = lookupZ l j.
Proof.
  intros Hij. rewrite lookupZ_storeZ.
  destruct (Z.eqb_spec i j); [contradiction|reflexivity].
Qed.

Lemma raster_index_inj (w i j x y : Z) :
  0 <= i < w -> 0 <= x < w -> j * w + i = y * w + x -> i = x /\ j = y.
Proof. intros Hi Hx Heq. assert (j = y) by nia. subst. lia. Qed.

(** ** The similarity map of the corner detector *)

Section FeatureMap.
Variables (image : Image) (imageData : list Z) (isPixelSelected : list Z).
Variables (imageDataCumsum imageDataSqrCumsum : Cumsum).

Local Abbreviation value :=
  (feature_value image imageData isPixelSelected imageDataCumsum imageDataSqrCumsum).

(** Each pixel is written once, with its [feature_value]. *)
Lemma feature_map_stores :
  feature_map image imageData isPixelSelected imageDataCumsum imageDataSqrCumsum =
  for_range 0 (width image) (fun i featureMap =>
    for_range 0 (height image) (fun j featureMap =>
      store32 featureMap (j * width image + i) (value i j)) featureMap)
    (replicate (length imageData) 0%float).
Proof.
  unfold feature_map. apply for_range_ext. intros i a _.
  apply for_range_ext. intros j b _. unfold feature_value.
  destruct (negb _); [reflexivity|].
  destruct (_templateVar _ _ _ _ _ _); reflexivity.
Qed.

Lemma feature_map_lookup x y v :
  0 <= x < width image -> 0 <= y < height image ->
  lookupZ (feature_map image imageData isPixelSelected imageDataCumsum imageDataSqrCumsum)
    (y * width image + x) = Some v ->
  v = fround (value x y).
Proof.
  intros Hx Hy. rewrite feature_map_stores. revert v.
  apply (for_range_establish (fun _ => True)
           (fun s => forall v, lookupZ s (y * width image + x) = Some v ->
                               v = fround (value x y)) _ _ x); [lia|exact I|auto| |].
  - intros s _.
    apply (for_range_establish (fun _ => True)
             (fun s => forall v, lookupZ s (y * width image + x) = Some v ->
                                 v = fround (value x y)) _ _ y); [lia|exact I|auto| |].
    + intros s' _ v. unfold store32. apply lookupZ_storeZ_same.
    + intros j s' Hj _ IH v. unfold store32.
      destruct (Z.eq_dec j y) as [->|Hne]; [apply lookupZ_storeZ_same|].
      rewrite lookupZ_storeZ_other by nia. apply IH.
  - intros i s Hi _ IH.
    destruct (Z.eq_dec i x) as [->|Hne].
    + apply (for_range_establish (fun _ => True)
             (fun s => forall v, lookupZ s (y * width image + x) = Some v ->
                                 v = fround (value x y)) _ _ y); [lia|exact I|auto| |].
      * intros s' _ v. unfold store32. apply lookupZ_storeZ_same.
      * intros j s' Hj _ IH' v. unfold store32.
        destruct (Z.eq_dec j y) as [->|Hne]; [apply lookupZ_storeZ_same|].
        rewrite lookupZ_storeZ_other by nia. apply IH'.
    + apply for_range_invariant; [exact IH|].
      intros j s' Hj IH' v. unfold store32.
      rewrite lookupZ_storeZ_other; [apply IH'|].
      intros Heq. apply raster_index_inj in Heq; lia.
Qed.

Lemma image2_init_lookup featureMap q v :
  lookupZ (image2_init imageData featureMap) q = Some v -> v = fround (rd featureMap q).
Proof.
  intros Hq. pose proof (lookupZ_Some_range _ _ _ Hq) as Hr.
  rewrite length_image2_init in Hr. revert v Hq. unfold image2_init.
  apply (for_range_establish (fun _ => True)
           (fun s => forall v, lookupZ s q = Some v -> v = fround (rd featureMap q))
           _ _ q); [lia|exact I|auto| |].
  - intros s _ v. unfold store32. apply lookupZ_storeZ_same.
  - intros i s _ _ IH v. unfold store32.
    destruct (Z.eq_dec i q) as [->|Hne]; [apply lookupZ_storeZ_same|].
    rewrite lookupZ_storeZ_other by exact Hne. apply IH.
Qed.
End FeatureMap.

(** ** Step 1 of the corner detector *)

Lemma local_maxima_spec dValue width height frameDetection pos :
  pos ∈ (local_maxima dValue width height frameDetection).2 ->
  exists x y, pos = x + width * y /\
              passed_maximum_test dValue width height frameDetection x y.
Proof.
  unfold local_maxima.
  apply (for_range_invariant
           (fun st : list Z * Z * list Z =>
              pos ∈ st.2 -> exists x y, pos = x + width * y /\
                passed_maximum_test dValue width height frameDetection x y)).
  { simpl. intros H. inversion H. }
  intros i st Hi Hst. apply for_range_invariant; [exact Hst|].
  intros j [[hist cnt] sel] Hj IH.
  destruct (inFrame i j _ _ _) eqn:Hin; simpl negb; cbv iota; [|exact IH].
  unfold forallb.
  destruct (rd dValue (i + width * j) <=? rd dValue (i + width * j + -1))%float eqn:H1;
    [exact IH|].
  destruct (rd dValue (i + width * j) <=? rd dValue (i + width * j + 1))%float eqn:H2;
    [exact IH|].
  destruct (rd dValue (i + width * j) <=? rd dValue (i + width * j + - width))%float eqn:H3;
    [exact IH|].
  destruct (rd dValue (i + width * j) <=? rd dValue (i + width * j + width))%float eqn:H4;
    [exact IH|].
  simpl. intros [->|Hsel]%elem_of_cons; [|apply IH, Hsel].
  exists i, j. split; [reflexivity|].
  unfold passed_maximum_test. repeat split; try lia; assumption.
Qed.

Lemma selected_pixels_spec imageData width height frameDetection pos :
  pos ∈ selected_pixels imageData width height frameDetection ->
  exists x y, pos = x + width * y /\
    passed_maximum_test (gradient_map imageData width height frameDetection)
      width height frameDetection x y.
Proof.
  unfold selected_pixels. intros Hpos. apply local_maxima_spec.
  destruct (local_maxima _ _ _ _) as [[hist cnt] sel]. simpl.
  apply list_elem_of_filter in Hpos. apply Hpos.
Qed.

Lemma isSelected_elem_of sel pos : isSelected sel pos = true -> pos ∈ sel.
Proof.
  unfold isSelected. intros (p & Hp & Heq%Z.eqb_eq)%existsb_exists. subst.
  apply list_elem_of_In, Hp.
Qed.

(** ** What the corner detector returns *)

Section CornerFacts.
Variables Math_cos Math_sin : float -> float.
Variable image : Image.
Variable frameDetection : option FrameBorder.
Variable detectionOptions : option DetectionOptions.

Local Abbreviation border := (default (mkFrameBorder 0 0 0 0) frameDetection).
Local Abbreviation sums imageData :=
  (new_Cumsum imageData (width image) (height image)).
Local Abbreviation square_sums imageData :=
  (new_Cumsum (map (fun v => v * v) imageData) (width image) (height image)).

(** X4.  Every corner [extract] returns lies in the frame area: the raster
    scan of [_selectFeature] skips the pixels outside it. *)
Theorem corners_in_frame_area (fs : list Feature) (x y : Z) :
  extract Math_cos Math_sin image frameDetection detectionOptions = Returned fs ->
  Corner x y ∈ fs ->
  isInFrameArea (Z2F x) (Z2F y) (Z2F (width image)) (Z2F (height image)) border = true.
Proof.
  intros Hex Hin.
  destruct (extract_corners_selected _ _ _ _ _ _ _ _ Hex Hin) as (imageData & _ & Hsel).
  unfold selected_corners in Hsel. set (fm := feature_map _ _ _ _ _) in Hsel.
  pose proof (selectFeature_inFrame image imageData TEMPLATE_SIZE SEARCH_SIZE2 MAX_THRESH
                MIN_THRESH SD_THRESH (sums imageData) (square_sums imageData) border
                MAX_THRESH_below_one fm) as Hall.
  rewrite Forall_forall in Hall. exact (Hall _ Hsel).
Qed.

Lemma SFcompare_Gt_asym a b : SFcompare a b = Some Gt -> SFcompare b a = Some Lt.
Proof.
  destruct a as [sa|sa| |sa ma ea], b as [sb|sb| |sb mb eb];
    simpl; try discriminate; try reflexivity;
    repeat match goal with s : bool |- _ => destruct s end;
    simpl; try discriminate; try reflexivity.
  all: change (Pos.compare_cont Eq) with Pos.compare.
  all: rewrite (Z.compare_antisym ea eb), (Pos.compare_antisym ma mb).
  all: destruct (ea ?= eb), (ma ?= mb)%positive; simpl; try discriminate; try reflexivity.
Qed.

Lemma SFcompare_None a b : SFcompare a b = None -> a = S754_nan \/ b = S754_nan.
Proof.
  destruct a as [sa|sa| |sa ma ea], b as [sb|sb| |sb mb eb]; simpl; auto;
    repeat match goal with s : bool |- _ => destruct s end;
    simpl; try discriminate.
  all: destruct (ea ?= eb); discriminate.
Qed.

(** Between two numbers, [a <= b] is false only when [b < a]. *)
Lemma leb_false_ltb (a b : float) :
  (a <=? b)%float = false -> Prim2SF a <> S754_nan -> Prim2SF b <> S754_nan ->
  (b <? a)%float = true.
Proof.
  rewrite leb_spec, ltb_spec. unfold SFleb, SFltb.
  destruct (SFcompare (Prim2SF a) (Prim2SF b)) as [[]|] eqn:E; try discriminate.
  - intros _ _ _. rewrite (SFcompare_Gt_asym _ _ E). reflexivity.
  - intros _ Ha Hb. apply SFcompare_None in E as [E|E]; contradiction.
Qed.

(** X6.  Every corner [extract] returns was selected in step 1: it is an
    inner pixel of the frame area for which the test
    [dValue[pos] <= dValue[pos + d]] is false for each of the four neighbour
    offsets [d]; when neither of the two scores is NaN, its score is then
    strictly above the neighbour's. *)
Theorem corner_passed_maximum_test (fs : list Feature) (x y : Z) :
  extract Math_cos Math_sin image frameDetection detectionOptions = Returned fs ->
  Corner x y ∈ fs ->
  exists imageData,
    data image = Some imageData /\
    let dValue := gradient_map imageData (width image) (height image) border in
    passed_maximum_test dValue (width image) (height image) border x y /\
    forall d, d ∈ [-1; 1; - width image; width image] ->
      Prim2SF (rd dValue (x + width image * y)) <> S754_nan ->
      Prim2SF (rd dValue (x + width image * y + d)) <> S754_nan ->
      (rd dValue (x + width image * y + d) <? rd dValue (x + width image * y))%float = true.
Proof.
  intros Hex Hin.
  destruct (extract_corners_selected _ _ _ _ _ _ _ _ Hex Hin) as (imageData & Hdata & Hsel).
  exists imageData. split; [exact Hdata|].
  unfold selected_corners in Hsel. set (fm := feature_map _ _ _ _ _) in Hsel.
  pose proof (selectFeature_below_threshold image imageData TEMPLATE_SIZE SEARCH_SIZE2
                MAX_THRESH MIN_THRESH SD_THRESH (sums imageData) (square_sums imageData)
                border MAX_THRESH_below_one fm) as Hall.
  rewrite Forall_forall in Hall.
  destruct (Hall _ Hsel) as (Hx & Hy & m & Hm & Hlt). simpl in Hx, Hy, Hm.
  apply image2_init_lookup in Hm. subst m fm.
  unfold rd in Hlt.
  destruct (lookupZ _ (y * width image + x)) as [v|] eqn:Hv;
    [|vm_compute in Hlt; discriminate].
  apply feature_map_lookup in Hv; [|assumption..]. subst v. simpl in Hlt.
  unfold feature_value in Hlt.
  destruct (isSelected _ (y * width image + x)) eqn:Hs;
    [|vm_compute in Hlt; discriminate].
  apply isSelected_elem_of, selected_pixels_spec in Hs as (i & j & Hpos & Hmax).
  assert (Hij : i = x /\ j = y).
  { destruct Hmax as (Hi & _). apply (raster_index_inj (width image)); lia. }
  destruct Hij as [-> ->]. cbv zeta. split; [exact Hmax|].
  destruct Hmax as (_ & _ & _ & H1 & H2 & H3 & H4).
  intros d Hd Hpos' Hnb.
  repeat (apply elem_of_cons in Hd as [->|Hd]); [..|inversion Hd];
    apply leb_false_ltb; assumption.
Qed.

(** X7.  Every corner [extract] returns passed the contrast tests: its
    template window lies inside the image, passes [_templateVar] at both
    thresholds [TEMPLATE_SD_THRESH] and [0] with the same value [vlen], and
    [vlen / (2 * TEMPLATE_SIZE + 1)] is not below [SD_THRESH]. *)
Theorem corner_has_contrast (fs : list Feature) (x y : Z) :
  extract Math_cos Math_sin image frameDetection detectionOptions = Returned fs ->
  Corner x y ∈ fs ->
  exists imageData vlen,
    data image = Some imageData /\
    _templateVar image x y TEMPLATE_SD_THRESH (sums imageData) (square_sums imageData)
      = Some vlen /\
    _templateVar image x y 0 (sums imageData) (square_sums imageData) = Some vlen /\
    (vlen / Z2F (TEMPLATE_SIZE * 2 + 1) <? SD_THRESH)%float = false.
Proof.
  intros Hex Hin.
  destruct (extract_corners_selected _ _ _ _ _ _ _ _ Hex Hin) as (imageData & Hdata & Hsel).
  exists imageData.
  unfold selected_corners in Hsel. set (fm := feature_map _ _ _ _ _) in Hsel.
  pose proof (selectFeature_below_threshold image imageData TEMPLATE_SIZE SEARCH_SIZE2
                MAX_THRESH MIN_THRESH SD_THRESH (sums imageData) (square_sums imageData)
                border MAX_THRESH_below_one fm) as Hall.
  pose proof (selectFeature_contrast image imageData TEMPLATE_SIZE SEARCH_SIZE2
                MAX_THRESH MIN_THRESH SD_THRESH (sums imageData) (square_sums imageData)
                border MAX_THRESH_below_one fm) as Hcon.
  rewrite Forall_forall in Hall, Hcon.
  destruct (Hall _ Hsel) as (Hx & Hy & m & Hm & Hlt). simpl in Hx, Hy, Hm.
  destruct (Hcon _ Hsel) as (vlen0 & Hv0 & Hsd). simpl in Hv0.
  apply image2_init_lookup in Hm. subst m fm.
  unfold rd in Hlt.
  destruct (lookupZ _ (y * width image + x)) as [v|] eqn:Hv;
    [|vm_compute in Hlt; discriminate].
  apply feature_map_lookup in Hv; [|assumption..]. subst v. simpl in Hlt.
  unfold feature_value in Hlt.
  destruct (negb _); [vm_compute in Hlt; discriminate|].
  destruct (_templateVar image x y TEMPLATE_SD_THRESH _ _) as [vlen|] eqn:Hv5;
    [|vm_compute in Hlt; discriminate].
  exists vlen. split; [exact Hdata|]. split; [reflexivity|].
  assert (H0 : _templateVar image x y 0 (sums imageData) (square_sums imageData) = Some vlen)
    by (eapply templateVar_weaken; [|exact Hv5]; reflexivity).
  split; [exact H0|]. rewrite H0 in Hv0. injection Hv0 as <-. exact Hsd.
Qed.
End CornerFacts.

(** X5.  The corner detector never returns more than [maxFeatureNum]
    corners: a corner is only added while [num < maxFeatureNum]. *)
Theorem corner_count_cap (image : Image) (frameDetection : FrameBorder)
    (cornerOptions : CornerOptions) (fs : list Feature) :
  _extractCornerFeatures image frameDetection cornerOptions = Returned fs ->
  fs = [] \/
  (Z2F (Z.of_nat (length fs) - 1) <? maxFeatureNum image TEMPLATE_SIZE)%float = true.
Proof.
  unfold _extractCornerFeatures. destruct (data image) as [imageData|]; [|discriminate].
  intros [= <-]. rewrite length_map.
  match goal with |- context [_selectFeature ?i ?d ?fm ?t ?s ?mx ?mn ?sd ?cs ?sq ?fd] =>
    pose proof (selectFeature_loop i d t s mx mn sd cs sq fd MAX_THRESH_below_one fm) as Hloop;
    set (coords := _selectFeature i d fm t s mx mn sd cs sq fd) in *
  end.
  apply select_loop_cap in Hloop; [|reflexivity|left; reflexivity].
  destruct Hloop as [->|Hcap]; [left; reflexivity|right; exact Hcap].
Qed.

Lemma corner_count_cap_witness :
  _extractCornerFeatures sample_image (mkFrameBorder 0 0 0 0) mkCornerOptions =
    Returned [Corner 6 10; Corner 8 8] /\
  ([Corner 6 10; Corner 8 8] = [] \/
   (Z2F (Z.of_nat (length [Corner 6 10; Corner 8 8]) - 1)
      <? maxFeatureNum sample_image TEMPLATE_SIZE)%float = true).
Proof.
  assert (Hex : _extractCornerFeatures sample_image (mkFrameBorder 0 0 0 0) mkCornerOptions =
                Returned [Corner 6 10; Corner 8 8]) by (vm_compute; reflexivity).
  split; [exact Hex|].
  exact (corner_count_cap sample_image (mkFrameBorder 0 0 0 0) mkCornerOptions _ Hex).
Defined.

Lemma corners_in_frame_area_witness :
  extract RefMath.cos RefMath.sin sample_image None None =
    Returned [Corner 6 10; Corner 8 8] /\
  isInFrameArea (Z2F 6) (Z2F 10) (Z2F 17) (Z2F 17) (mkFrameBorder 0 0 0 0) = true.
Proof.
  assert (Hex : extract RefMath.cos RefMath.sin sample_image None None =
                Returned [Corner 6 10; Corner 8 8]) by (vm_compute; reflexivity).
  split; [exact Hex|].
  apply (corners_in_frame_area RefMath.cos RefMath.sin sample_image None None
           [Corner 6 10; Corner 8 8] 6 10 Hex).
  apply list_elem_of_here.
Defined.

Lemma corner_passed_maximum_test_witness :
  extract RefMath.cos RefMath.sin sample_image None None =
    Returned [Corner 6 10; Corner 8 8] /\
  exists imageData,
    data sample_image = Some imageData /\
    passed_maximum_test (gradient_map imageData 17 17 (mkFrameBorder 0 0 0 0)) 17 17
      (mkFrameBorder 0 0 0 0) 8 8.
Proof.
  assert (Hex : extract RefMath.cos RefMath.sin sample_image None None =
                Returned [Corner 6 10; Corner 8 8]) by (vm_compute; reflexivity).
  split; [exact Hex|].
  destruct (corner_passed_maximum_test RefMath.cos RefMath.sin sample_image None None
              [Corner 6 10; Corner 8 8] 8 8 Hex) as (imageData & Hdata & Hmax & _).
  - apply list_elem_of_further, list_elem_of_here.
  - exists imageData. split; [exact Hdata|exact Hmax].
Defined.

Lemma corner_has_contrast_witness :
  extract RefMath.cos RefMath.sin sample_image None None =
    Returned [Corner 6 10; Corner 8 8] /\
  exists imageData vlen,
    data sample_image = Some imageData /\
    _templateVar sample_image 6 10 TEMPLATE_SD_THRESH (new_Cumsum imageData 17 17)
      (new_Cumsum (map (fun v => v * v) imageData) 17 17) = Some vlen /\
    _templateVar sample_image 6 10 0 (new_Cumsum imageData 17 17)
      (new_Cumsum (map (fun v => v * v) imageData) 17 17) = Some vlen /\
    (vlen / Z2F (TEMPLATE_SIZE * 2 + 1) <? SD_THRESH)%float = false.
Proof.
  assert (Hex : extract RefMath.cos RefMath.sin sample_image None None =
                Returned [Corner 6 10; Corner 8 8]) by (vm_compute; reflexivity).
  split; [exact Hex|].
  apply (corner_has_contrast RefMath.cos RefMath.sin sample_image None None
           [Corner 6 10; Corner 8 8] 6 10 Hex).
  apply list_elem_of_here.
Defined.

(** X8.  The selection loop ends: with [maxSimThresh <= 1] it makes at most
    [imageData.length + 1] iterations, so every larger bound on the number of
    iterations gives the corners of [_selectFeature]. *)
Theorem selectFeature_loop_bound (image : Image) (imageData : list Z)
    (featureMap : list float) (templateSize searchSize : Z)
    (maxSimThresh minSimThresh sdThresh : float)
    (imageDataCumsum imageDataSqrCumsum : Cumsum) (frameDetection : FrameBorder)
    (fuel : nat) :
  (1 <? maxSimThresh)%float = false ->
  (length imageData < fuel)%nat ->
  select_loop image imageData templateSize searchSize maxSimThresh minSimThresh sdThresh
    imageDataCumsum imageDataSqrCumsum frameDetection fuel
    (image2_init imageData featureMap) 0 [] =
  Some (_selectFeature image imageData featureMap templateSize searchSize maxSimThresh
          minSimThresh sdThresh imageDataCumsum imageDataSqrCumsum frameDetection).
Proof.
  intros Hmax Hfuel.
  replace fuel with (S (length imageData) + (fuel - S (length imageData)))%nat by lia.
  apply select_loop_more_fuel, selectFeature_loop, Hmax.
Qed.

Lemma selectFeature_loop_bound_witness :
  select_loop flat_image (replicate 12 7) TEMPLATE_SIZE SEARCH_SIZE2 MAX_THRESH MIN_THRESH
    SD_THRESH (new_Cumsum (replicate 12 7) 3 4) (new_Cumsum (replicate 12 49) 3 4)
    no_border 40 (image2_init (replicate 12 7) (replicate 12 0.5%float)) 0 [] =
  Some [].
Proof.
  rewrite (selectFeature_loop_bound flat_image (replicate 12 7) (replicate 12 0.5%float)
             TEMPLATE_SIZE SEARCH_SIZE2 MAX_THRESH MIN_THRESH SD_THRESH
             (new_Cumsum (replicate 12 7) 3 4) (new_Cumsum (replicate 12 49) 3 4)
             no_border 40 eq_refl ltac:(simpl; lia)).
  vm_compute. reflexivity.
Defined.

(** ** More on the color detector *)

Lemma for_range_indexed {St} (P : Z -> St -> Prop) (lo hi : Z) (body : Z -> St -> St)
    (s : St) :
  lo <= hi -> P lo s ->
  (forall i a, lo <= i < hi -> P i a -> P (i + 1) (body i a)) ->
  P hi (for_range lo hi body s).
Proof.
  intros Hle Hs Hstep. unfold for_range.
  remember (Z.to_nat (hi - lo)) as n eqn:Hn.
  replace (hi - lo) with (Z.of_nat n) by lia.
  replace hi with (lo + Z.of_nat n) in * by lia. clear Hle Hn.
  revert lo s Hs Hstep. induction n as [|n IH]; intros lo s Hs Hstep.
  - simpl. replace (lo + Z.of_nat 0) with lo by lia. exact Hs.
  - rewrite seqZ_cons by lia. simpl.
    replace (Z.pred (Z.of_nat (S n))) with (Z.of_nat n) by lia.
    replace (lo + Z.of_nat (S n)) with (Z.succ lo + Z.of_nat n) by lia.
    apply IH.
    + replace (Z.succ lo) with (lo + 1) by lia. apply Hstep; [lia|exact Hs].
    + intros i a Hi. apply Hstep. lia.
Qed.

Lemma infinity_ltb (c : float) : (infinity <? c)%float = false.
Proof.
  rewrite ltb_spec. change (Prim2SF infinity) with (S754_infinity false).
  destruct (Prim2SF c) as [?|[]| |[] ? ?]; reflexivity.
Qed.

(** The scan for the nearest center: when the distance it returns is below a
    threshold, it is the distance to the center it returns, and no center is
    strictly nearer. *)
Lemma nearest_cluster_spec clusters numClusters intensity minDist clusterIdx (c : float) :
  nearest_cluster clusters numClusters intensity = (minDist, clusterIdx) ->
  (minDist <? c)%float = true ->
  0 <= clusterIdx < numClusters /\
  minDist = center_distance clusters intensity clusterIdx /\
  forall k, 0 <= k < numClusters ->
    (center_distance clusters intensity k <? minDist)%float = false.
Proof.
  intros Hn Hlt.
  destruct (Z.le_gt_cases 0 numClusters) as [Hpos|Hneg].
  - assert (H : let '(md, idx) := nearest_cluster clusters numClusters intensity in
                ((md = infinity /\ idx = 0) \/
                 (0 <= idx < numClusters /\ md = center_distance clusters intensity idx)) /\
                forall k, 0 <= k < numClusters ->
                  (center_distance clusters intensity k <? md)%float = false).
    { unfold nearest_cluster.
      apply (for_range_indexed
               (fun i (st : float * Z) =>
                  let '(md, idx) := st in
                  ((md = infinity /\ idx = 0) \/
                   (0 <= idx < i /\ md = center_distance clusters intensity idx)) /\
                  forall k, 0 <= k < i ->
                    (center_distance clusters intensity k <? md)%float = false));
        [exact Hpos|split; [left; split; reflexivity|intros; lia]|].
      intros i [md idx] Hi [Hmd Hmin].
      fold (center_distance clusters intensity i).
      destruct (center_distance clusters intensity i <? md)%float eqn:Hd.
      - split; [right; split; [lia|reflexivity]|].
        intros k Hk. destruct (Z.eq_dec k i) as [->|Hne].
        + destruct (center_distance clusters intensity i
                      <? center_distance clusters intensity i)%float eqn:E; [|reflexivity].
          rewrite (ltb_asym _ _ E) in E. discriminate.
        + destruct (center_distance clusters intensity k
                      <? center_distance clusters intensity i)%float eqn:E; [|reflexivity].
          rewrite <- (Hmin k) by lia. symmetry. eapply ltb_trans; eassumption.
      - split.
        + destruct Hmd as [Hmd|[Hidx Hmd]]; [left; exact Hmd|right; split; [lia|exact Hmd]].
        + intros k Hk. destruct (Z.eq_dec k i) as [->|Hne]; [exact Hd|apply Hmin; lia]. }
    rewrite Hn in H. destruct H as [[[-> _]|[Hidx Hmd]] Hmin].
    + rewrite infinity_ltb in Hlt. discriminate.
    + split; [lia|]. split; [exact Hmd|]. exact Hmin.
  - unfold nearest_cluster, for_range in Hn. rewrite seqZ_nil in Hn by lia.
    simpl in Hn. injection Hn as <- <-. rewrite infinity_ltb in Hlt. discriminate.
Qed.

Lemma lookupZ_push_pixel clusters idx p i c :
  lookupZ (push_pixel clusters idx p) i = Some c ->
  (i = idx /\ exists c0, lookupZ clusters idx = Some c0 /\
                         c = mkCluster (pixels c0 ++ [p]) (centerIntensity c0)) \/
  lookupZ clusters i = Some c.
Proof.
  unfold push_pixel. destruct (lookupZ clusters idx) as [c0|] eqn:Hc0; [|right; assumption].
  destruct (Z.eq_dec idx i) as [->|Hne].
  - intros ->%lookupZ_storeZ_same. left. split; [reflexivity|]. exists c0. split; reflexivity.
  - rewrite lookupZ_storeZ_other by exact Hne. right. assumption.
Qed.

Lemma centers_push_pixel clusters idx p :
  centerIntensity <$> push_pixel clusters idx p = centerIntensity <$> clusters.
Proof.
  unfold push_pixel. destruct (lookupZ clusters idx) as [c0|] eqn:Hc0; [|reflexivity].
  unfold storeZ, lookupZ in *. destruct (idx <? 0); [reflexivity|].
  rewrite list_fmap_insert. simpl. apply list_insert_id.
  rewrite list_lookup_fmap, Hc0. reflexivity.
Qed.

Lemma center_distance_ext clusters clusters' intensity k :
  centerIntensity <$> clusters' = centerIntensity <$> clusters ->
  center_distance clusters' intensity k = center_distance clusters intensity k.
Proof.
  intros Hc. unfold center_distance, lookupZ. destruct (k <? 0); [reflexivity|].
  assert (H : (centerIntensity <$> clusters') !! Z.to_nat k
              = (centerIntensity <$> clusters) !! Z.to_nat k) by (rewrite Hc; reflexivity).
  rewrite !list_lookup_fmap in H.
  destruct (clusters' !! Z.to_nat k), (clusters !! Z.to_nat k); simpl in *; congruence.
Qed.

Lemma assign_pixels_centers image frameDetection numClusters colorThreshold clusters clusters' :
  assign_pixels image frameDetection numClusters colorThreshold clusters = Returned clusters' ->
  centerIntensity <$> clusters' = centerIntensity <$> clusters.
Proof.
  unfold assign_pixels.
  apply (for_each_invariant
           (fun cl => centerIntensity <$> cl = centerIntensity <$> clusters)); [reflexivity|].
  intros [x y] a a' _ Ha.
  destruct (negb _); [intros [= <-]; exact Ha|].
  destruct (data image); [|discriminate].
  destruct (nearest_cluster _ _ _) as [md idx].
  destruct (md <? colorThreshold)%float; intros [= <-]; [|exact Ha].
  rewrite centers_push_pixel. exact Ha.
Qed.

Lemma assigned_push_pixel clusters idx p :
  assigned (push_pixel clusters idx p) <= assigned clusters + 1.
Proof.
  unfold push_pixel. destruct (lookupZ clusters idx) as [c0|] eqn:Hc0; [|lia].
  unfold storeZ, lookupZ in *. destruct (idx <? 0); [lia|].
  revert Hc0. generalize (Z.to_nat idx) as n. clear idx.
  unfold assigned.
  induction clusters as [|c cl IH]; intros [|n] Hc0; simpl in *; try discriminate.
  - injection Hc0 as ->. rewrite length_app. simpl. lia.
  - specialize (IH n Hc0). lia.
Qed.

Lemma for_each_count {St X} (m : St -> Z) (xs : list X) (body : X -> St -> outcome St)
    (s s' : St) :
  (forall x a a', x ∈ xs -> body x a = Returned a' -> m a' <= m a + 1) ->
  for_each xs body s = Returned s' -> m s' <= m s + Z.of_nat (length xs).
Proof.
  revert s. induction xs as [|x xs IH]; intros s Hstep; simpl.
  - intros [= <-]. lia.
  - destruct (body x s) as [a|e] eqn:Hb; simpl; [|discriminate].
    intros Hrest. apply IH in Hrest.
    + pose proof (Hstep x s a (list_elem_of_here _ _) Hb). lia.
    + intros x' a0 a' Hx'. apply Hstep. right. exact Hx'.
Qed.

Lemma length_bind_singleton {A B} (f : A -> B) (xs : list A) :
  length (xs ≫= (fun x => [f x])) = length xs.
Proof.
  induction xs as [|x xs IH]; [reflexivity|].
  rewrite bind_cons. simpl. f_equal. exact IH.
Qed.

Lemma length_raster width height :
  Z.of_nat (length (raster width height)) = Z.max 0 width * Z.max 0 height.
Proof.
  unfold raster.
  assert (H : forall ys : list Z,
            length (ys ≫= (fun y => seqZ 0 width ≫= (fun x => [(x, y)])))
            = (length ys * Z.to_nat width)%nat).
  { induction ys as [|y ys IH]; [reflexivity|].
    rewrite bind_cons, length_app, IH. simpl. f_equal.
    rewrite (length_bind_singleton (fun x => (x, y))). apply length_seqZ. }
  rewrite H, length_seqZ. lia.
Qed.

Lemma assigned_initial (numClusters : Z) (f : Z -> float) (l : list Z) :
  assigned (map (fun i => mkCluster [] (f i)) l) = 0.
Proof. induction l as [|i l IH]; [reflexivity|]. simpl. exact IH. Qed.

Lemma cluster_features_cons minRegionSize c clusters :
  cluster_features minRegionSize (c :: clusters) =
  (let n := Z.of_nat (length (pixels c)) in
   if n <? minRegionSize then []
   else [ColorRegion
           (Math_round_quot (fold_left (fun s p => s + pixel_x p) (pixels c) 0) n)
           (Math_round_quot (fold_left (fun s p => s + pixel_y p) (pixels c) 0) n)
           (centerIntensity c) n]) ++ cluster_features minRegionSize clusters.
Proof. reflexivity. Qed.

Lemma total_region_size_clusters minRegionSize clusters :
  total_region_size (cluster_features minRegionSize clusters) <= assigned clusters.
Proof.
  induction clusters as [|c cl IH]; [reflexivity|].
  rewrite cluster_features_cons. cbv zeta.
  destruct (_ <? minRegionSize); simpl; unfold assigned, total_region_size in *; lia.
Qed.

(** The features of the clusters follow the clusters in their order, at most
    one for each. *)
Lemma cluster_features_follow minRegionSize (center : Z -> float) clusters idxs :
  centerIntensity <$> clusters = center <$> idxs ->
  exists chosen, sublist chosen idxs /\
    Forall2 (fun i f => exists x y n, f = ColorRegion x y (center i) n /\
                                      minRegionSize <= n) chosen
      (cluster_features minRegionSize clusters).
Proof.
  revert idxs. induction clusters as [|c cl IH]; intros [|i idxs] Hc; try discriminate.
  - exists []. split; constructor.
  - injection Hc as Hi Hc. destruct (IH idxs Hc) as (chosen & Hsub & Hall).
    rewrite cluster_features_cons. cbv zeta.
    destruct (Z.ltb_spec (Z.of_nat (length (pixels c))) minRegionSize).
    + exists chosen. split; [apply sublist_cons, Hsub|exact Hall].
    + exists (i :: chosen). split; [apply sublist_skip, Hsub|].
      simpl. constructor; [|exact Hall].
      rewrite Hi. eexists _, _, _. split; [reflexivity|assumption].
Qed.

(** X9.  The pixels of a cluster were rightly assigned: each is a pixel of
    the frame area, with the intensity the image has there, whose distance to
    the cluster's center is below [colorThreshold], and no center is strictly
    nearer to it.  The centers never move. *)
Theorem assign_pixels_nearest (image : Image) (imageData : list Z)
    (frameDetection : FrameBorder) (numClusters : Z) (colorThreshold : float)
    (clusters clusters' : list Cluster) :
  data image = Some imageData ->
  Forall (fun c => pixels c = []) clusters ->
  assign_pixels image frameDetection numClusters colorThreshold clusters = Returned clusters' ->
  centerIntensity <$> clusters' = centerIntensity <$> clusters /\
  forall i c p, lookupZ clusters' i = Some c -> p ∈ pixels c ->
    well_assigned image imageData frameDetection numClusters colorThreshold clusters i p.
Proof.
  intros Hdata Hempty Hassign.
  split; [eapply assign_pixels_centers, Hassign|].
  revert Hassign. unfold assign_pixels.
  apply (for_each_invariant
           (fun cl => centerIntensity <$> cl = centerIntensity <$> clusters /\
                      forall i c p, lookupZ cl i = Some c -> p ∈ pixels c ->
                        well_assigned image imageData frameDetection numClusters
                          colorThreshold clusters i p)).
  - split; [reflexivity|]. intros i c p Hc Hp.
    apply lookupZ_elem_of in Hc. rewrite Forall_forall in Hempty.
    rewrite (Hempty c Hc) in Hp. inversion Hp.
  - intros [x y] a a' _ [Hcen Ha].
    destruct (inFrame x y _ _ _) eqn:Hin; simpl negb; cbv iota;
      [|intros [= <-]; split; assumption].
    rewrite Hdata.
    destruct (nearest_cluster _ _ _) as [md idx] eqn:Hn.
    destruct (md <? colorThreshold)%float eqn:Hlt; intros [= <-]; [|split; assumption].
    split; [rewrite centers_push_pixel; exact Hcen|].
    intros i c p Hc Hp.
    apply lookupZ_push_pixel in Hc as [[-> (c0 & Hc0 & ->)]|Hc]; [|eapply Ha; eassumption].
    simpl in Hp. apply elem_of_app in Hp as [Hp|Hp]; [eapply Ha; eassumption|].
    apply list_elem_of_singleton in Hp. subst p.
    destruct (nearest_cluster_spec _ _ _ _ _ _ Hn Hlt) as (Hidx & Hmd & Hmin).
    unfold well_assigned. simpl.
    rewrite <- !(center_distance_ext clusters a) by exact Hcen.
    split; [exact Hidx|]. split; [exact Hin|]. split; [reflexivity|].
    split; [rewrite <- Hmd; exact Hlt|].
    intros k Hk. rewrite <- (center_distance_ext clusters a) by exact Hcen.
    rewrite <- Hmd. apply Hmin, Hk.
Qed.

(** X10.  The color features follow the clusters: there is an increasing
    choice of cluster indices, one for each feature in order, such that the
    feature's intensity is the center [(i + 0.5) * (255 / numClusters)] of its
    cluster and its [regionSize] is at least [minRegionSize]. *)
Theorem color_regions_follow_clusters (image : Image) (frameDetection : FrameBorder)
    (colorOptions : ColorOptions) (fs : list Feature) :
  _extractColorFeatures image frameDetection colorOptions = Returned fs ->
  exists chosen,
    sublist chosen (seqZ 0 (numClusters colorOptions)) /\
    Forall2 (fun i f => exists x y n,
               f = ColorRegion x y (cluster_center (numClusters colorOptions) i) n /\
               minRegionSize colorOptions <= n) chosen fs.
Proof.
  unfold _extractColorFeatures. destruct (_ || _); [discriminate|].
  destruct (assign_pixels _ _ _ _ _) as [clusters'|e] eqn:Hassign; simpl; [|discriminate].
  intros [= <-]. apply assign_pixels_centers in Hassign.
  apply (cluster_features_follow _ (cluster_center (numClusters colorOptions))).
  rewrite Hassign. rewrite <- list_fmap_compose. reflexivity.
Qed.

(** X11.  No pixel is counted twice: the [regionSize]s of the color features
    add up to at most the number of pixels of the image. *)
Theorem color_region_sizes_bounded (image : Image) (frameDetection : FrameBorder)
    (colorOptions : ColorOptions) (fs : list Feature) :
  _extractColorFeatures image frameDetection colorOptions = Returned fs ->
  total_region_size fs <= Z.max 0 (width image) * Z.max 0 (height image).
Proof.
  unfold _extractColorFeatures. destruct (_ || _); [discriminate|].
  destruct (assign_pixels _ _ _ _ _) as [clusters'|e] eqn:Hassign; simpl; [|discriminate].
  intros [= <-].
  etransitivity; [apply total_region_size_clusters|].
  unfold assign_pixels in Hassign.
  apply (for_each_count assigned) in Hassign.
  - rewrite length_raster in Hassign.
    rewrite (assigned_initial (numClusters colorOptions)) in Hassign. lia.
  - intros [x y] a a' _.
    destruct (negb _); [intros [= <-]; lia|].
    destruct (data image); [|discriminate].
    destruct (nearest_cluster _ _ _) as [md idx].
    destruct (md <? colorThreshold colorOptions)%float; intros [= <-]; [|lia].
    apply assigned_push_pixel.
Qed.

Lemma assign_pixels_nearest_witness :
  assign_pixels tiny_image no_border 2 100 [mkCluster [] 0; mkCluster [] 255] =
    Returned [mkCluster [mkPixel 0 0 10; mkPixel 0 1 30; mkPixel 1 1 40] 0;
              mkCluster [mkPixel 1 0 200] 255] /\
  well_assigned tiny_image [10; 200; 30; 40] no_border 2 100
    [mkCluster [] 0; mkCluster [] 255] 1 (mkPixel 1 0 200).
Proof.
  assert (Hrun : assign_pixels tiny_image no_border 2 100
                   [mkCluster [] 0; mkCluster [] 255] =
                 Returned [mkCluster [mkPixel 0 0 10; mkPixel 0 1 30; mkPixel 1 1 40] 0;
                           mkCluster [mkPixel 1 0 200] 255]) by (vm_compute; reflexivity).
  split; [exact Hrun|].
  apply (proj2 (assign_pixels_nearest tiny_image [10; 200; 30; 40] no_border 2 100
                  [mkCluster [] 0; mkCluster [] 255] _ eq_refl
                  ltac:(repeat constructor) Hrun) 1 (mkCluster [mkPixel 1 0 200] 255)).
  - reflexivity.
  - apply list_elem_of_here.
Defined.

Lemma color_regions_follow_clusters_witness :
  _extractColorFeatures sample_image no_border DEFAULT_colorOptions =
    Returned [ColorRegion (Int 10) (Int 8) 76.5 87;
              ColorRegion (Int 8) (Int 7) 127.5 106;
              ColorRegion (Int 5) (Int 7) 178.5 58] /\
  exists chosen,
    sublist chosen (seqZ 0 5) /\
    Forall2 (fun i f => exists x y n,
               f = ColorRegion x y (cluster_center 5 i) n /\ 50 <= n) chosen
      [ColorRegion (Int 10) (Int 8) 76.5 87;
       ColorRegion (Int 8) (Int 7) 127.5 106;
       ColorRegion (Int 5) (Int 7) 178.5 58].
Proof.
  assert (Hex : _extractColorFeatures sample_image no_border DEFAULT_colorOptions =
                Returned [ColorRegion (Int 10) (Int 8) 76.5 87;
                          ColorRegion (Int 8) (Int 7) 127.5 106;
                          ColorRegion (Int 5) (Int 7) 178.5 58])
    by (vm_compute; reflexivity).
  split; [exact Hex|].
  exact (color_regions_follow_clusters sample_image no_border DEFAULT_colorOptions _ Hex).
Defined.

Lemma color_region_sizes_bounded_witness :
  _extractColorFeatures sample_image no_border DEFAULT_colorOptions =
    Returned [ColorRegion (Int 10) (Int 8) 76.5 87;
              ColorRegion (Int 8) (Int 7) 127.5 106;
              ColorRegion (Int 5) (Int 7) 178.5 58] /\
  87 + (106 + (58 + 0)) <= Z.max 0 17 * Z.max 0 17.
Proof.
  assert (Hex : _extractColorFeatures sample_image no_border DEFAULT_colorOptions =
                Returned [ColorRegion (Int 10) (Int 8) 76.5 87;
                          ColorRegion (Int 8) (Int 7) 127.5 106;
                          ColorRegion (Int 5) (Int 7) 178.5 58])
    by (vm_compute; reflexivity).
  split; [exact Hex|].
  exact (color_region_sizes_bounded sample_image no_border DEFAULT_colorOptions _ Hex).
Defined.

(** ** More on the line detector *)

Lemma for_range_empty {St} (lo hi : Z) (body : Z -> St -> St) (s : St) :
  hi <= lo -> for_range lo hi body s = s.
Proof. intros H. unfold for_range. rewrite seqZ_nil by lia. reflexivity. Qed.

Lemma lookupZ_replicate_Some {A} (n : nat) (v u : A) (i : Z) :
  lookupZ (replicate n v) i = Some u -> u = v.
Proof.
  unfold lookupZ. destruct (i <? 0); [discriminate|].
  intros [-> _]%lookup_replicate. reflexivity.
Qed.

(** The invariant of the loop that fills the edge map. *)
Lemma edge_map_spec (image : Image) (frameDetection : FrameBorder)
    (edgeThreshold : float) (edges : list Z) :
  edge_map image frameDetection edgeThreshold = Returned edges ->
  length edges = Z.to_nat (width image * height image) /\
  forall pos v, lookupZ edges pos = Some v ->
    v = 0 \/ (v = 255 /\ is_edge image frameDetection edgeThreshold pos).
Proof.
  unfold edge_map. destruct (_ <? 0); [discriminate|].
  apply (for_each_invariant
           (fun edges =>
              length edges = Z.to_nat (width image * height image) /\
              forall pos v, lookupZ edges pos = Some v ->
                v = 0 \/ (v = 255 /\ is_edge image frameDetection edgeThreshold pos))).
  - split; [apply length_replicate|].
    intros pos v ->%lookupZ_replicate_Some. left. reflexivity.
  - intros [x y] a a' Hxy [Hlen Ha].
    apply list_elem_of_bind in Hxy as (y' & Hxy & Hy).
    apply list_elem_of_bind in Hxy as (x' & Hxy & Hx).
    apply list_elem_of_singleton in Hxy. injection Hxy as <- <-.
    apply elem_of_seqZ in Hx, Hy.
    destruct (inFrame x y _ _ _) eqn:Hin; simpl negb; cbv iota;
      [|intros [= <-]; split; assumption].
    destruct (data image) as [imageData|] eqn:Hdata; [|discriminate].
    intros [= <-]. split; [rewrite length_storeZ; exact Hlen|].
    intros pos v. destruct (Z.eq_dec (y * width image + x) pos) as [<-|Hne].
    + intros ->%lookupZ_storeZ_same.
      fold (sobel_magnitude imageData (width image) (y * width image + x)).
      destruct (edgeThreshold <? _)%float eqn:Hmag; [right|left; reflexivity].
      split; [reflexivity|]. exists imageData, x, y.
      repeat split; try assumption; lia.
    + rewrite lookupZ_storeZ_other by exact Hne. apply Ha.
Qed.

(** X12.  The edge map has [width * height] elements, each 0 or 255, and an
    element is 255 only at an inner pixel of the frame area whose Sobel
    magnitude is above [edgeThreshold]: the border of the image and the pixels
    outside the frame area are never edges. *)
Theorem edge_map_values (image : Image) (frameDetection : FrameBorder)
    (edgeThreshold : float) (edges : list Z) :
  edge_map image frameDetection edgeThreshold = Returned edges ->
  length edges = Z.to_nat (width image * height image) /\
  Forall (fun v => v = 0 \/ v = 255) edges /\
  forall pos, lookupZ edges pos = Some 255 ->
    is_edge image frameDetection edgeThreshold pos.
Proof.
  intros Hrun. apply edge_map_spec in Hrun as [Hlen Hval].
  split; [exact Hlen|]. split.
  - apply Forall_lookup. intros i v Hi.
    destruct (Hval (Z.of_nat i) v) as [->|[-> _]]; [|left; reflexivity|right; reflexivity].
    unfold lookupZ. destruct (Z.ltb_spec (Z.of_nat i) 0); [lia|].
    rewrite Nat2Z.id. exact Hi.
  - intros pos Hpos. destruct (Hval pos 255 Hpos) as [H0|[_ He]]; [discriminate|exact He].
Qed.

Section NarrowLines.
Variables Math_cos Math_sin : float -> float.

Lemma hough_votes_no_edges (width height rhoSteps : Z) :
  0 <= width * height ->
  hough_votes Math_cos Math_sin (replicate (Z.to_nat (width * height)) 0)
    width height rhoSteps =
  replicate (Z.to_nat (thetaSteps * rhoSteps)) 0.
Proof.
  intros Harea.
  destruct (Z.lt_ge_cases 0 width) as [Hw|Hw];
    [destruct (Z.lt_ge_cases 0 height) as [Hh|Hh]|].
  - apply hough_votes_flat; assumption.
  - unfold hough_votes. apply for_range_empty. lia.
  - unfold hough_votes. apply for_range_invariant; [reflexivity|].
    intros y s _ ->. apply for_range_empty. lia.
Qed.

(** X13.  An image with fewer than three columns or rows has no inner pixel,
    so no edge: with [houghThreshold >= 0] the line detector returns no
    feature, whatever the buffer holds (unless an array cannot be allocated, a
    RangeError). *)
Theorem narrow_image_no_lines (image : Image) (frameDetection : FrameBorder)
    (linesOptions : LinesOptions) :
  width image < 3 \/ height image < 3 ->
  0 <= houghThreshold linesOptions ->
  _extractLineFeatures Math_cos Math_sin image frameDetection linesOptions = Returned [] \/
  _extractLineFeatures Math_cos Math_sin image frameDetection linesOptions
    = Thrown RangeError.
Proof.
  intros Hnarrow Hthr. unfold _extractLineFeatures, edge_map.
  destruct (Z.ltb_spec (width image * height image) 0) as [|Harea]; [right; reflexivity|].
  assert (Hnil : (y ← seqZ 1 (height image - 2); x ← seqZ 1 (width image - 2); [(x, y)])
                 = @nil (Z * Z)).
  { apply bind_nil_all. intros y Hy. apply bind_nil_all. intros x Hx.
    apply elem_of_seqZ in Hx, Hy. lia. }
  rewrite Hnil. simpl.
  destruct (F2Z _) as [rhoSteps|]; [left|right; reflexivity].
  rewrite hough_votes_no_edges by exact Harea.
  rewrite detected_lines_flat by exact Hthr. reflexivity.
Qed.
End NarrowLines.

Lemma narrow_image_no_lines_witness :
  (width tiny_image < 3 \/ height tiny_image < 3) /\
  0 <= houghThreshold DEFAULT_linesOptions /\
  (_extractLineFeatures RefMath.cos RefMath.sin tiny_image no_border DEFAULT_linesOptions
     = Returned [] \/
   _extractLineFeatures RefMath.cos RefMath.sin tiny_image no_border DEFAULT_linesOptions
     = Thrown RangeError).
Proof.
  split; [left; reflexivity|]. split; [discriminate|].
  apply (narrow_image_no_lines RefMath.cos RefMath.sin tiny_image no_border
           DEFAULT_linesOptions); [left; reflexivity|discriminate].
Defined.

Lemma edge_map_values_witness :
  edge_map flat_image no_border 50 = Returned (replicate 12 0) /\
  length (replicate 12 0) = Z.to_nat (3 * 4) /\
  Forall (fun v => v = 0 \/ v = 255) (replicate 12 0) /\
  forall pos, lookupZ (replicate 12 0) pos = Some 255 ->
    is_edge flat_image no_border 50 pos.
Proof.
  assert (Hrun : edge_map flat_image no_border 50 = Returned (replicate 12 0))
    by (vm_compute; reflexivity).
  split; [exact Hrun|].
  exact (edge_map_values flat_image no_border 50 _ Hrun).
Defined.

(** ** Lines come from edges *)

Section LinesNeedEdges.
Variables Math_cos Math_sin : float -> float.

(** X21.  A line feature needs an edge: when the line detector returns a
    feature with [houghThreshold >= 0], some inner pixel of the frame area
    has a Sobel magnitude above [edgeThreshold]. *)
Theorem lines_need_an_edge (image : Image) (frameDetection : FrameBorder)
    (linesOptions : LinesOptions) (fs : list Feature) :
  _extractLineFeatures Math_cos Math_sin image frameDetection linesOptions = Returned fs ->
  0 <= houghThreshold linesOptions ->
  fs <> [] ->
  exists pos, is_edge image frameDetection (edgeThreshold linesOptions) pos.
Proof.
  intros Hrun Hthr Hfs.
  apply extractLines_steps in Hrun as (edges & rhoSteps & Hedges & _ & ->).
  assert (Harea : 0 <= width image * height image).
  { unfold edge_map in Hedges.
    destruct (Z.ltb_spec (width image * height image) 0); [discriminate|assumption]. }
  apply edge_map_spec in Hedges as [Hlen Hval].
  destruct (Forall_Exists_dec (fun v => 0 = v) (fun v => 0 <> v)
              (fun v => Z.eq_dec 0 v) edges)
    as [Hzero|Hedge].
  - exfalso. apply Hfs.
    assert (Hrep : replicate (Z.to_nat (width image * height image)) 0 = edges)
      by (apply replicate_as_Forall; split; assumption).
    rewrite <- Hrep, (hough_votes_no_edges Math_cos Math_sin) by exact Harea.
    rewrite detected_lines_flat by exact Hthr. reflexivity.
  - apply Exists_exists in Hedge as (v & Hv & Hne).
    apply list_elem_of_lookup in Hv as [i Hi].
    destruct (Hval (Z.of_nat i) v) as [->|[_ He]].
    + unfold lookupZ. destruct (Z.ltb_spec (Z.of_nat i) 0); [lia|].
      rewrite Nat2Z.id. exact Hi.
    + contradiction.
    + exists (Z.of_nat i). exact He.
Qed.
End LinesNeedEdges.

Lemma lines_need_an_edge_witness :
  exists pos, is_edge step_image no_border 50 pos.
Proof.
  assert (Hrun : exists f fs,
            _extractLineFeatures RefMath.cos RefMath.sin step_image no_border
              (mkLinesOptions 50 2 30 10) = Returned (f :: fs))
    by (vm_compute; eexists _, _; reflexivity).
  destruct Hrun as (f & fs & Hrun).
  apply (lines_need_an_edge RefMath.cos RefMath.sin step_image no_border
           (mkLinesOptions 50 2 30 10) (f :: fs) Hrun).
  - simpl. lia.
  - discriminate.
Defined.

(** ** The frame area with an undefined side *)

Lemma ltb_nan_r (x y : float) : Prim2SF y = S754_nan -> (x <? y)%float = false.
Proof.
  intros Hy. rewrite ltb_spec, Hy. destruct (Prim2SF x) as [?|?| |? ? ?]; reflexivity.
Qed.

Lemma eqb_nan_l (x y : float) : Prim2SF x = S754_nan -> (x =? y)%float = false.
Proof. intros Hx. rewrite FloatAxioms.eqb_spec, Hx. reflexivity. Qed.

Lemma mul_nan_r (x y : float) : Prim2SF y = S754_nan -> Prim2SF (x * y) = S754_nan.
Proof.
  intros Hy. rewrite mul_spec, Hy. destruct (Prim2SF x) as [?|?| |? ? ?]; reflexivity.
Qed.

Lemma Math_floor_nan (x : float) : Prim2SF x = S754_nan -> Prim2SF (Math_floor x) = S754_nan.
Proof. intros Hx. unfold Math_floor. rewrite Hx. exact Hx. Qed.

(** X14.  A side of the frame border whose fraction is NaN (a field left
    out of the object) has no band: with [top] NaN a point is in the frame
    area exactly when it is in the left, right or bottom band. *)
Theorem isInFrameArea_top_NaN (x y width height : float) (b : FrameBorder) :
  Prim2SF (top b) = S754_nan ->
  isInFrameArea x y width height b =
  ((x <? leftPixels width b) || (rightPixels width b <? x) ||
   (bottomPixels height b <? y))%float.
Proof.
  intros Htop. unfold isInFrameArea.
  rewrite (eqb_nan_l (top b) 0 Htop). cbn [andb].
  rewrite (ltb_nan_r y (Math_floor (height * top b)))
    by (apply Math_floor_nan, mul_nan_r, Htop).
  rewrite orb_false_r. reflexivity.
Qed.

Lemma isInFrameArea_top_NaN_witness :
  Prim2SF (top (mkFrameBorder nan 0 0.1 0)) = S754_nan /\
  isInFrameArea 50 5 100 100 (mkFrameBorder nan 0 0.1 0) = false /\
  isInFrameArea 50 95 100 100 (mkFrameBorder nan 0 0.1 0) = true.
Proof.
  split; [reflexivity|]. split.
  - rewrite (isInFrameArea_top_NaN 50 5 100 100 (mkFrameBorder nan 0 0.1 0)); reflexivity.
  - rewrite (isInFrameArea_top_NaN 50 95 100 100 (mkFrameBorder nan 0 0.1 0)); reflexivity.
Defined.

(** ** The template variance *)

(** X15.  Lowering the threshold of [_templateVar] keeps every window that
    passed, with the same value; raising it keeps every rejection. *)
Theorem templateVar_threshold_monotone (image : Image) (cx cy : Z) (low high : float)
    (imageDataCumsum imageDataSqrCumsum : Cumsum) :
  (low * low <=? high * high)%float = true ->
  (forall vlen,
     _templateVar image cx cy high imageDataCumsum imageDataSqrCumsum = Some vlen ->
     _templateVar image cx cy low imageDataCumsum imageDataSqrCumsum = Some vlen) /\
  (_templateVar image cx cy low imageDataCumsum imageDataSqrCumsum = None ->
   _templateVar image cx cy high imageDataCumsum imageDataSqrCumsum = None).
Proof.
  intros Hle. split.
  - intros vlen. apply templateVar_weaken, Hle.
  - intros Hlow.
    destruct (_templateVar image cx cy high _ _) as [vlen|] eqn:Hhigh; [|reflexivity].
    rewrite (templateVar_weaken _ _ _ _ _ _ _ _ Hle Hhigh) in Hlow. discriminate.
Qed.

Lemma templateVar_threshold_monotone_witness :
  (0 * 0 <=? TEMPLATE_SD_THRESH * TEMPLATE_SD_THRESH)%float = true /\
  exists vlen,
    _templateVar sample_image 8 8 TEMPLATE_SD_THRESH
      (new_Cumsum sample_data 17 17) (new_Cumsum (map (fun v => v * v) sample_data) 17 17)
      = Some vlen /\
    _templateVar sample_image 8 8 0
      (new_Cumsum sample_data 17 17) (new_Cumsum (map (fun v => v * v) sample_data) 17 17)
      = Some vlen.
Proof.
  split; [reflexivity|].
  assert (Hhigh : exists vlen,
            _templateVar sample_image 8 8 TEMPLATE_SD_THRESH
              (new_Cumsum sample_data 17 17)
              (new_Cumsum (map (fun v => v * v) sample_data) 17 17) = Some vlen)
    by (vm_compute; eexists; reflexivity).
  destruct Hhigh as [vlen Hhigh]. exists vlen. split; [exact Hhigh|].
  exact (proj1 (templateVar_threshold_monotone sample_image 8 8 0 TEMPLATE_SD_THRESH
                  _ _ eq_refl) vlen Hhigh).
Defined.

(** ** The pointer walk of [_getSimilarity] *)

Lemma for_range_snoc {St} (lo hi : Z) (body : Z -> St -> St) (s : St) :
  lo <= hi -> for_range lo (hi + 1) body s = body hi (for_range lo hi body s).
Proof.
  intros Hle. unfold for_range.
  replace (hi + 1 - lo) with ((hi - lo) + 1) by lia.
  rewrite seqZ_app by lia. rewrite fold_left_app. simpl.
  replace (lo + (hi - lo)) with hi by lia. reflexivity.
Qed.

Lemma pointer_walk_row imageData n p1 p2 (sxy : float) :
  0 <= n ->
  for_range 0 n (fun _ '(sxy, (p1, p2)) =>
    ((sxy + px imageData p1 * px imageData p2)%float, (p1 + 1, p2 + 1))) (sxy, (p1, p2)) =
  (for_range 0 n (fun i sxy =>
     (sxy + px imageData (p1 + i) * px imageData (p2 + i))%float) sxy,
   (p1 + n, p2 + n)).
Proof.
  intros Hn.
  apply (for_range_indexed
           (fun i st => st = (for_range 0 i (fun i sxy =>
                                (sxy + px imageData (p1 + i) * px imageData (p2 + i))%float) sxy,
                              (p1 + i, p2 + i)))); [exact Hn| |].
  - rewrite for_range_empty by lia. rewrite !Z.add_0_r. reflexivity.
  - intros i a Hi ->. rewrite for_range_snoc by lia.
    rewrite !Z.add_assoc. reflexivity.
Qed.


(** X16.  The two moving pointers of [_getSimilarity] visit the two windows
    by rows: the cross term is the sum, in that order, of the products
    [imageData[(cy + j) * width + cx + i] * imageData[(ty + j) * width + tx + i]]. *)
Theorem pointer_walk_is_window_sum (imageData : list Z) (width templateWidth cx cy tx ty : Z) :
  cross_term imageData width templateWidth (cy * width + cx) (ty * width + tx) =
  window_product_sum imageData width templateWidth cx cy tx ty.
Proof.
  unfold cross_term, window_product_sum.
  destruct (Z.le_gt_cases 0 templateWidth) as [Hn|Hn];
    [|rewrite !for_range_empty by lia; reflexivity].
  match goal with |- fst ?l = ?r => assert (H : l = (r, (cy * width + cx + templateWidth * width,
                                                      ty * width + tx + templateWidth * width)))
  end; [|rewrite H; reflexivity].
  apply (for_range_indexed
           (fun j st => st = (for_range 0 j (fun j sxy =>
                                for_range 0 templateWidth (fun i sxy =>
                                  (sxy + px imageData ((cy + j) * width + (cx + i))
                                         * px imageData ((ty + j) * width + (tx + i)))%float)
                                  sxy) 0%float,
                              (cy * width + cx + j * width, ty * width + tx + j * width))));
    [exact Hn| |].
  - rewrite for_range_empty by lia. rewrite !Z.add_0_r. reflexivity.
  - intros j a Hj ->. rewrite for_range_snoc by lia.
    rewrite pointer_walk_row by exact Hn. f_equal.
    + apply for_range_ext. intros i s _. do 3 f_equal; lia.
    + f_equal; lia.
Qed.

(** ** The similarity of two windows *)


(** The contrast test of [_selectFeature] lets no zero [vlen] through. *)
Lemma contrast_nonzero (vlen : float) :
  (vlen / Z2F (TEMPLATE_SIZE * 2 + 1) <? SD_THRESH)%float = false ->
  (vlen =? 0)%float = false.
Proof.
  rewrite FloatAxioms.eqb_spec, ltb_spec, div_spec.
  destruct (Prim2SF vlen) as [[]|[]| |[] m e]; try reflexivity;
    vm_compute; discriminate.
Qed.




(** ** Types and exceptions through the dispatcher *)

Lemma for_each_throws {St X} (xs : list X) (body : X -> St -> outcome St) (x : X) (s : St) :
  x ∈ xs -> (forall a, exists e, body x a = Thrown e) ->
  exists e, for_each xs body s = Thrown e.
Proof.
  intros Hx Hthrow. revert s.
  induction xs as [|x' xs IH]; intros s; [inversion Hx|].
  simpl. apply elem_of_cons in Hx as [<-|Hx].
  - destruct (Hthrow s) as [e ->]. exists e. reflexivity.
  - destruct (body x' s) as [a|e]; simpl; [apply IH, Hx|exists e; reflexivity].
Qed.

(** X17.  Every feature [extract] returns carries one of the requested
    modes as its [type]. *)
Theorem extract_feature_types (Math_cos Math_sin : float -> float) (image : Image)
    (frameDetection : option FrameBorder) (detectionOptions : option DetectionOptions)
    (fs : list Feature) :
  extract Math_cos Math_sin image frameDetection detectionOptions = Returned fs ->
  Forall (fun f => feature_type f
                   ∈ merged_modes (default DEFAULT_DETECTION_OPTIONS detectionOptions)) fs.
Proof.
  unfold extract.
  apply (for_each_invariant
           (fun acc => Forall (fun f => feature_type f ∈ merged_modes
                                 (default DEFAULT_DETECTION_OPTIONS detectionOptions)) acc));
    [constructor|].
  intros mode acc acc' Hmode Hacc.
  destruct (run_mode _ _ _ _ _ mode) as [features|e] eqn:Hrun; simpl; [|discriminate].
  intros [= <-]. apply Forall_app. split; [exact Hacc|].
  apply run_mode_types in Hrun.
  eapply Forall_impl; [exact Hrun|]. intros f ->. exact Hmode.
Qed.

Lemma extract_feature_types_witness :
  extract RefMath.cos RefMath.sin sample_image None None =
    Returned [Corner 6 10; Corner 8 8] /\
  Forall (fun f => feature_type f ∈ ["corner"%string]) [Corner 6 10; Corner 8 8].
Proof.
  assert (Hex : extract RefMath.cos RefMath.sin sample_image None None =
                Returned [Corner 6 10; Corner 8 8]) by (vm_compute; reflexivity).
  split; [exact Hex|].
  exact (extract_feature_types RefMath.cos RefMath.sin sample_image None None _ Hex).
Defined.

(** X18.  When the color mode is requested with a [numClusters] that is
    negative or not below 2^32, the call throws, whatever the other modes
    found: [new Array(numClusters)] raises a RangeError, and no partial result
    is returned. *)
Theorem extract_invalid_numClusters (Math_cos Math_sin : float -> float) (image : Image)
    (frameDetection : option FrameBorder) (detectionOptions : DetectionOptions) :
  DETECTION_MODES.COLOR ∈ merged_modes detectionOptions ->
  numClusters (merge_colorOptions (colorOptions detectionOptions)) < 0 \/
  2 ^ 32 <= numClusters (merge_colorOptions (colorOptions detectionOptions)) ->
  exists e, extract Math_cos Math_sin image frameDetection (Some detectionOptions) = Thrown e.
Proof.
  intros Hmode Hbad. unfold extract.
  apply (for_each_throws _ _ DETECTION_MODES.COLOR); [exact Hmode|].
  intros acc. exists RangeError.
  unfold run_mode. simpl String.eqb. cbv iota.
  change (default DEFAULT_DETECTION_OPTIONS (Some detectionOptions)) with detectionOptions.
  unfold _extractColorFeatures. cbv zeta.
  assert (Hc : (numClusters (merge_colorOptions (colorOptions detectionOptions)) <? 0)
               || (2 ^ 32 <=? numClusters (merge_colorOptions (colorOptions detectionOptions)))
               = true).
  { apply orb_true_iff.
    destruct Hbad; [left; apply Z.ltb_lt|right; apply Z.leb_le]; assumption. }
  rewrite Hc. reflexivity.
Qed.

Lemma extract_invalid_numClusters_witness :
  exists e,
    extract RefMath.cos RefMath.sin sample_image None
      (options_with ["corner"; "color"]%string
         (Some (mkColorOptionsArg (Some (-1)) None None)) None) = Thrown e.
Proof.
  apply (extract_invalid_numClusters RefMath.cos RefMath.sin sample_image None
           {| modes := Some (ModeArray ["corner"; "color"]%string); cornerOptions := None;
              colorOptions := Some (mkColorOptionsArg (Some (-1)) None None);
              linesOptions := None |}).
  - simpl. apply list_elem_of_further, list_elem_of_here.
  - left. simpl. lia.
Defined.

(** ** A [null] buffer *)




(** ** Options that are not read *)

(** X20.  [extract] reads neither [image.scale], nor [cornerOptions], nor
    the [minLineLength] and [maxLineGap] of [linesOptions]: changing them
    changes nothing. *)
Theorem extract_ignores_unused_options (Math_cos Math_sin : float -> float) (image : Image)
    (frameDetection : option FrameBorder) (ms : option Modes)
    (corner corner' : option CornerOptions) (color : option ColorOptionsArg)
    (lines : LinesOptionsArg) (scale' : float) (minLineLength' maxLineGap' : option Z) :
  extract Math_cos Math_sin (set_scale image scale') frameDetection
    (Some (mkDetectionOptions ms corner' color
             (Some (set_line_lengths lines minLineLength' maxLineGap')))) =
  extract Math_cos Math_sin image frameDetection
    (Some (mkDetectionOptions ms corner color (Some lines))).
Proof.
  unfold extract. simpl default.
  generalize (@nil Feature) as acc.
  match goal with |- forall acc, for_each ?xs _ _ = for_each ?ys _ _ =>
    change xs with ys; induction ys as [|mode modes IH] end; intros acc; [reflexivity|].
  simpl.
  match goal with |- (?a ≫= _) ≫= _ = (?b ≫= _) ≫= _ => assert (Hrun : a = b) end.
  { unfold run_mode.
    destruct (String.eqb mode DETECTION_MODES.CORNER); [reflexivity|].
    destruct (String.eqb mode DETECTION_MODES.COLOR); [reflexivity|].
    destruct (String.eqb mode DETECTION_MODES.LINES); reflexivity. }
  rewrite Hrun.
  destruct (run_mode _ _ _ _ _ mode) as [fs|e]; simpl; [apply IH|reflexivity].
Qed.
